(** * Blog content API: authentication gate, ownership policy, handlers

    A shallow embedding of the Express handlers of the blog API
    (server/middleware/auth.js, server/routes/posts.js,
    server/routes/auth.js, server/routes/categories.js and
    server/models/Category.js) and the properties of the request pipeline
    built around the token-based authentication contract.

    Conventions of the embedding:
    - a handler is a function from the document store and the request to
      the new store and an [Outcome]: a response, a call of [next()], or
      a call of [next(err)];
    - JavaScript [undefined] is [None];
    - JavaScript numbers that the handlers compute with are integers and
      are modelled in [Z]; the model is exact as long as the values stay
      below 2^53;
    - strings are sequences of code units below 256; the white space
      among them is TAB, LF, VT, FF, CR, SP and NBSP (160);
    - identifiers are kept in the store in canonical form, 24 lower-case
      hexadecimal digits; the statements that compare a value of the
      request with them ask for that form, and the statements about page
      and limit carry the bound 2^53 - 1;
    - the clock is the number of seconds since the epoch. *)

From Stdlib Require Import ZArith Lia Ascii String List Sorted Permutation.
From stdpp Require Import base decidable option list strings gmap sorting
  pretty countable.

Local Open Scope string_scope.
Local Open Scope list_scope.
Local Open Scope Z_scope.

(** ** JavaScript built-ins used by the handlers *)

Module JS.

(** [s.startsWith(p)] *)
Definition startsWith (s p : string) : bool := String.prefix p s.

(** [s.split(sep)] for a separator of one character. *)
Fixpoint split (sep : ascii) (s : string) : list string :=
  match s with
  | EmptyString => [EmptyString]
  | String c r =>
      if Ascii.eqb c sep then EmptyString :: split sep r
      else match split sep r with
           | w :: ws => String c w :: ws
           | [] => [String c EmptyString]
           end
  end.

(** Truthiness of a value that is a string or [undefined]. *)
Definition truthy (v : option string) : bool :=
  match v with
  | Some s => negb (String.eqb s "")
  | None => false
  end.

(** White space in the sense of [StrWhiteSpaceChar] among the code units
    below 256: TAB, LF, VT, FF, CR, SP and NBSP. *)
Definition isWhiteSpace (c : ascii) : bool :=
  match N_of_ascii c with
  | 9%N | 10%N | 11%N | 12%N | 13%N | 32%N | 160%N => true
  | _ => false
  end.

Fixpoint trimStart (s : string) : string :=
  match s with
  | String c r => if isWhiteSpace c then trimStart r else s
  | EmptyString => EmptyString
  end.

Fixpoint trimEnd (s : string) : string :=
  match s with
  | String c r =>
      match trimEnd r with
      | EmptyString => if isWhiteSpace c then EmptyString
                       else String c EmptyString
      | r' => String c r'
      end
  | EmptyString => EmptyString
  end.

(** [s.trim()] *)
Definition trim (s : string) : string := trimEnd (trimStart s).

(** Value of a character as a digit in the given radix. *)
Definition digitValue (radix : Z) (c : ascii) : option Z :=
  let n := Z.of_N (N_of_ascii c) in
  let v := if (48 <=? n) && (n <=? 57) then Some (n - 48)
           else if (97 <=? n) && (n <=? 122) then Some (n - 87)
           else if (65 <=? n) && (n <=? 90) then Some (n - 55)
           else None in
  match v with
  | Some d => if d <? radix then Some d else None
  | None => None
  end.

(** Value of the longest prefix of digits; [acc] is [None] until a
    digit has been read. *)
Fixpoint parseDigits (radix : Z) (s : string) (acc : option Z) : option Z :=
  match s with
  | EmptyString => acc
  | String c r =>
      match digitValue radix c with
      | Some d => parseDigits radix r (Some (default 0 acc * radix + d))
      | None => acc
      end
  end.

(** [ToString] of a string or [undefined]. *)
Definition ToString (v : option string) : string := default "undefined" v.

(** [parseInt(v)] with no radix argument; [None] is [NaN]. The result is
    the integer that the digits spell, which is the number that
    JavaScript returns as long as it is at most 2^53 - 1. *)
Definition parseInt (v : option string) : option Z :=
  let s := trimStart (ToString v) in
  let '(sign, s) :=
    match s with
    | String "-" r => (-1, r)
    | String "+" r => (1, r)
    | _ => (1, s)
    end in
  let '(radix, s) :=
    match s with
    | String "0" (String "x" r) | String "0" (String "X" r) => (16, r)
    | _ => (10, s)
    end in
  (fun n => sign * n) <$> parseDigits radix s None.

(** [x || d] for a number [x]: [NaN] and [0] are falsy. *)
Definition orDefault (x : option Z) (d : Z) : Z :=
  match x with
  | Some n => if n =? 0 then d else n
  | None => d
  end.

(** [Math.ceil(a / b)] for integers [a] and [b], [b] not [0]. *)
Definition ceilDiv (a b : Z) : Z := - ((- a) / b).

End JS.

(** ** JSON values and request bodies *)

#[local] Set Warnings "-register-all".

Inductive json : Type :=
  | JNull
  | JBool (b : bool)
  | JNum (n : Z)
  | JStr (s : string)
  | JArr (l : list json)
  | JObj (l : list (string * json)).

(** ** Exceptions and the [try]/[catch] blocks of the handlers *)

Inductive Exception : Type :=
  | JsonWebTokenError (message : string)
  | TokenExpiredError
  | TypeError (message : string)
  | Error (message : string)
  | MongooseError (message : string).

Inductive Completion (A : Type) : Type :=
  | Return (a : A)
  | Throw (e : Exception).
Arguments Return {A} a.
Arguments Throw {A} e.

Definition bind {A B} (c : Completion A) (k : A -> Completion B)
  : Completion B :=
  match c with
  | Return a => k a
  | Throw e => Throw e
  end.

#[global] Instance Completion_bind : MBind Completion :=
  fun A B k c => bind c k.
#[global] Instance Completion_ret : MRet Completion := @Return.

Definition try_catch {A} (block : Completion A) (handler : Exception -> A)
  : A :=
  match block with
  | Return a => a
  | Throw e => handler e
  end.

(** ** Casts of the store's object mapper *)

Module Mongoose.
(** Casts of a JSON value to the type of a path; [None] when the value
    cannot be stored in the path, in which case [save()] rejects and a query
    throws. *)
Definition castString (v : json) : option string :=
  match v with
  | JStr s => Some s
  | JNum n => Some (pretty n)
  | JBool b => Some (if b then "true" else "false")
  | _ => None
  end.

Definition isHexDigit (c : ascii) : bool :=
  match JS.digitValue 16 c with Some _ => true | None => false end.

Definition castObjectId (v : json) : option string :=
  match v with
  | JStr s =>
      if (String.length s =? 24)%nat
         && forallb isHexDigit (list_ascii_of_string s)
      then Some s else None
  | _ => None
  end.

Definition castBoolean (v : json) : option bool :=
  match v with
  | JBool b => Some b
  | _ => None
  end.

Definition castStrings (v : json) : option (list string) :=
  match v with
  | JArr l => mapM castString l
  | _ => None
  end.

Definition CastError : Exception := MongooseError "CastError".
Definition ValidationError : Exception := MongooseError "ValidationError".
Definition DuplicateKey : Exception := MongooseError "E11000 duplicate key".
End Mongoose.

(** ** Documents of the store *)

Module User.
(** Modelled from the spec: the User model (server/models/User.js) is not
    part of the sources. An identity is {id, username, email,
    passwordHash}; [password] is [None] in a record read with
    [select('-password')]. *)
Record t : Type := mk {
  _id : string;
  username : string;
  email : string;
  password : option string;
}.

(** The [id] virtual of a document: its [_id] as a string. *)
Definition id (u : t) : string := _id u.

(** [findById(id)] *)
Definition findById (users : list t) (i : string) : option t :=
  List.find (fun u => String.eqb (_id u) i) users.

(** [findOne({ email })]; the value of the filter is cast to the type
    of the path. *)
Definition findOne_email (users : list t) (v : option json)
  : Completion (option t) :=
  match v with
  | None | Some JNull => Return None
  | Some x =>
      match Mongoose.castString x with
      | Some e => Return (List.find (fun u => String.eqb (email u) e) users)
      | None => Throw Mongoose.CastError
      end
  end.

(** [.select('-password')] *)
Definition select_minus_password (u : t) : t :=
  mk (_id u) (username u) (email u) None.
End User.

Module Category.
(** server/models/Category.js: a category has a [name]; identifier and
    creation time come from the store and the [timestamps] option. *)
Record t : Type := mk {
  _id : string;
  name : string;
  createdAt : Z;
}.

(** The schema of [name]: [trim: true] is a setter, [required] and
    [maxlength: 50] are validators run by [save()]. *)
Definition set_name (v : string) : string := JS.trim v.

Definition maxlength : nat := 50.

Definition validate_name (n : string) : bool :=
  negb (String.eqb n "") && (String.length n <=? maxlength)%nat.

(** [findOne({ name })]: the value of the filter is cast with the
    schema of the path, which runs the [trim] setter on it. *)
Definition findOne_name (cats : list t) (v : option json)
  : Completion (option t) :=
  match v with
  | None | Some JNull => Return None
  | Some x =>
      match Mongoose.castString x with
      | Some n =>
          Return (List.find (fun c => String.eqb (name c) (set_name n)) cats)
      | None => Throw Mongoose.CastError
      end
  end.

(** [new Category({ name })] with the identifier and the creation time
    that the store assigns; a value that cannot be cast leaves the path
    unset. *)
Definition new (oid : string) (now : Z) (v : option json) : t :=
  mk oid (default "" (set_name <$> (v ≫= Mongoose.castString))) now.

(** [save()] of a new document: validation, then insertion under the
    [unique] index on [name]. *)
Definition save (cats : list t) (c : t) : Completion (list t) :=
  if negb (validate_name (name c)) then Throw Mongoose.ValidationError
  else if existsb (fun d => String.eqb (name d) (name c)) cats
  then Throw Mongoose.DuplicateKey
  else Return (cats ++ [c]).

Definition byName (a b : t) : Prop := String.le (name a) (name b).

#[global] Instance byName_dec : RelDecision byName :=
  fun a b => decide (String.le (name a) (name b)).

(** [find().sort({ name: 1 })] *)
Definition find_sorted_by_name (cats : list t) : list t :=
  merge_sort byName cats.

(** The categories of a store that was filled through the model: every
    name went through the setter and the validators of the schema. *)
Definition wf (cats : list t) : Prop :=
  Forall (fun c => set_name (name c) = name c
                   /\ validate_name (name c) = true) cats.
End Category.

Module Comment.
(** Modelled from the spec: a comment of a post is {user reference,
    content, createdAt}. *)
Record t : Type := mk {
  user : string;
  content : string;
  createdAt : Z;
}.
End Comment.

Module Post.
(** Modelled from the spec: the Post model (server/models/Post.js) is not
    part of the sources. A post is {id, title, content, category, author,
    tags, excerpt, featuredImage, isPublished, comments}, with a slug and
    a creation time; references are identifiers in canonical string
    form. *)
Record t : Type := mk {
  _id : string;
  title : string;
  content : string;
  category : string;
  author : string;
  featuredImage : string;
  excerpt : string;
  tags : list string;
  isPublished : bool;
  comments : list Comment.t;
  slug : string;
  createdAt : Z;
}.

Definition set_title (v : string) (p : t) : t :=
  mk (_id p) v (content p) (category p) (author p) (featuredImage p)
     (excerpt p) (tags p) (isPublished p) (comments p) (slug p) (createdAt p).
Definition set_content (v : string) (p : t) : t :=
  mk (_id p) (title p) v (category p) (author p) (featuredImage p)
     (excerpt p) (tags p) (isPublished p) (comments p) (slug p) (createdAt p).
Definition set_category (v : string) (p : t) : t :=
  mk (_id p) (title p) (content p) v (author p) (featuredImage p)
     (excerpt p) (tags p) (isPublished p) (comments p) (slug p) (createdAt p).
Definition set_author (v : string) (p : t) : t :=
  mk (_id p) (title p) (content p) (category p) v (featuredImage p)
     (excerpt p) (tags p) (isPublished p) (comments p) (slug p) (createdAt p).
Definition set_featuredImage (v : string) (p : t) : t :=
  mk (_id p) (title p) (content p) (category p) (author p) v
     (excerpt p) (tags p) (isPublished p) (comments p) (slug p) (createdAt p).
Definition set_excerpt (v : string) (p : t) : t :=
  mk (_id p) (title p) (content p) (category p) (author p) (featuredImage p)
     v (tags p) (isPublished p) (comments p) (slug p) (createdAt p).
Definition set_tags (v : list string) (p : t) : t :=
  mk (_id p) (title p) (content p) (category p) (author p) (featuredImage p)
     (excerpt p) v (isPublished p) (comments p) (slug p) (createdAt p).
Definition set_isPublished (v : bool) (p : t) : t :=
  mk (_id p) (title p) (content p) (category p) (author p) (featuredImage p)
     (excerpt p) (tags p) v (comments p) (slug p) (createdAt p).

(** [post[key] = value] for one own property of the assigned object:
    the value is cast to the type of the path and set. A key that is not
    one of the paths below does not change them; what the assignment of
    another key does to the document is outside this model. *)
Definition assign1 (key : string) (v : json) (p : t) : option t :=
  if String.eqb key "title" then
    (fun x => set_title x p) <$> Mongoose.castString v
  else if String.eqb key "content" then
    (fun x => set_content x p) <$> Mongoose.castString v
  else if String.eqb key "category" then
    (fun x => set_category x p) <$> Mongoose.castObjectId v
  else if String.eqb key "author" then
    (fun x => set_author x p) <$> Mongoose.castObjectId v
  else if String.eqb key "featuredImage" then
    (fun x => set_featuredImage x p) <$> Mongoose.castString v
  else if String.eqb key "excerpt" then
    (fun x => set_excerpt x p) <$> Mongoose.castString v
  else if String.eqb key "tags" then
    (fun x => set_tags x p) <$> Mongoose.castStrings v
  else if String.eqb key "isPublished" then
    (fun x => set_isPublished x p) <$> Mongoose.castBoolean v
  else Some p.

(** [Object.assign(post, body)]: every own property of [body] is
    assigned to the document. *)
Definition assign (p : t) (body : gmap string json) : option t :=
  map_fold (fun k v acc => acc ≫= assign1 k v) (Some p) body.

(** [findById(id)] for an [id] in the canonical spelling, in which the
    store keeps the identifiers; the cast of other strings is outside
    this model. *)
Definition findById (posts : list t) (i : string) : option t :=
  List.find (fun p => String.eqb (_id p) i) posts.

(** [save()] of a document read from the store: it replaces the stored
    document with the same [_id]. *)
Definition save (posts : list t) (p : t) : list t :=
  List.map (fun q => if String.eqb (_id q) (_id p) then p else q) posts.

(** [remove()] *)
Definition remove (posts : list t) (p : t) : list t :=
  List.filter (fun q => negb (String.eqb (_id q) (_id p))) posts.
End Post.

Record DB : Type := mkDB {
  users : list User.t;
  posts : list Post.t;
  categories : list Category.t;
}.

(** ** The jsonwebtoken library: [jwt.sign] and [jwt.verify] *)

Module jwt.

(** The claims of a token made by [generateToken]. *)
Record Payload : Type := mkPayload {
  id : string;
  iat : Z;
  exp : Z;
}.

(** The cryptography and the wire format of a token are those of the
    library: [hs256 secret payload] is the signature of the payload
    under the secret, [encode payload signature] the compact
    serialization, [decode] its parser. *)
Class Jws : Type := {
  hs256 : string -> Payload -> string;
  encode : Payload -> string -> string;
  decode : string -> option (Payload * string);
}.

(** [ms('7d')], in milliseconds. *)
Definition ms_7d : Z := 7 * 24 * 60 * 60 * 1000.

Section Library.
Context {J : Jws}.

(** [jwt.sign({ id }, secret, { expiresIn })] at clock [now]; the
    span is given in seconds. *)
Definition sign (subject : string) (secret : option string)
    (expiresIn : Z) (now : Z) : Completion string :=
  if negb (JS.truthy secret) then
    Throw (Error "secretOrPrivateKey must have a value")
  else
    let payload := mkPayload subject now (now + expiresIn) in
    Return (encode payload (hs256 (default "" secret) payload)).

(** [jwt.verify(token, secret)] at clock [now]. *)
Definition verify (token : option string) (secret : option string)
    (now : Z) : Completion Payload :=
  if negb (JS.truthy token) then
    Throw (JsonWebTokenError "jwt must be provided")
  else
    match decode (default "" token) with
    | None => Throw (JsonWebTokenError "jwt malformed")
    | Some (payload, signature) =>
        if negb (JS.truthy secret) then
          Throw (JsonWebTokenError "secret or public key must be provided")
        else if negb (String.eqb signature
                        (hs256 (default "" secret) payload)) then
          Throw (JsonWebTokenError "invalid signature")
        else if exp payload <=? now then Throw TokenExpiredError
        else Return payload
    end.
End Library.
End jwt.

(** ** The express-validator library *)

Module Validator.

Record Error : Type := mkError {
  value : option json;
  msg : string;
  param : string;
  location : string;
}.

(** [String(v)] of a JSON value, with [null] as the empty string. *)
Fixpoint jsString (v : json) : string :=
  match v with
  | JNull => ""
  | JBool b => if b then "true" else "false"
  | JNum n => pretty n
  | JStr s => s
  | JArr l => String.concat "," (List.map jsString l)
  | JObj _ => "[object Object]"
  end.

(** The string that the validators of a field look at. *)
Definition toString (v : option json) : string :=
  match v with
  | None => ""
  | Some (JArr (x :: _)) => jsString x
  | Some x => jsString x
  end.

(** validator.js: [isEmail] is the library's. *)
Class ValidatorJs : Type := { isEmail : string -> bool }.

Inductive Rule : Type :=
  | notEmpty
  | isLength (min : nat) (max : option nat)
  | isEmailRule.

Record Chain : Type := mkChain {
  field : string;
  optional : bool;
  rules : list (Rule * string);
}.

Definition defaultMessage : string := "Invalid value".

Section Run.
Context {V : ValidatorJs}.

Definition check (r : Rule) (s : string) : bool :=
  match r with
  | notEmpty => negb (String.length s =? 0)%nat
  | isLength lo hi =>
      (lo <=? String.length s)%nat
      && match hi with
         | Some m => (String.length s <=? m)%nat
         | None => true
         end
  | isEmailRule => isEmail s
  end.

(** One chain on a body: every rule that fails adds its error; an
    optional chain is skipped when the field is [undefined]. *)
Definition runChain (body : gmap string json) (c : Chain) : list Error :=
  let v := body !! field c in
  match optional c, v with
  | true, None => []
  | _, _ =>
      omap (fun '(r, m) =>
              if check r (toString v) then None
              else Some (mkError v m (field c) "body"))
           (rules c)
  end.

Definition runChains (body : gmap string json) (cs : list Chain)
  : list Error :=
  List.concat (List.map (runChain body) cs).
End Run.
End Validator.

(** ** Requests, responses and middleware *)

Record Pagination : Type := mkPagination {
  total : Z;
  page : Z;
  pages : Z;
}.

(** A post whose [author] and [category] references have been populated
    with the projections [username] and [name]; a reference to a missing
    document is populated with [null], here [None]. *)
Record PopulatedPost : Type := mkPopulatedPost {
  post_of : Post.t;
  author_username : option string;
  category_name : option string;
}.

(** Order of the populated posts of a page: newest first. *)
Definition newerFirstPopulated (a b : PopulatedPost) : Prop :=
  Post.createdAt (post_of b) <= Post.createdAt (post_of a).

Inductive Data : Type :=
  | DataPost (p : Post.t)
  | DataCategory (c : Category.t)
  | DataCategories (l : list Category.t)
  | DataAuth (user_id username : string) (email : option json) (token : string).

(** The JSON envelope of a response. *)
Inductive Body : Type :=
  | Failure (error : string)
  | Failures (errors : list Validator.Error)
  | Success (data : Data)
  | SuccessMessage (message : string)
  | SuccessPage (data : list PopulatedPost) (pagination : Pagination).

Record Response : Type := mkResponse {
  status : Z;
  body : Body;
}.

Record Request : Type := mkRequest {
  authorization : option string;
  params_id : string;
  query : gmap string string;
  req_body : gmap string json;
  user : option User.t;
  validationErrors : list Validator.Error;
}.

Definition with_user (req : Request) (u : User.t) : Request :=
  mkRequest (authorization req) (params_id req) (query req) (req_body req)
            (Some u) (validationErrors req).

Definition with_query (req : Request) (q : gmap string string) : Request :=
  mkRequest (authorization req) (params_id req) q (req_body req)
            (user req) (validationErrors req).

Definition with_validationErrors (req : Request) (es : list Validator.Error)
  : Request :=
  mkRequest (authorization req) (params_id req) (query req) (req_body req)
            (user req) es.

Inductive Outcome : Type :=
  | Respond (res : Response)
  | Next (req : Request)
  | NextErr (err : Exception).

(** What the process and the store supply to a request: the signing
    secret [process.env.JWT_SECRET], the clock, and the identifier given
    to a document created by the request. *)
Record Env : Type := mkEnv {
  JWT_SECRET : option string;
  now : Z;
  newObjectId : string;
}.

Definition Middleware : Type := Env -> DB -> Request -> DB * Outcome.

(** A route is a list of middleware; each runs when the one before it
    called [next()]. *)
Fixpoint route (ms : list Middleware) (env : Env) (db : DB) (req : Request)
  : DB * Outcome :=
  match ms with
  | [] => (db, Next req)
  | m :: ms' =>
      match m env db req with
      | (db', Next req') => route ms' env db' req'
      | stop => stop
      end
  end.

(** [res.status(st).json(b)] *)
Definition respond (st : Z) (b : Body) : Outcome :=
  Respond (mkResponse st b).

(** The validation chains of a route run as middleware and record their
    errors in the request; [validationResult(req)] reads them. *)
Definition validate {V : Validator.ValidatorJs} (cs : list Validator.Chain)
  : Middleware :=
  fun _ db req =>
    (db, Next (with_validationErrors req
                 (validationErrors req
                  ++ Validator.runChains (req_body req) cs))).

Definition validationResult (req : Request) : list Validator.Error :=
  validationErrors req.

Definition isEmpty {A} (l : list A) : bool :=
  match l with [] => true | _ => false end.

(** ** server/middleware/auth.js *)

Definition authMiddleware {J : jwt.Jws} : Middleware :=
  fun env db req =>
    if JS.truthy (authorization req)
       && JS.startsWith (default "" (authorization req)) "Bearer"
    then
      try_catch
        (let token := JS.split " " (default "" (authorization req)) !! 1%nat in
         decoded ← jwt.verify token (JWT_SECRET env) (now env);
         let found := User.select_minus_password
                        <$> User.findById (users db) (jwt.id decoded) in
         match found with
         | None => mret (db, respond 401 (Failure "User not found"))
         | Some u => mret (db, Next (with_user req u))
         end)
        (fun err => (db, respond 401 (Failure "Not authorized")))
    else (db, respond 401 (Failure "No token provided")).

(** ** server/routes/posts.js *)

Module posts.

(** The query of the list handler: [find(filter)], [sort({ createdAt:
    -1 })], [skip(n)], [limit(n)] and the two [populate] calls. The
    store sorts before it skips and limits, whatever the order of the
    calls that build the query. The category of the filter is compared
    in the canonical spelling of the identifiers; the cast of other
    strings is outside this model. *)
Definition find (filter : option string) (ps : list Post.t) : list Post.t :=
  match filter with
  | Some c => List.filter (fun p => String.eqb (Post.category p) c) ps
  | None => ps
  end.

Definition newerFirst (a b : Post.t) : Prop :=
  Post.createdAt b <= Post.createdAt a.

#[global] Instance newerFirst_dec : RelDecision newerFirst :=
  fun a b => decide (Post.createdAt b <= Post.createdAt a).

Definition sortByCreatedAtDesc (ps : list Post.t) : list Post.t :=
  merge_sort newerFirst ps.

(** A negative skip is refused by the store. *)
Definition skip (n : Z) (ps : list Post.t) : Completion (list Post.t) :=
  if n <? 0 then Throw (MongooseError "skip must be non-negative")
  else Return (drop (Z.to_nat n) ps).

(** A limit of [0] is no limit and a negative limit is its absolute
    value. *)
Definition limit (n : Z) (ps : list Post.t) : list Post.t :=
  if n =? 0 then ps else take (Z.to_nat (Z.abs n)) ps.

Definition populate (db : DB) (p : Post.t) : PopulatedPost :=
  mkPopulatedPost p
    (User.username <$> User.findById (users db) (Post.author p))
    (Category.name
       <$> List.find (fun c => String.eqb (Category._id c) (Post.category p))
             (categories db)).

Definition countDocuments (filter : option string) (ps : list Post.t) : Z :=
  Z.of_nat (length (find filter ps)).

(** The page, the limit and the filter that the list handler reads from
    the query of a request. *)
Definition pageOf (req : Request) : Z :=
  JS.orDefault (JS.parseInt (query req !! "page")) 1.

Definition limitOf (req : Request) : Z :=
  JS.orDefault (JS.parseInt (query req !! "limit")) 10.

Definition filterOf (req : Request) : option string :=
  let category := query req !! "category" in
  if JS.truthy category then category else None.

(** GET /api/posts *)
Definition get_handler : Middleware :=
  fun env db req =>
    try_catch
      (let page := pageOf req in
       let limit_ := limitOf req in
       let filter := filterOf req in
       skipped ← skip ((page - 1) * limit_)
                   (sortByCreatedAtDesc (find filter (posts db)));
       let posts_ := List.map (populate db) (limit limit_ skipped) in
       let total_ := countDocuments filter (posts db) in
       mret (db, respond 200
                   (SuccessPage posts_
                      (mkPagination total_ page (JS.ceilDiv total_ limit_)))))
      (fun err => (db, NextErr err)).

(** The identity attached by the authentication middleware;
    [req.user.id] throws when there is none. *)
Definition acting (req : Request) : Completion User.t :=
  match user req with
  | Some u => Return u
  | None => Throw (TypeError "Cannot read properties of undefined")
  end.

Definition put_chains : list Validator.Chain :=
  [ Validator.mkChain "title" true
      [(Validator.isLength 0 (Some 100%nat), Validator.defaultMessage)];
    Validator.mkChain "content" true [];
    Validator.mkChain "category" true [] ].

(** PUT /api/posts/:id, the handler after the middleware. *)
Definition put_handler : Middleware :=
  fun env db req =>
    try_catch
      (let postId := params_id req in
       match Post.findById (posts db) postId with
       | None => mret (db, respond 404 (Failure "Post not found"))
       | Some post =>
           u ← acting req;
           if negb (String.eqb (Post.author post) (User.id u)) then
             mret (db, respond 403 (Failure "Unauthorized"))
           else
             let errors := validationResult req in
             if negb (isEmpty errors) then
               mret (db, respond 400 (Failures errors))
             else
               match Post.assign post (req_body req) with
               | None => Throw Mongoose.ValidationError
               | Some post' =>
                   mret (mkDB (users db) (Post.save (posts db) post')
                              (categories db),
                         respond 200 (Success (DataPost post')))
               end
       end)
      (fun err => (db, NextErr err)).

(** DELETE /api/posts/:id, the handler after the middleware. *)
Definition delete_handler : Middleware :=
  fun env db req =>
    try_catch
      (let postId := params_id req in
       match Post.findById (posts db) postId with
       | None => mret (db, respond 404 (Failure "Post not found"))
       | Some post =>
           u ← acting req;
           if negb (String.eqb (Post.author post) (User.id u)) then
             mret (db, respond 403 (Failure "Unauthorized"))
           else
             mret (mkDB (users db) (Post.remove (posts db) post)
                        (categories db),
                   respond 200 (SuccessMessage "Post deleted"))
       end)
      (fun err => (db, NextErr err)).

Section Routes.
Context {J : jwt.Jws} {V : Validator.ValidatorJs}.

Definition put : Middleware :=
  route [authMiddleware; validate put_chains; put_handler].

Definition delete : Middleware :=
  route [authMiddleware; delete_handler].
End Routes.
End posts.

(** ** server/routes/auth.js *)

Module auth.

(** Modelled from the spec: the password-match check of the credential
    store ([matchPassword] of the User model, which is not part of the
    sources) compares a candidate with the stored hash. *)
Class UserModel : Type := {
  matchPassword : User.t -> option json -> Completion bool;
}.

(** [generateToken(user)]: a token for the identifier of [user] that
    expires in seven days. *)
Definition generateToken {J : jwt.Jws} (env : Env) (u : User.t)
  : Completion string :=
  jwt.sign (User._id u) (JWT_SECRET env) (jwt.ms_7d / 1000) (now env).

Definition login_chains : list Validator.Chain :=
  [ Validator.mkChain "email" false
      [(Validator.isEmailRule, "Valid email is required")];
    Validator.mkChain "password" false
      [(Validator.notEmpty, "Password is required")] ].

Section Routes.
Context {J : jwt.Jws} {V : Validator.ValidatorJs} {M : UserModel}.

(** POST /api/auth/login, the handler after the validation chains. *)
Definition login_handler : Middleware :=
  fun env db req =>
    try_catch
      (let errors := validationResult req in
       if negb (isEmpty errors) then
         mret (db, respond 400 (Failures errors))
       else
         let email := req_body req !! "email" in
         let password := req_body req !! "password" in
         found ← User.findOne_email (users db) email;
         match found with
         | None => mret (db, respond 401 (Failure "Invalid credentials"))
         | Some u =>
             isMatch ← matchPassword u password;
             if negb isMatch then
               mret (db, respond 401 (Failure "Invalid credentials"))
             else
               token ← generateToken env u;
               mret (db, respond 200
                           (Success (DataAuth (User._id u) (User.username u)
                                       email token)))
         end)
      (fun err => (db, NextErr err)).

Definition login : Middleware :=
  route [validate login_chains; login_handler].
End Routes.
End auth.

(** ** server/routes/categories.js *)

Module categories_routes.

(** GET /api/categories *)
Definition get_handler : Middleware :=
  fun env db req =>
    (db, respond 200
           (Success (DataCategories
                       (Category.find_sorted_by_name (categories db))))).

Definition post_chains : list Validator.Chain :=
  [ Validator.mkChain "name" false
      [(Validator.notEmpty, "Category name is required")] ].

(** POST /api/categories, the handler after the middleware. *)
Definition post_handler : Middleware :=
  fun env db req =>
    try_catch
      (let errors := validationResult req in
       if negb (isEmpty errors) then
         mret (db, respond 400 (Failures errors))
       else
         existing ← Category.findOne_name (categories db)
                      (req_body req !! "name");
         match existing with
         | Some _ =>
             mret (db, respond 400 (Failure "Category already exists"))
         | None =>
             let category := Category.new (newObjectId env) (now env)
                               (req_body req !! "name") in
             saved ← Category.save (categories db) category;
             mret (mkDB (users db) (posts db) saved,
                   respond 201 (Success (DataCategory category)))
         end)
      (fun err => (db, NextErr err)).

Section Routes.
Context {J : jwt.Jws} {V : Validator.ValidatorJs}.

Definition post : Middleware :=
  route [authMiddleware; validate post_chains; post_handler].
End Routes.
End categories_routes.

(** ** The other routes of server/routes/posts.js *)

(** [v || d] for a JSON value [v] that may be [undefined]. *)
Definition jsTruthy (v : option json) : bool :=
  match v with
  | None | Some JNull | Some (JBool false) => false
  | Some (JNum n) => negb (n =? 0)
  | Some (JStr s) => negb (String.eqb s "")
  | Some _ => true
  end.

Definition orElse (v : option json) (d : json) : json :=
  if jsTruthy v then default d v else d.

(** The answers whose data the envelope of the other routes does not
    hold: a populated post, and the user and token of a registration. *)
Inductive Answer : Type :=
  | AnswerPost (st : Z) (data : PopulatedPost)
  | AnswerAuth (st : Z) (user_id : string) (username email : option json)
      (token : string)
  | Plain (o : Outcome).

Module get_post.

(** [idOrSlug.match(/^[0-9a-fA-F]{24}$/)] *)
Definition isObjectIdHex (s : string) : bool :=
  (String.length s =? 24)%nat
  && forallb Mongoose.isHexDigit (list_ascii_of_string s).

(** [Post.findOne({ slug })] *)
Definition findOne_slug (ps : list Post.t) (s : string) : option Post.t :=
  List.find (fun p => String.eqb (Post.slug p) s) ps.

(** GET /api/posts/:id *)
Definition handler (env : Env) (db : DB) (req : Request) : DB * Answer :=
  let idOrSlug := params_id req in
  let post :=
    if isObjectIdHex idOrSlug
    then posts.populate db <$> Post.findById (posts db) idOrSlug
    else posts.populate db <$> findOne_slug (posts db) idOrSlug in
  match post with
  | None => (db, Plain (respond 404 (Failure "Post not found")))
  | Some p => (db, AnswerPost 200 p)
  end.
End get_post.

Module create_post.

(** Modelled from the spec: the Post model is not part of the sources;
    of what it does when a post is saved, the slug that it gives to the
    post is a parameter. *)
Class PostModel : Type := { slugOf : string -> string }.

Definition chains : list Validator.Chain :=
  [ Validator.mkChain "title" false
      [(Validator.notEmpty, "Title is required");
       (Validator.isLength 0 (Some 100%nat), Validator.defaultMessage)];
    Validator.mkChain "content" false
      [(Validator.notEmpty, "Content is required")];
    Validator.mkChain "category" false
      [(Validator.notEmpty, "Category is required")] ].

Section Routes.
Context {J : jwt.Jws} {V : Validator.ValidatorJs} {P : PostModel}.

(** [new Post(postData)] for the [postData] of the handler, with the
    identifier and the creation time that the store assigns; it throws,
    as [save()] does, when a value cannot be cast to its path. *)
Definition newPost (env : Env) (u : User.t) (body : gmap string json)
  : Completion Post.t :=
  match body !! "title" ≫= Mongoose.castString,
        body !! "content" ≫= Mongoose.castString,
        body !! "category" ≫= Mongoose.castObjectId,
        Mongoose.castString
          (orElse (body !! "featuredImage") (JStr "default-post.jpg")),
        Mongoose.castString (orElse (body !! "excerpt") (JStr "")),
        Mongoose.castStrings (orElse (body !! "tags") (JArr [])),
        Mongoose.castBoolean (orElse (body !! "isPublished") (JBool false))
  with
  | Some title, Some content, Some category, Some featuredImage,
    Some excerpt, Some tags, Some isPublished =>
      Return (Post.mk (newObjectId env) title content category (User.id u)
                featuredImage excerpt tags isPublished [] (slugOf title)
                (now env))
  | _, _, _, _, _, _, _ => Throw Mongoose.ValidationError
  end.

(** POST /api/posts, the handler after the middleware. *)
Definition handler : Middleware :=
  fun env db req =>
    try_catch
      (let errors := validationResult req in
       if negb (isEmpty errors) then
         mret (db, respond 400 (Failures errors))
       else
         u ← posts.acting req;
         post ← newPost env u (req_body req);
         mret (mkDB (users db) (posts db ++ [post]) (categories db),
               respond 201 (Success (DataPost post))))
      (fun err => (db, NextErr err)).

Definition post : Middleware :=
  route [authMiddleware; validate chains; handler].
End Routes.
End create_post.

Module add_comment.

Definition chains : list Validator.Chain :=
  [ Validator.mkChain "content" false
      [(Validator.notEmpty, "Comment content is required")] ].

Definition push (c : Comment.t) (p : Post.t) : Post.t :=
  Post.mk (Post._id p) (Post.title p) (Post.content p) (Post.category p)
          (Post.author p) (Post.featuredImage p) (Post.excerpt p)
          (Post.tags p) (Post.isPublished p) (Post.comments p ++ [c])
          (Post.slug p) (Post.createdAt p).

(** POST /api/posts/:id/comments, the handler after the middleware. The
    pushed comment gets its creation time from the clock. *)
Definition handler : Middleware :=
  fun env db req =>
    try_catch
      (let postId := params_id req in
       match Post.findById (posts db) postId with
       | None => mret (db, respond 404 (Failure "Post not found"))
       | Some post =>
           let errors := validationResult req in
           if negb (isEmpty errors) then
             mret (db, respond 400 (Failures errors))
           else
             u ← posts.acting req;
             match req_body req !! "content" ≫= Mongoose.castString with
             | None => Throw Mongoose.ValidationError
             | Some content =>
                 let post' :=
                   push (Comment.mk (User.id u) content (now env)) post in
                 mret (mkDB (users db) (Post.save (posts db) post')
                            (categories db),
                       respond 201 (Success (DataPost post')))
             end
       end)
      (fun err => (db, NextErr err)).

Section Routes.
Context {J : jwt.Jws} {V : Validator.ValidatorJs}.

Definition post : Middleware :=
  route [authMiddleware; validate chains; handler].
End Routes.
End add_comment.

(** ** The registration route of server/routes/auth.js *)

Module register.

(** Modelled from the spec: the User model is not part of the sources;
    it hashes the password before the user is stored. *)
Class UserSchema : Type := { hash : string -> string }.

Definition chains : list Validator.Chain :=
  [ Validator.mkChain "username" false
      [(Validator.notEmpty, "Username is required");
       (Validator.isLength 3 (Some 30%nat), Validator.defaultMessage)];
    Validator.mkChain "email" false
      [(Validator.isEmailRule, "Valid email is required")];
    Validator.mkChain "password" false
      [(Validator.isLength 6 None,
        "Password must be at least 6 characters")] ].

Section Routes.
Context {J : jwt.Jws} {V : Validator.ValidatorJs} {S : UserSchema}.

(** [new User({ username, email, password })] followed by [save()], with
    the identifier that the store assigns. *)
Definition newUser (env : Env) (body : gmap string json)
  : Completion User.t :=
  match body !! "username" ≫= Mongoose.castString,
        body !! "email" ≫= Mongoose.castString,
        body !! "password" ≫= Mongoose.castString
  with
  | Some username, Some email, Some password =>
      Return (User.mk (newObjectId env) username email
                (Some (hash password)))
  | _, _, _ => Throw Mongoose.ValidationError
  end.

(** The rest of the handler once [save()] has stored the user: a throw of
    [generateToken] leaves the user in the store. *)
Definition answerWithToken (env : Env) (db : DB) (req : Request)
    (u : User.t) : DB * Answer :=
  let stored := mkDB (users db ++ [u]) (posts db) (categories db) in
  match auth.generateToken env u with
  | Throw err => (stored, Plain (NextErr err))
  | Return token =>
      (stored,
       AnswerAuth 201 (User._id u) (req_body req !! "username")
         (req_body req !! "email") token)
  end.

(** POST /api/auth/register, the handler after the validation chains. *)
Definition handler (env : Env) (db : DB) (req : Request) : DB * Answer :=
  let errors := validationResult req in
  if negb (isEmpty errors) then
    (db, Plain (respond 400 (Failures errors)))
  else
    match User.findOne_email (users db) (req_body req !! "email") with
    | Throw err => (db, Plain (NextErr err))
    | Return (Some _) =>
        (db, Plain (respond 400 (Failure "Email already in use")))
    | Return None =>
        match newUser env (req_body req) with
        | Throw err => (db, Plain (NextErr err))
        | Return u => answerWithToken env db req u
        end
    end.

(** The route: the validation chains, then the handler. *)
Definition post (env : Env) (db : DB) (req : Request) : DB * Answer :=
  match validate chains env db req with
  | (db', Next req') => handler env db' req'
  | (db', o) => (db', Plain o)
  end.
End Routes.
End register.

(** ** Laws of the token library *)

(** What the handlers rely on from the wire format of a token: parsing a
    serialized token gives back its parts, and a serialized token is not
    empty and has no space in it. *)
Class JwsLaws (J : jwt.Jws) : Prop := {
  jws_decode_encode : forall p s, jwt.decode (jwt.encode p s) = Some (p, s);
  jws_encode_truthy : forall p s, JS.truthy (Some (jwt.encode p s)) = true;
  jws_encode_one_segment :
    forall p s, JS.split " " (jwt.encode p s) = [jwt.encode p s];
}.

(** ** The Auth Gate as the specification words it *)

(** The 401 outcome of a failure of the gate. *)
Definition Unauthenticated (message : string) : Outcome :=
  respond 401 (Failure message).

(** The case analysis of section 4.2 of the specification, in its words:
    no bearer header, verification failure, unknown identity, success
    with the resolved identity attached without its password hash. *)
Definition AuthGate {J : jwt.Jws} : Middleware :=
  fun env db req =>
    match authorization req with
    | None => (db, Unauthenticated "No token provided")
    | Some header =>
        if negb (JS.startsWith header "Bearer") then
          (db, Unauthenticated "No token provided")
        else
          match jwt.verify (JS.split " " header !! 1%nat)
                  (JWT_SECRET env) (now env) with
          | Throw _ => (db, Unauthenticated "Not authorized")
          | Return claims =>
              match User.findById (users db) (jwt.id claims) with
              | None => (db, Unauthenticated "User not found")
              | Some found =>
                  (db, Next (with_user req
                               (User.select_minus_password found)))
              end
          end
    end.

Definition isUnauthenticated (o : Outcome) : Prop :=
  o = Unauthenticated "No token provided"
  \/ o = Unauthenticated "Not authorized"
  \/ o = Unauthenticated "User not found".

(** ** A reference instance of the libraries

    A wire format, a keyed tag, an e-mail test and a password check that
    are simple enough to run the handlers on concrete requests. *)

Module Reference.

Fixpoint bits (p : positive) : string :=
  match p with
  | xH => EmptyString
  | xO q => String "0" (bits q)
  | xI q => String "1" (bits q)
  end.

Fixpoint unbits (s : string) : option positive :=
  match s with
  | EmptyString => Some xH
  | String "0" r => xO <$> unbits r
  | String "1" r => xI <$> unbits r
  | _ => None
  end.

Definition encode (p : jwt.Payload) (signature : string) : string :=
  String "j"
    (bits (countable.encode (jwt.id p, jwt.iat p, jwt.exp p, signature))).

Definition decode (s : string) : option (jwt.Payload * string) :=
  match s with
  | String "j" r =>
      n ← unbits r;
      '(i, a, e, sg) ← countable.decode (A := string * Z * Z * string) n;
      Some (jwt.mkPayload i a e, sg)
  | _ => None
  end.

Definition hs256 (secret : string) (p : jwt.Payload) : string :=
  (secret ++ ":" ++ jwt.id p ++ ":" ++ pretty (jwt.exp p))%string.

#[export] Instance jws : jwt.Jws := jwt.Build_Jws hs256 encode decode.

Fixpoint contains (c : ascii) (s : string) : bool :=
  match s with
  | EmptyString => false
  | String d r => Ascii.eqb c d || contains c r
  end.

#[export] Instance validatorJs : Validator.ValidatorJs :=
  Validator.Build_ValidatorJs (contains "@").

(** The stored hash of a password [w] is [w] behind the prefix "#". *)
#[export] Instance userModel : auth.UserModel :=
  auth.Build_UserModel
    (fun u candidate =>
       match candidate with
       | Some (JStr w) =>
           Return (bool_decide (User.password u = Some (String "#" w)))
       | _ => Throw (Error "Illegal arguments")
       end).

Definition secret : string := "s3cret".
Definition alice : User.t :=
  User.mk "64b000000000000000000001" "alice" "alice@example.org"
          (Some "#wonderland").
Definition bob : User.t :=
  User.mk "64b000000000000000000002" "bob" "bob@example.org"
          (Some "#builder").

Definition post1 : Post.t :=
  Post.mk "64c000000000000000000001" "Hello" "First post"
          "64d000000000000000000001" (User._id alice) "default-post.jpg"
          "" [] false [] "hello" 1000.

Definition news : Category.t :=
  Category.mk "64d000000000000000000001" "News" 900.

Definition db0 : DB := mkDB [alice; bob] [post1] [news].

Definition env0 : Env :=
  mkEnv (Some secret) 2000 "64e000000000000000000001".

(** A token of [u] issued at clock [t]. *)
Definition tokenOf (u : User.t) (t : Z) : string :=
  let p := jwt.mkPayload (User._id u) t (t + 604800) in
  encode p (hs256 secret p).

(** A store with twelve posts, created at the clocks 1 to 12. *)
Definition postAt (i : nat) : Post.t :=
  Post.mk ("64c1000000000000000000" ++ pretty i)%string "Post" "Text"
          (Category._id news) (User._id alice) "default-post.jpg" ""
          [] true [] ("post-" ++ pretty i)%string (Z.of_nat i).

Definition db12 : DB :=
  mkDB [alice; bob] (List.map postAt (seq 1 12)) [news].

Definition longTitle : string :=
  string_of_list_ascii (repeat "a"%char 101).

Definition longName : string :=
  string_of_list_ascii (repeat "n"%char 51).

Definition request (u : User.t) (i : string) (q : gmap string string)
    (b : gmap string json) : Request :=
  mkRequest (Some ("Bearer " ++ tokenOf u 1000)%string) i q b None [].
End Reference.

(** ** Predicates of the statements about the other routes *)

(** A string with no space in it: splitting it at spaces gives it back. *)
Definition oneSegment (s : string) : Prop := JS.split " " s = [s].

(** The identifiers of the posts of a store are unique. *)
Definition uniqueIds (ps : list Post.t) : Prop :=
  NoDup (List.map Post._id ps).


(** The names of the categories of a store are unique. *)
Definition uniqueNames (cats : list Category.t) : Prop :=
  NoDup (List.map Category.name cats).

(** The password check accepts the password that a stored hash was made
    from. *)
Definition matchesOwnHash {S : register.UserSchema} {M : auth.UserModel}
  : Prop :=
  forall u w,
    User.password u = Some (register.hash w) ->
    auth.matchPassword u (Some (JStr w)) = Return true.

(** The clock of an environment set to [t]. *)
Definition at_clock (env : Env) (t : Z) : Env :=
  mkEnv (JWT_SECRET env) t (newObjectId env).

(** [Number.MAX_SAFE_INTEGER]: up to it the integers are numbers of
    JavaScript, and sums, products and quotients of them that stay below
    it are exact. *)
Definition MAX_SAFE_INTEGER : Z := 2 ^ 53 - 1.

(** A lower-case hexadecimal digit. *)
Definition isLowerHexDigit (c : ascii) : bool :=
  let n := N_of_ascii c in
  ((48 <=? n) && (n <=? 57) || (97 <=? n) && (n <=? 102))%N.

Fixpoint allLowerHex (s : string) : bool :=
  match s with
  | EmptyString => true
  | String c r => isLowerHexDigit c && allLowerHex r
  end.

(** The canonical spelling of an identifier, the one [ObjectId] prints
    and the store keeps: 24 lower-case hexadecimal digits. A string of
    this form casts to the identifier it spells, and two of them spell
    the same identifier only when they are equal. *)
Definition canonicalId (s : string) : bool :=
  (String.length s =? 24)%nat && allLowerHex s.


(** The paths of a post that the create and update forms carry. *)
Definition formFields : list string :=
  ["title"; "content"; "category"; "author"; "featuredImage"; "excerpt";
   "tags"; "isPublished"].

(** A request body that names form fields only. *)
Definition namesFormFieldsOnly (body : gmap string json) : Prop :=
  forall k, is_Some (body !! k) -> In k formFields.

(** ** Sample data for the other routes *)

Module Sample.

#[export] Instance postModel : create_post.PostModel :=
  create_post.Build_PostModel (fun title => ("slug-of-" ++ title)%string).

#[export] Instance userSchema : register.UserSchema :=
  register.Build_UserSchema (String "#").

(** A post of bob whose slug looks like an identifier. *)
Definition post2 : Post.t :=
  Post.mk "64c000000000000000000002" "Bob writes" "Second post"
          "64d000000000000000000001" (User._id Reference.bob)
          "default-post.jpg" "" [] true [] "abcdefabcdefabcdefabcdef" 1500.

Definition db2 : DB :=
  mkDB [Reference.alice; Reference.bob] [Reference.post1; post2]
       [Reference.news].

Definition carol : gmap string json :=
  {[ "username" := JStr "carol";
     "email" := JStr "carol@example.org";
     "password" := JStr "rabbit-hole" ]}.
End Sample.

(** * Properties *)

Example split_bearer : JS.split " " "Bearer abc" = ["Bearer"; "abc"].
Proof. reflexivity. Qed.

Example parseInt_units : JS.parseInt (Some " 12px") = Some 12.
Proof. reflexivity. Qed.

Example parseInt_hex : JS.parseInt (Some "-0x1f") = Some (-31).
Proof. reflexivity. Qed.

Example parseInt_undefined : JS.parseInt None = None.
Proof. reflexivity. Qed.

Example trim_both_ends : JS.trim "  a b  " = "a b".
Proof. reflexivity. Qed.

Example trim_no_break_space :
  JS.trim (String (ascii_of_N 160) "News") = "News".
Proof. reflexivity. Qed.

Example parseInt_no_break_space :
  JS.parseInt (Some (String (ascii_of_N 160) "5")) = Some 5.
Proof. reflexivity. Qed.

Example reference_auth_passes :
  authMiddleware (J := Reference.jws) Reference.env0 Reference.db0
    (Reference.request Reference.bob "x" ∅ ∅)
  = (Reference.db0,
     Next (with_user (Reference.request Reference.bob "x" ∅ ∅)
             (User.select_minus_password Reference.bob))).
Proof. vm_compute. reflexivity. Qed.

(** ** The Auth Gate *)

Lemma route_stops (m : Middleware) rest env db req :
  (forall req', snd (m env db req) <> Next req') ->
  route (m :: rest) env db req = m env db req.
Proof.
  intros Hstop. cbn [route].
  destruct (m env db req) as [db' [res|req'|err]]; try reflexivity.
  exfalso. apply (Hstop req'). reflexivity.
Qed.

Lemma route_next (m : Middleware) rest env db req db' req' :
  m env db req = (db', Next req') ->
  route (m :: rest) env db req = route rest env db' req'.
Proof. intros Hm. cbn [route]. rewrite Hm. reflexivity. Qed.

Lemma isUnauthenticated_not_Next o req' :
  isUnauthenticated o -> o <> Next req'.
Proof. intros [H|[H|H]]; rewrite H; discriminate. Qed.

Section AuthGateProperties.
Context {J : jwt.Jws}.

Lemma startsWith_truthy (s : string) :
  JS.startsWith s "Bearer" = true -> JS.truthy (Some s) = true.
Proof. destruct s; [discriminate | reflexivity]. Qed.

Lemma authMiddleware_unfold env db req :
  authMiddleware env db req = AuthGate env db req.
Proof.
  unfold authMiddleware, AuthGate.
  destruct (authorization req) as [header|]; [|reflexivity].
  cbn [default from_option id].
  destruct (JS.startsWith header "Bearer") eqn:Hb.
  - rewrite (startsWith_truthy _ Hb). cbn [andb negb try_catch].
    unfold mbind, Completion_bind, bind.
    destruct (jwt.verify _ _ _) as [claims|e]; [|reflexivity].
    destruct (User.findById _ _); reflexivity.
  - rewrite andb_false_r. reflexivity.
Qed.

Lemma findById_In users i u :
  User.findById users i = Some u -> In u users /\ User._id u = i.
Proof.
  unfold User.findById. intros Hf. apply find_some in Hf.
  destruct Hf as [Hin Heq]. apply String.eqb_eq in Heq. auto.
Qed.

Lemma AuthGate_outcome env db req :
  fst (AuthGate env db req) = db
  /\ (isUnauthenticated (snd (AuthGate env db req))
      \/ exists stored,
           In stored (users db)
           /\ User.password (User.select_minus_password stored) = None
           /\ snd (AuthGate env db req)
              = Next (with_user req (User.select_minus_password stored))).
Proof.
  unfold AuthGate, isUnauthenticated.
  destruct (authorization req) as [header|]; [|cbn; auto].
  destruct (negb (JS.startsWith header "Bearer")); [cbn; auto|].
  destruct (jwt.verify _ _ _) as [claims|e]; [|cbn; auto].
  destruct (User.findById _ _) as [stored|] eqn:Hf; [|cbn; auto].
  cbn [fst snd]. split; [reflexivity|]. right. exists stored.
  apply findById_In in Hf. tauto.
Qed.

(** C4. On every request the authentication middleware is the case
    analysis of the specification: no authorization header, or one that
    does not start with "Bearer", gives 401 "No token provided"; a
    token that does not verify gives 401 "Not authorized"; a verified
    token whose subject is not in the credential store gives 401 "User
    not found"; otherwise the next middleware runs on a request whose
    [user] is the stored identity of the subject, with the same
    identifier, name and e-mail and without the password hash, and whose
    other fields are those of the incoming request. The store is never
    changed, and after each of the three failures the rest of the route
    does not run. *)
Theorem authMiddleware_case_analysis env db req :
  authMiddleware env db req = AuthGate env db req
  /\ fst (authMiddleware env db req) = db
  /\ ((authorization req = None
       \/ exists header, authorization req = Some header
                          /\ JS.startsWith header "Bearer" = false) ->
      authMiddleware env db req
      = (db, respond 401 (Failure "No token provided")))
  /\ (forall header,
        authorization req = Some header ->
        JS.startsWith header "Bearer" = true ->
        (forall e,
            jwt.verify (JS.split " " header !! 1%nat) (JWT_SECRET env)
              (now env) = Throw e ->
            authMiddleware env db req
            = (db, respond 401 (Failure "Not authorized")))
        /\ (forall claims,
              jwt.verify (JS.split " " header !! 1%nat) (JWT_SECRET env)
                (now env) = Return claims ->
              (User.findById (users db) (jwt.id claims) = None ->
               authMiddleware env db req
               = (db, respond 401 (Failure "User not found")))
              /\ (forall stored,
                    User.findById (users db) (jwt.id claims) = Some stored ->
                    exists req',
                      authMiddleware env db req = (db, Next req')
                      /\ user req'
                         = Some (User.mk (User._id stored)
                                   (User.username stored)
                                   (User.email stored) None)
                      /\ authorization req' = authorization req
                      /\ params_id req' = params_id req
                      /\ query req' = query req
                      /\ req_body req' = req_body req
                      /\ validationErrors req' = validationErrors req)))
  /\ (isUnauthenticated (snd (authMiddleware env db req))
      \/ exists stored,
           In stored (users db)
           /\ User.password (User.select_minus_password stored) = None
           /\ snd (authMiddleware env db req)
              = Next (with_user req (User.select_minus_password stored)))
  /\ (forall rest,
        isUnauthenticated (snd (authMiddleware env db req)) ->
        route (authMiddleware :: rest) env db req
        = authMiddleware env db req).
Proof.
  split; [apply authMiddleware_unfold|].
  rewrite authMiddleware_unfold.
  destruct (AuthGate_outcome env db req) as [Hdb Hout].
  split; [exact Hdb|].
  split.
  { unfold AuthGate. intros [Hnone | (header & Hh & Hb)].
    - rewrite Hnone. reflexivity.
    - rewrite Hh, Hb. reflexivity. }
  split.
  { intros header Hh Hb. unfold AuthGate. rewrite Hh, Hb. cbn [negb].
    split.
    - intros e He. rewrite He. reflexivity.
    - intros claims Hc. rewrite Hc. split.
      + intros Hnone. rewrite Hnone. reflexivity.
      + intros stored Hs. rewrite Hs.
        exists (with_user req (User.select_minus_password stored)).
        repeat (split; [first [reflexivity | exact Hh]|]). reflexivity. }
  split; [exact Hout|].
  intros rest Hun. rewrite <- authMiddleware_unfold in *.
  apply route_stops. intros req'.
  apply isUnauthenticated_not_Next, Hun.
Qed.

(** C9. A header that starts with "Bearer" and has no second segment
    between spaces, such as the header "Bearer" alone, is answered with
    401 "Not authorized" and not with "No token provided": the token
    taken from the header is [undefined] and its verification throws. *)
Theorem bearer_without_token env db req header :
  authorization req = Some header ->
  JS.startsWith header "Bearer" = true ->
  JS.split " " header !! 1%nat = None ->
  jwt.verify (JS.split " " header !! 1%nat) (JWT_SECRET env) (now env)
    = Throw (JsonWebTokenError "jwt must be provided")
  /\ authMiddleware env db req = (db, respond 401 (Failure "Not authorized"))
  /\ authMiddleware env db req
     <> (db, respond 401 (Failure "No token provided")).
Proof.
  intros Hh Hb Hseg.
  assert (Hv : jwt.verify (JS.split " " header !! 1%nat)
                 (JWT_SECRET env) (now env)
               = Throw (JsonWebTokenError "jwt must be provided")).
  { rewrite Hseg. reflexivity. }
  split; [exact Hv|].
  rewrite authMiddleware_unfold. unfold AuthGate.
  rewrite Hh, Hb. cbn [negb]. rewrite Hv.
  split; [reflexivity | discriminate].
Qed.
End AuthGateProperties.

Lemma authMiddleware_case_analysis_witness :
  authMiddleware (J := Reference.jws) Reference.env0 Reference.db0
    (mkRequest None "x" ∅ ∅ None [])
  = (Reference.db0, respond 401 (Failure "No token provided"))
  /\ authMiddleware (J := Reference.jws) Reference.env0 Reference.db0
       (mkRequest (Some "Basic YWxpY2U6d29uZGVybGFuZA==") "x" ∅ ∅ None [])
     = (Reference.db0, respond 401 (Failure "No token provided"))
  /\ authMiddleware (J := Reference.jws) Reference.env0 Reference.db0
       (mkRequest (Some "Bearer forged") "x" ∅ ∅ None [])
     = (Reference.db0, respond 401 (Failure "Not authorized"))
  /\ authMiddleware (J := Reference.jws) Reference.env0
       (mkDB [Reference.alice] [Reference.post1] [Reference.news])
       (Reference.request Reference.bob "x" ∅ ∅)
     = (mkDB [Reference.alice] [Reference.post1] [Reference.news],
        respond 401 (Failure "User not found"))
  /\ authMiddleware (J := Reference.jws) Reference.env0 Reference.db0
       (Reference.request Reference.bob "x" {[ "page" := "2" ]}
          {[ "title" := JStr "T" ]})
     = (Reference.db0,
        Next (mkRequest
                (Some ("Bearer " ++ Reference.tokenOf Reference.bob 1000)%string)
                "x" {[ "page" := "2" ]} {[ "title" := JStr "T" ]}
                (Some (User.mk "64b000000000000000000002" "bob"
                         "bob@example.org" None))
                []))
  /\ route [authMiddleware (J := Reference.jws); posts.delete_handler]
       Reference.env0 Reference.db0 (mkRequest None "x" ∅ ∅ None [])
     = (Reference.db0, respond 401 (Failure "No token provided")).
Proof.
  split.
  { destruct (authMiddleware_case_analysis (J := Reference.jws)
                Reference.env0 Reference.db0
                (mkRequest None "x" ∅ ∅ None []))
      as (_ & _ & Hnone & _).
    apply Hnone. left. reflexivity. }
  split.
  { destruct (authMiddleware_case_analysis (J := Reference.jws)
                Reference.env0 Reference.db0
                (mkRequest (Some "Basic YWxpY2U6d29uZGVybGFuZA==") "x" ∅ ∅
                   None []))
      as (_ & _ & Hnone & _).
    apply Hnone. right. eexists. split; reflexivity. }
  split.
  { destruct (authMiddleware_case_analysis (J := Reference.jws)
                Reference.env0 Reference.db0
                (mkRequest (Some "Bearer forged") "x" ∅ ∅ None []))
      as (_ & _ & _ & Hbearer & _).
    destruct (Hbearer "Bearer forged" eq_refl eq_refl) as [Hthrow _].
    apply (Hthrow (JsonWebTokenError "jwt malformed")).
    vm_compute. reflexivity. }
  split.
  { destruct (authMiddleware_case_analysis (J := Reference.jws)
                Reference.env0
                (mkDB [Reference.alice] [Reference.post1] [Reference.news])
                (Reference.request Reference.bob "x" ∅ ∅))
      as (_ & _ & _ & Hbearer & _).
    destruct (Hbearer _ eq_refl eq_refl) as [_ Hverified].
    destruct (Hverified (jwt.mkPayload "64b000000000000000000002" 1000
                           605800)) as [Hunknown _].
    - vm_compute. reflexivity.
    - apply Hunknown. vm_compute. reflexivity. }
  split.
  { destruct (authMiddleware_case_analysis (J := Reference.jws)
                Reference.env0 Reference.db0
                (Reference.request Reference.bob "x" {[ "page" := "2" ]}
                   {[ "title" := JStr "T" ]}))
      as (_ & _ & _ & Hbearer & _).
    destruct (Hbearer _ eq_refl eq_refl) as [_ Hverified].
    destruct (Hverified (jwt.mkPayload "64b000000000000000000002" 1000
                           605800)) as [_ Hknown].
    - vm_compute. reflexivity.
    - destruct (Hknown Reference.bob) as (req' & Hrun & Hu & Ha & Hp & Hq
                                          & Hb & Hv).
      + vm_compute. reflexivity.
      + rewrite Hrun. destruct req' as [a i q b u v].
        cbn in Hu, Ha, Hp, Hq, Hb, Hv. subst. reflexivity. }
  destruct (authMiddleware_case_analysis (J := Reference.jws) Reference.env0
              Reference.db0 (mkRequest None "x" ∅ ∅ None []))
    as (_ & _ & _ & _ & _ & Hstop).
  rewrite Hstop; [reflexivity | left; reflexivity].
Defined.

Lemma bearer_without_token_witness :
  authMiddleware (J := Reference.jws) Reference.env0 Reference.db0
    (mkRequest (Some "Bearer") "x" ∅ ∅ None [])
  = (Reference.db0, respond 401 (Failure "Not authorized")).
Proof.
  apply (bearer_without_token (J := Reference.jws) Reference.env0
           Reference.db0 (mkRequest (Some "Bearer") "x" ∅ ∅ None [])
           "Bearer"); reflexivity.
Defined.

(** ** The Token Service *)

Lemma split_cons sep c r :
  JS.split sep (String c r)
  = if Ascii.eqb c sep then EmptyString :: JS.split sep r
    else match JS.split sep r with
         | w :: ws => String c w :: ws
         | [] => [String c EmptyString]
         end.
Proof. reflexivity. Qed.

Lemma split_bearer_token (t : string) :
  JS.split " " t = [t] ->
  JS.split " " ("Bearer " ++ t)%string = ["Bearer"; t].
Proof.
  intros Ht. cbv [String.append]. rewrite !split_cons, Ht. reflexivity.
Qed.

Lemma seven_days : jwt.ms_7d / 1000 = 604800.
Proof. reflexivity. Qed.

Section TokenService.
Context {J : jwt.Jws} {L : JwsLaws J}.

Lemma verify_signed subject secret span t0 t :
  JS.truthy secret = true ->
  exists token,
    jwt.sign subject secret span t0 = Return token
    /\ jwt.verify (Some token) secret t
       = (if t0 + span <=? t then Throw TokenExpiredError
          else Return (jwt.mkPayload subject t0 (t0 + span)))
    /\ JS.split " " token = [token].
Proof.
  intros Hs. unfold jwt.sign, jwt.verify. rewrite Hs. cbn [negb].
  eexists. split; [reflexivity|]. split; [|apply jws_encode_one_segment].
  rewrite jws_encode_truthy. cbn [negb default from_option id].
  rewrite jws_decode_encode, String.eqb_refl. reflexivity.
Qed.

(** C5. A token issued for an identity verifies, at the time of issue
    and at any time before seven days have passed, to claims that carry
    the identifier of that identity; from seven days after the issue
    on, its verification throws [TokenExpiredError], and a request that
    presents it as a bearer token is answered by the authentication
    middleware with 401 "Not authorized". *)
Theorem token_round_trip env (u : User.t) :
  JS.truthy (JWT_SECRET env) = true ->
  exists token,
    auth.generateToken env u = Return token
    /\ (forall t, t < now env + 7 * 24 * 60 * 60 ->
          exists claims,
            jwt.verify (Some token) (JWT_SECRET env) t = Return claims
            /\ jwt.id claims = User._id u)
    /\ (forall later, now env + 7 * 24 * 60 * 60 <= later ->
          jwt.verify (Some token) (JWT_SECRET env) later
            = Throw TokenExpiredError
          /\ forall db req,
               authorization req = Some ("Bearer " ++ token)%string ->
               authMiddleware
                 (mkEnv (JWT_SECRET env) later (newObjectId env)) db req
               = (db, respond 401 (Failure "Not authorized"))).
Proof.
  intros Hs. unfold auth.generateToken. rewrite seven_days.
  destruct (verify_signed (User._id u) (JWT_SECRET env) 604800 (now env)
              (now env) Hs) as (token & Hsign & _ & Hseg).
  exists token. split; [exact Hsign|]. split.
  - intros t Ht.
    destruct (verify_signed (User._id u) (JWT_SECRET env) 604800 (now env)
                t Hs) as (token' & Hsign' & Hver & _).
    rewrite Hsign in Hsign'. injection Hsign' as <-.
    rewrite Hver. destruct (Z.leb_spec (now env + 604800) t); [lia|].
    eexists. split; reflexivity.
  - intros later Hl.
    destruct (verify_signed (User._id u) (JWT_SECRET env) 604800 (now env)
                later Hs) as (token' & Hsign' & Hver & _).
    rewrite Hsign in Hsign'. injection Hsign' as <-.
    assert (Hexp : jwt.verify (Some token) (JWT_SECRET env) later
                   = Throw TokenExpiredError).
    { rewrite Hver. destruct (Z.leb_spec (now env + 604800) later);
        [reflexivity | lia]. }
    split; [exact Hexp|]. intros db req Hh.
    rewrite authMiddleware_unfold. unfold AuthGate. rewrite Hh.
    cbn [JS.startsWith]. rewrite (split_bearer_token _ Hseg).
    cbn. rewrite Hexp. reflexivity.
Qed.
End TokenService.

Lemma Reference_unbits_bits p : Reference.unbits (Reference.bits p) = Some p.
Proof. induction p as [p IH|p IH|]; cbn; rewrite ?IH; reflexivity. Qed.

Lemma Reference_bits_one_segment p :
  JS.split " " (Reference.bits p) = [Reference.bits p].
Proof. induction p as [p IH|p IH|]; cbn; rewrite ?IH; reflexivity. Qed.

Lemma Reference_laws : JwsLaws Reference.jws.
Proof.
  split; intros [i a e] s.
  - cbn. rewrite Reference_unbits_bits. cbn.
    rewrite decode_encode. reflexivity.
  - reflexivity.
  - cbn. rewrite Reference_bits_one_segment. reflexivity.
Qed.

Lemma token_round_trip_witness :
  exists token,
    auth.generateToken (J := Reference.jws) Reference.env0 Reference.alice
      = Return token
    /\ (forall t, t < 2000 + 7 * 24 * 60 * 60 ->
          exists claims,
            jwt.verify (J := Reference.jws) (Some token)
              (Some Reference.secret) t = Return claims
            /\ jwt.id claims = User._id Reference.alice)
    /\ (forall later, 2000 + 7 * 24 * 60 * 60 <= later ->
          jwt.verify (J := Reference.jws) (Some token)
            (Some Reference.secret) later = Throw TokenExpiredError
          /\ forall db req,
               authorization req = Some ("Bearer " ++ token)%string ->
               authMiddleware (J := Reference.jws)
                 (mkEnv (Some Reference.secret) later
                    (newObjectId Reference.env0)) db req
               = (db, respond 401 (Failure "Not authorized"))).
Proof.
  apply (token_round_trip (J := Reference.jws) (L := Reference_laws)
           Reference.env0 Reference.alice).
  reflexivity.
Defined.

(** ** The Ownership Policy on the mutating routes of posts *)

Section OwnershipProperties.
Context {J : jwt.Jws} {V : Validator.ValidatorJs}.

Lemma put_after_auth env db req u :
  authMiddleware env db req = (db, Next (with_user req u)) ->
  posts.put env db req
  = posts.put_handler env db
      (with_validationErrors (with_user req u)
         (validationErrors req
          ++ Validator.runChains (req_body req) posts.put_chains)).
Proof.
  intros Ha. unfold posts.put.
  rewrite (route_next _ _ _ _ _ _ _ Ha).
  cbn [route validate]. cbn [with_user validationErrors req_body].
  destruct (posts.put_handler _ _ _) as [db' [res|req'|err]]; reflexivity.
Qed.

Lemma delete_after_auth env db req u :
  authMiddleware env db req = (db, Next (with_user req u)) ->
  posts.delete env db req = posts.delete_handler env db (with_user req u).
Proof.
  intros Ha. unfold posts.delete.
  rewrite (route_next _ _ _ _ _ _ _ Ha). cbn [route].
  destruct (posts.delete_handler _ _ _) as [db' [res|req'|err]];
    reflexivity.
Qed.

Lemma put_handler_forbidden env db req u post :
  user req = Some u ->
  Post.findById (posts db) (params_id req) = Some post ->
  Post.author post <> User.id u ->
  posts.put_handler env db req = (db, respond 403 (Failure "Unauthorized")).
Proof.
  intros Hu Hp Hne. unfold posts.put_handler, posts.acting.
  rewrite Hp, Hu. cbn [mbind Completion_bind bind].
  apply String.eqb_neq in Hne. rewrite Hne. reflexivity.
Qed.

Lemma delete_handler_forbidden env db req u post :
  user req = Some u ->
  Post.findById (posts db) (params_id req) = Some post ->
  Post.author post <> User.id u ->
  posts.delete_handler env db req
  = (db, respond 403 (Failure "Unauthorized")).
Proof.
  intros Hu Hp Hne. unfold posts.delete_handler, posts.acting.
  rewrite Hp, Hu. cbn [mbind Completion_bind bind].
  apply String.eqb_neq in Hne. rewrite Hne. reflexivity.
Qed.

(** C1. When the post of an update or delete request exists, the body
    passes the validation chains of the update route, and the
    identifier of the acting identity differs from the recorded author
    of the post, both routes answer 403 with the error "Unauthorized"
    and leave the store as it was. *)
Theorem non_author_is_forbidden env db req u post :
  authMiddleware env db req = (db, Next (with_user req u)) ->
  Post.findById (posts db) (params_id req) = Some post ->
  Validator.runChains (req_body req) posts.put_chains = [] ->
  Post.author post <> User.id u ->
  posts.put env db req = (db, respond 403 (Failure "Unauthorized"))
  /\ posts.delete env db req = (db, respond 403 (Failure "Unauthorized")).
Proof.
  intros Ha Hp _ Hne. split.
  - rewrite (put_after_auth _ _ _ _ Ha).
    apply (put_handler_forbidden _ _ _ u post); auto.
  - rewrite (delete_after_auth _ _ _ _ Ha).
    apply (delete_handler_forbidden _ _ _ u post); auto.
Qed.
End OwnershipProperties.

Lemma non_author_is_forbidden_witness :
  posts.put (J := Reference.jws) (V := Reference.validatorJs)
    Reference.env0 Reference.db0
    (Reference.request Reference.bob "64c000000000000000000001" ∅
       {[ "title" := JStr "Mine now" ]})
  = (Reference.db0, respond 403 (Failure "Unauthorized"))
  /\ posts.delete (J := Reference.jws)
       Reference.env0 Reference.db0
       (Reference.request Reference.bob "64c000000000000000000001" ∅
          {[ "title" := JStr "Mine now" ]})
     = (Reference.db0, respond 403 (Failure "Unauthorized")).
Proof.
  apply (non_author_is_forbidden (J := Reference.jws)
           (V := Reference.validatorJs) Reference.env0 Reference.db0 _
           (User.select_minus_password Reference.bob) Reference.post1).
  - vm_compute. reflexivity.
  - vm_compute. reflexivity.
  - vm_compute. reflexivity.
  - vm_compute. discriminate.
Defined.

Lemma find_all_false {A} (f : A -> bool) l :
  (forall x, In x l -> f x = false) -> List.find f l = None.
Proof.
  induction l as [|a l IH]; intros Hall; [reflexivity|]. cbn [List.find].
  rewrite (Hall a (or_introl eq_refl)). apply IH.
  intros x Hx. apply Hall. right. exact Hx.
Qed.

Section CheckOrder.
Context {J : jwt.Jws} {V : Validator.ValidatorJs}.

Lemma put_handler_not_found env db req :
  Post.findById (posts db) (params_id req) = None ->
  posts.put_handler env db req = (db, respond 404 (Failure "Post not found")).
Proof. intros Hp. unfold posts.put_handler. rewrite Hp. reflexivity. Qed.

Lemma delete_handler_not_found env db req :
  Post.findById (posts db) (params_id req) = None ->
  posts.delete_handler env db req
  = (db, respond 404 (Failure "Post not found")).
Proof. intros Hp. unfold posts.delete_handler. rewrite Hp. reflexivity. Qed.

Lemma delete_handler_no_validation env db req errors :
  snd (posts.delete_handler env db req) <> respond 400 (Failures errors).
Proof.
  unfold posts.delete_handler, posts.acting.
  destruct (Post.findById _ _) as [post|]; [|cbn; discriminate].
  destruct (user req) as [u|]; [|cbn; discriminate].
  cbn [mbind Completion_bind bind].
  destruct (negb _); cbn; discriminate.
Qed.

(** C3, as amended. For an authenticated update request whose post
    exists and whose acting identity is not the author of the post, the
    answer is the 403 of the ownership check whether or not the body
    passes the validation chains: the handler checks ownership before
    it reads the validation result. The delete route checks ownership
    with no validation of the body and never answers with a validation
    failure. In both routes the existence check comes first: when the
    identifier of the request is a well-formed one, 24 lower-case
    hexadecimal digits, and no post has it, the answer is 404 "Post not
    found", whoever the acting identity is. *)
Theorem ownership_check_order env db req u :
  authMiddleware env db req = (db, Next (with_user req u)) ->
  (forall post,
      Post.findById (posts db) (params_id req) = Some post ->
      Post.author post <> User.id u ->
      posts.put env db req = (db, respond 403 (Failure "Unauthorized"))
      /\ posts.delete env db req
         = (db, respond 403 (Failure "Unauthorized")))
  /\ (forall errors,
        snd (posts.delete env db req) <> respond 400 (Failures errors))
  /\ (canonicalId (params_id req) = true ->
      (forall post, In post (posts db) -> Post._id post <> params_id req) ->
      posts.put env db req = (db, respond 404 (Failure "Post not found"))
      /\ posts.delete env db req
         = (db, respond 404 (Failure "Post not found"))).
Proof.
  intros Ha.
  rewrite (put_after_auth _ _ _ _ Ha), (delete_after_auth _ _ _ _ Ha).
  split; [|split].
  - intros post Hp Hne. split.
    + apply (put_handler_forbidden _ _ _ u post); auto.
    + apply (delete_handler_forbidden _ _ _ u post); auto.
  - intros errors. apply delete_handler_no_validation.
  - intros _ Hnone.
    assert (Hp : Post.findById (posts db) (params_id req) = None).
    { unfold Post.findById. apply find_all_false. intros post Hin.
      apply String.eqb_neq. apply Hnone, Hin. }
    split.
    + apply put_handler_not_found. exact Hp.
    + apply delete_handler_not_found. exact Hp.
Qed.
End CheckOrder.

(** The request of the counterexample below: bob, who is not the author
    of the post, sends an update whose title has 101 characters. *)
Lemma put_validation_not_before_ownership :
  let req := Reference.request Reference.bob "64c000000000000000000001" ∅
               {[ "title" := JStr Reference.longTitle ]} in
  Post.findById (posts Reference.db0) (params_id req) = Some Reference.post1
  /\ Post.author Reference.post1 <> User.id Reference.bob
  /\ Validator.runChains (V := Reference.validatorJs) (req_body req)
       posts.put_chains <> []
  /\ posts.put (J := Reference.jws) (V := Reference.validatorJs)
       Reference.env0 Reference.db0 req
     = (Reference.db0, respond 403 (Failure "Unauthorized"))
  /\ ~ (exists errors,
          posts.put (J := Reference.jws) (V := Reference.validatorJs)
            Reference.env0 Reference.db0 req
          = (Reference.db0, respond 400 (Failures errors))).
Proof.
  cbv zeta.
  assert (Hput : posts.put (J := Reference.jws) (V := Reference.validatorJs)
                   Reference.env0 Reference.db0
                   (Reference.request Reference.bob "64c000000000000000000001"
                      ∅ {[ "title" := JStr Reference.longTitle ]})
                 = (Reference.db0, respond 403 (Failure "Unauthorized"))).
  { vm_compute. reflexivity. }
  split; [vm_compute; reflexivity|].
  split; [vm_compute; discriminate|].
  split; [vm_compute; discriminate|].
  split; [exact Hput|].
  intros [errors He]. rewrite Hput in He. discriminate.
Qed.

Lemma ownership_check_order_witness :
  posts.put (J := Reference.jws) (V := Reference.validatorJs)
    Reference.env0 Reference.db0
    (Reference.request Reference.bob "64c000000000000000000001" ∅
       {[ "title" := JStr Reference.longTitle ]})
  = (Reference.db0, respond 403 (Failure "Unauthorized"))
  /\ posts.put (J := Reference.jws) (V := Reference.validatorJs)
       Reference.env0 Reference.db0
       (Reference.request Reference.bob "64c0000000000000000000ff" ∅
          {[ "title" := JStr Reference.longTitle ]})
     = (Reference.db0, respond 404 (Failure "Post not found"))
  /\ posts.delete (J := Reference.jws) Reference.env0 Reference.db0
       (Reference.request Reference.bob "64c0000000000000000000ff" ∅ ∅)
     = (Reference.db0, respond 404 (Failure "Post not found")).
Proof.
  split; [|split].
  - destruct (ownership_check_order (J := Reference.jws)
                (V := Reference.validatorJs) Reference.env0 Reference.db0
                (Reference.request Reference.bob "64c000000000000000000001"
                   ∅ {[ "title" := JStr Reference.longTitle ]})
                (User.select_minus_password Reference.bob))
      as (Hforbidden & _ & _).
    + vm_compute. reflexivity.
    + apply (Hforbidden Reference.post1).
      * vm_compute. reflexivity.
      * vm_compute. discriminate.
  - destruct (ownership_check_order (J := Reference.jws)
                (V := Reference.validatorJs) Reference.env0 Reference.db0
                (Reference.request Reference.bob "64c0000000000000000000ff"
                   ∅ {[ "title" := JStr Reference.longTitle ]})
                (User.select_minus_password Reference.bob))
      as (_ & _ & Hmissing).
    + vm_compute. reflexivity.
    + apply Hmissing.
      * vm_compute. reflexivity.
      * intros post [<-|[]]. vm_compute. discriminate.
  - destruct (ownership_check_order (J := Reference.jws)
                (V := Reference.validatorJs) Reference.env0 Reference.db0
                (Reference.request Reference.bob "64c0000000000000000000ff"
                   ∅ ∅)
                (User.select_minus_password Reference.bob))
      as (_ & _ & Hmissing).
    + vm_compute. reflexivity.
    + apply Hmissing.
      * vm_compute. reflexivity.
      * intros post [<-|[]]. vm_compute. discriminate.
Defined.

(** ** The author of a post under an update *)

Lemma assign1_author v p p' :
  Post.assign1 "author" v p = Some p' ->
  exists a, Mongoose.castObjectId v = Some a /\ Post.author p' = a.
Proof.
  unfold Post.assign1. cbn [String.eqb Ascii.eqb Bool.eqb].
  destruct (Mongoose.castObjectId v) as [a|]; [|discriminate].
  intros [= <-]. exists a. split; reflexivity.
Qed.

Lemma assign1_other key v p p' :
  key <> "author" ->
  Post.assign1 key v p = Some p' ->
  Post.author p' = Post.author p.
Proof.
  intros Hkey. unfold Post.assign1.
  repeat match goal with
         | |- context [String.eqb key ?k] =>
             destruct (String.eqb_spec key k)
         end; try congruence;
    match goal with
    | |- _ <$> ?c = Some _ -> _ =>
        destruct c; [intros [= <-]; reflexivity | discriminate]
    | |- Some _ = Some _ -> _ => intros [= <-]; reflexivity
    end.
Qed.

(** What [Object.assign(post, body)] does to the author: the [author]
    property of the body, when there is one, replaces it. *)
Lemma assign_author p body p' :
  Post.assign p body = Some p' ->
  Post.author p'
  = match body !! "author" ≫= Mongoose.castObjectId with
    | Some a => a
    | None => Post.author p
    end.
Proof.
  unfold Post.assign. revert p'.
  apply (map_fold_weak_ind
           (fun r (m : gmap string json) =>
              forall p', r = Some p' ->
                Post.author p'
                = match m !! "author" ≫= Mongoose.castObjectId with
                  | Some a => a
                  | None => Post.author p
                  end)).
  - intros p' [= <-]. rewrite lookup_empty. reflexivity.
  - intros key v m r Hfresh IH p' Hstep.
    destruct r as [q|]; [|discriminate]. cbn in Hstep.
    destruct (decide (key = "author")) as [->|Hkey].
    + rewrite lookup_insert_eq. cbn.
      destruct (assign1_author _ _ _ Hstep) as (a & -> & ->). reflexivity.
    + rewrite lookup_insert_ne by exact Hkey.
      rewrite (assign1_other _ _ _ _ Hkey Hstep). apply IH. reflexivity.
Qed.

Section AuthorUnderUpdate.
Context {J : jwt.Jws} {V : Validator.ValidatorJs}.

(** An accepted update stores the post that it answers with, and the
    author of that post is the [author] property of the body when the
    body has one; only a body without that property keeps the author. *)
Lemma put_author_after_update env db req u post db' post' :
  authMiddleware env db req = (db, Next (with_user req u)) ->
  Post.findById (posts db) (params_id req) = Some post ->
  posts.put env db req = (db', respond 200 (Success (DataPost post'))) ->
  Post.author post'
  = match req_body req !! "author" ≫= Mongoose.castObjectId with
    | Some a => a
    | None => Post.author post
    end.
Proof.
  intros Ha Hp. rewrite (put_after_auth _ _ _ _ Ha).
  unfold posts.put_handler, posts.acting. cbn [params_id with_user
    with_validationErrors user req_body]. rewrite Hp.
  cbn [mbind Completion_bind bind].
  destruct (negb (String.eqb _ _)); [discriminate|].
  destruct (negb (isEmpty _)); [discriminate|].
  destruct (Post.assign post (req_body req)) as [updated|] eqn:Hassign;
    [|discriminate].
  cbn. intros [= _ <-]. apply assign_author, Hassign.
Qed.
End AuthorUnderUpdate.

(** C2. The failing input of the claim: alice, the author of the post,
    sends an update whose body passes validation and carries an [author]
    property with the identifier of bob. The update is accepted, and the
    stored post then has bob as its author. *)
Theorem put_overwrites_author :
  let req := Reference.request Reference.alice "64c000000000000000000001" ∅
               {[ "author" := JStr (User._id Reference.bob) ]} in
  Validator.runChains (V := Reference.validatorJs) (req_body req)
    posts.put_chains = []
  /\ Post.author Reference.post1 = User.id Reference.alice
  /\ exists db' post',
       posts.put (J := Reference.jws) (V := Reference.validatorJs)
         Reference.env0 Reference.db0 req
       = (db', respond 200 (Success (DataPost post')))
       /\ Post.findById (posts db') "64c000000000000000000001" = Some post'
       /\ Post.author post' = User._id Reference.bob
       /\ Post.author post' <> Post.author Reference.post1.
Proof.
  cbv zeta. split; [vm_compute; reflexivity|]. split; [reflexivity|].
  eexists. eexists. split; [vm_compute; reflexivity|].
  split; [vm_compute; reflexivity|].
  split; [reflexivity | vm_compute; discriminate].
Qed.

(** ** Login failures *)

Section LoginProperties.
Context {J : jwt.Jws} {V : Validator.ValidatorJs} {M : auth.UserModel}.

Lemma login_after_validation env db req :
  validationErrors req = [] ->
  Validator.runChains (req_body req) auth.login_chains = [] ->
  auth.login env db req
  = auth.login_handler env db (with_validationErrors req []).
Proof.
  intros He Hv. unfold auth.login. cbn [route validate].
  rewrite He, Hv. cbn [app].
  destruct (auth.login_handler _ _ _) as [db' [res|req'|err]]; reflexivity.
Qed.

(** C6. Two login requests with well-formed bodies, one whose e-mail is
    not in the credential store and one whose e-mail is in the store
    but whose password does not match, get the same response: status
    401 with the error "Invalid credentials". Neither changes the
    store. *)
Theorem login_failures_identical env1 db1 req1 env2 db2 req2 u :
  validationErrors req1 = [] ->
  validationErrors req2 = [] ->
  Validator.runChains (req_body req1) auth.login_chains = [] ->
  Validator.runChains (req_body req2) auth.login_chains = [] ->
  User.findOne_email (users db1) (req_body req1 !! "email") = Return None ->
  User.findOne_email (users db2) (req_body req2 !! "email")
    = Return (Some u) ->
  auth.matchPassword u (req_body req2 !! "password") = Return false ->
  auth.login env1 db1 req1
    = (db1, respond 401 (Failure "Invalid credentials"))
  /\ auth.login env2 db2 req2
     = (db2, respond 401 (Failure "Invalid credentials"))
  /\ snd (auth.login env1 db1 req1) = snd (auth.login env2 db2 req2).
Proof.
  intros He1 He2 Hv1 Hv2 Hnone Hsome Hpw.
  assert (H1 : auth.login env1 db1 req1
               = (db1, respond 401 (Failure "Invalid credentials"))).
  { rewrite login_after_validation by assumption.
    unfold auth.login_handler. cbn [validationResult validationErrors
      with_validationErrors isEmpty negb req_body].
    rewrite Hnone. reflexivity. }
  assert (H2 : auth.login env2 db2 req2
               = (db2, respond 401 (Failure "Invalid credentials"))).
  { rewrite login_after_validation by assumption.
    unfold auth.login_handler. cbn [validationResult validationErrors
      with_validationErrors isEmpty negb req_body].
    rewrite Hsome. cbn [mbind Completion_bind bind].
    rewrite Hpw. reflexivity. }
  rewrite H1, H2. auto.
Qed.
End LoginProperties.

Lemma login_failures_identical_witness :
  let unknown := mkRequest None "" ∅
                   {[ "email" := JStr "carol@example.org";
                      "password" := JStr "wonderland" ]} None [] in
  let mismatch := mkRequest None "" ∅
                    {[ "email" := JStr "alice@example.org";
                       "password" := JStr "looking-glass" ]} None [] in
  auth.login (J := Reference.jws) (V := Reference.validatorJs)
    (M := Reference.userModel) Reference.env0 Reference.db0 unknown
    = (Reference.db0, respond 401 (Failure "Invalid credentials"))
  /\ auth.login (J := Reference.jws) (V := Reference.validatorJs)
       (M := Reference.userModel) Reference.env0 Reference.db0 mismatch
     = (Reference.db0, respond 401 (Failure "Invalid credentials"))
  /\ snd (auth.login (J := Reference.jws) (V := Reference.validatorJs)
            (M := Reference.userModel) Reference.env0 Reference.db0 unknown)
     = snd (auth.login (J := Reference.jws) (V := Reference.validatorJs)
              (M := Reference.userModel) Reference.env0 Reference.db0
              mismatch).
Proof.
  cbv zeta.
  apply (login_failures_identical (J := Reference.jws)
           (V := Reference.validatorJs) (M := Reference.userModel)
           Reference.env0 Reference.db0 _ Reference.env0 Reference.db0 _
           Reference.alice).
  - reflexivity.
  - reflexivity.
  - vm_compute. reflexivity.
  - vm_compute. reflexivity.
  - vm_compute. reflexivity.
  - vm_compute. reflexivity.
  - vm_compute. reflexivity.
Defined.

(** ** Categories *)

Lemma trimStart_idempotent s : JS.trimStart (JS.trimStart s) = JS.trimStart s.
Proof.
  induction s as [|c r IH]; [reflexivity|]. cbn [JS.trimStart].
  destruct (JS.isWhiteSpace c) eqn:Hc; [exact IH|].
  cbn [JS.trimStart]. rewrite Hc. reflexivity.
Qed.

Lemma trimStart_head s :
  JS.trimStart s = EmptyString
  \/ exists c r, JS.trimStart s = String c r /\ JS.isWhiteSpace c = false.
Proof.
  induction s as [|c r IH]; [left; reflexivity|]. cbn [JS.trimStart].
  destruct (JS.isWhiteSpace c) eqn:Hc; [exact IH|]. right. eauto.
Qed.

Lemma trimEnd_idempotent s : JS.trimEnd (JS.trimEnd s) = JS.trimEnd s.
Proof.
  induction s as [|c r IH]; [reflexivity|]. cbn [JS.trimEnd].
  destruct (JS.trimEnd r) as [|d r'] eqn:Hr.
  - destruct (JS.isWhiteSpace c) eqn:Hc; [reflexivity|].
    cbn [JS.trimEnd]. rewrite Hc. reflexivity.
  - cbn [JS.trimEnd]. cbn [JS.trimEnd] in IH.
    destruct (JS.trimEnd r') as [|e r'']; rewrite IH; reflexivity.
Qed.

Lemma trimStart_trimEnd c r :
  JS.isWhiteSpace c = false ->
  JS.trimStart (JS.trimEnd (String c r)) = JS.trimEnd (String c r).
Proof.
  intros Hc. cbn [JS.trimEnd].
  destruct (JS.trimEnd r); rewrite ?Hc; cbn [JS.trimStart]; rewrite Hc;
    reflexivity.
Qed.

Lemma trim_idempotent s : JS.trim (JS.trim s) = JS.trim s.
Proof.
  unfold JS.trim.
  destruct (trimStart_head s) as [He|(c & r & He & Hc)]; rewrite He.
  - reflexivity.
  - rewrite (trimStart_trimEnd _ _ Hc). apply trimEnd_idempotent.
Qed.

Lemma find_some_exists {A} (f : A -> bool) l x :
  In x l -> f x = true -> exists y, List.find f l = Some y.
Proof.
  induction l as [|a l IH]; intros Hin Hf; [destruct Hin|].
  cbn [List.find]. destruct (f a) eqn:Ha; [eauto|].
  destruct Hin as [->|Hin]; [congruence | auto].
Qed.

Lemma existsb_all_false {A} (f : A -> bool) l :
  (forall x, In x l -> f x = false) -> existsb f l = false.
Proof.
  induction l as [|a l IH]; intros Hall; [reflexivity|]. cbn [existsb].
  rewrite (Hall a (or_introl eq_refl)). apply IH.
  intros x Hx. apply Hall. right. exact Hx.
Qed.

#[local] Instance byName_total : Total Category.byName.
Proof. intros a b. apply String.le_total. Qed.

Lemma find_sorted_by_name_spec cats :
  Sorted Category.byName (Category.find_sorted_by_name cats)
  /\ Category.find_sorted_by_name cats ≡ₚ cats.
Proof.
  split; [apply Sorted_merge_sort, _ | apply merge_sort_Permutation].
Qed.

Lemma validate_name_nonempty n :
  Category.validate_name n = true -> n <> EmptyString.
Proof. intros Hv ->. discriminate. Qed.

Lemma notEmpty_name_passes {V : Validator.ValidatorJs} body n :
  body !! "name" = Some (JStr n) ->
  n <> EmptyString ->
  Validator.runChains body categories_routes.post_chains = [].
Proof.
  intros Hb Hn. unfold Validator.runChains, categories_routes.post_chains.
  cbn [List.map List.concat Validator.runChain Validator.field
         Validator.optional Validator.rules].
  rewrite Hb. cbn. destruct n; [congruence | reflexivity].
Qed.

Lemma trim_nonempty n : JS.trim n <> EmptyString -> n <> EmptyString.
Proof. intros Ht ->. apply Ht. reflexivity. Qed.

Section CategoryProperties.
Context {J : jwt.Jws} {V : Validator.ValidatorJs}.

Lemma post_after_auth env db req u :
  authMiddleware env db req = (db, Next (with_user req u)) ->
  validationErrors req = [] ->
  categories_routes.post env db req
  = categories_routes.post_handler env db
      (with_validationErrors (with_user req u)
         (Validator.runChains (req_body req)
            categories_routes.post_chains)).
Proof.
  intros Ha He. unfold categories_routes.post.
  rewrite (route_next _ _ _ _ _ _ _ Ha).
  cbn [route validate]. cbn [with_user validationErrors req_body].
  rewrite He. cbn [app].
  destruct (categories_routes.post_handler _ _ _) as [db' [res|req'|err]];
    reflexivity.
Qed.

Lemma post_handler_existing env db req n c :
  validationErrors req = [] ->
  req_body req !! "name" = Some (JStr n) ->
  In c (categories db) ->
  Category.name c = JS.trim n ->
  categories_routes.post_handler env db req
  = (db, respond 400 (Failure "Category already exists")).
Proof.
  intros He Hb Hin Hname. unfold categories_routes.post_handler.
  unfold validationResult. rewrite He, Hb. cbn [isEmpty negb].
  cbn [Category.findOne_name Mongoose.castString].
  destruct (find_some_exists
              (fun d => String.eqb (Category.name d) (Category.set_name n))
              (categories db) c Hin) as [y Hy].
  { apply String.eqb_eq. exact Hname. }
  rewrite Hy. reflexivity.
Qed.

Lemma post_handler_new env db req n :
  validationErrors req = [] ->
  req_body req !! "name" = Some (JStr n) ->
  Category.validate_name (JS.trim n) = true ->
  (forall c, In c (categories db) -> Category.name c <> JS.trim n) ->
  let c := Category.mk (newObjectId env) (JS.trim n) (now env) in
  categories_routes.post_handler env db req
  = (mkDB (users db) (posts db) (categories db ++ [c]),
     respond 201 (Success (DataCategory c))).
Proof.
  intros He Hb Hv Hfresh. unfold categories_routes.post_handler.
  unfold validationResult. rewrite He, Hb. cbn [isEmpty negb].
  cbn [Category.findOne_name Mongoose.castString].
  rewrite find_all_false.
  2: { intros x Hx. apply String.eqb_neq. apply Hfresh, Hx. }
  cbn [mbind Completion_bind bind try_catch].
  unfold Category.new, Category.save.
  cbn [option_bind mbind Mongoose.castString fmap option_fmap option_map
         default from_option id Category.name Category.set_name].
  unfold Category.set_name.
  rewrite Hv. cbn [negb]. rewrite existsb_all_false.
  2: { intros x Hx. apply String.eqb_neq. apply Hfresh, Hx. }
  reflexivity.
Qed.

(** The schema invariant of the categories is kept by the create
    handler. *)
Lemma post_handler_keeps_wf env db req :
  Category.wf (categories db) ->
  Category.wf (categories (fst (categories_routes.post_handler env db req))).
Proof.
  intros Hwf. unfold categories_routes.post_handler.
  destruct (negb (isEmpty (validationResult req))); [exact Hwf|].
  destruct (Category.findOne_name _ _) as [[existing|]|e];
    cbn [mbind Completion_bind bind try_catch fst]; try exact Hwf.
  unfold Category.save.
  destruct (Category.validate_name _) eqn:Hv; cbn [negb fst]; [|exact Hwf].
  destruct (existsb _ _); cbn [fst categories]; [exact Hwf|].
  apply Forall_app. split; [exact Hwf|]. constructor; [|constructor].
  split; [|exact Hv].
  unfold Category.new, Category.set_name in *. cbn [Category.name] in *.
  destruct (req_body req !! "name" ≫= Mongoose.castString) as [n|];
    cbn [fmap option_fmap option_map default from_option id];
    [apply trim_idempotent | reflexivity].
Qed.
End CategoryProperties.

Section CreateCategory.
Context {J : jwt.Jws} {V : Validator.ValidatorJs}.

(** C8, as amended. For an authenticated create request whose name is a
    string: when the name, once trimmed of white space (NBSP included),
    is the name of a category of the store (whose names are trimmed and
    valid, as the schema makes them), the answer is 400 "Category
    already exists" and the store is unchanged; when the name, once
    trimmed, is not empty, has at most 50 characters and is not the name
    of a category of the store, the answer is 201, the category is
    stored under the trimmed name, and the listing of the new store
    contains it and is sorted by name. *)
Theorem create_category_cases env db req u n :
  authMiddleware env db req = (db, Next (with_user req u)) ->
  validationErrors req = [] ->
  req_body req !! "name" = Some (JStr n) ->
  (Category.wf (categories db) ->
   (exists c, In c (categories db) /\ Category.name c = JS.trim n) ->
   categories_routes.post env db req
   = (db, respond 400 (Failure "Category already exists")))
  /\ (Category.validate_name (JS.trim n) = true ->
      (forall c, In c (categories db) -> Category.name c <> JS.trim n) ->
      let c := Category.mk (newObjectId env) (JS.trim n) (now env) in
      let db' := mkDB (users db) (posts db) (categories db ++ [c]) in
      categories_routes.post env db req
      = (db', respond 201 (Success (DataCategory c)))
      /\ forall env' req',
           exists listing,
             categories_routes.get_handler env' db' req'
             = (db', respond 200 (Success (DataCategories listing)))
             /\ In c listing
             /\ Sorted Category.byName listing
             /\ listing ≡ₚ categories db ++ [c]).
Proof.
  intros Ha He Hb. rewrite (post_after_auth _ _ _ _ Ha He). split.
  - intros Hwf (c & Hin & Hname).
    pose proof (proj1 (List.Forall_forall _ _) Hwf c Hin) as [_ Hvalid].
    rewrite Hname in Hvalid.
    rewrite (notEmpty_name_passes _ n Hb
               (trim_nonempty _ (validate_name_nonempty _ Hvalid))).
    apply (post_handler_existing _ _ _ n c); auto.
  - intros Hvalid Hfresh c db'.
    rewrite (notEmpty_name_passes _ n Hb
               (trim_nonempty _ (validate_name_nonempty _ Hvalid))).
    split; [apply post_handler_new; auto|].
    intros env' req'.
    destruct (find_sorted_by_name_spec (categories db ++ [c]))
      as [Hsorted Hperm].
    exists (Category.find_sorted_by_name (categories db ++ [c])).
    split; [reflexivity|]. split; [|split; assumption].
    apply (Permutation_in _ (Permutation_sym Hperm)).
    apply in_or_app. right. left. reflexivity.
Qed.
End CreateCategory.

(** The request of the counterexample below: alice sends a name of 51
    characters to a store that has no category of that name. *)
Lemma create_category_long_name_rejected :
  let req := Reference.request Reference.alice "" ∅
               {[ "name" := JStr Reference.longName ]} in
  Reference.longName <> EmptyString
  /\ (forall c, In c (categories Reference.db0) ->
                Category.name c <> Reference.longName)
  /\ categories_routes.post (J := Reference.jws) (V := Reference.validatorJs)
       Reference.env0 Reference.db0 req
     = (Reference.db0, NextErr Mongoose.ValidationError)
  /\ ~ (exists db' c,
          categories_routes.post (J := Reference.jws)
            (V := Reference.validatorJs) Reference.env0 Reference.db0 req
          = (db', respond 201 (Success (DataCategory c)))).
Proof.
  cbv zeta.
  assert (Hpost : categories_routes.post (J := Reference.jws)
                    (V := Reference.validatorJs) Reference.env0 Reference.db0
                    (Reference.request Reference.alice "" ∅
                       {[ "name" := JStr Reference.longName ]})
                  = (Reference.db0, NextErr Mongoose.ValidationError)).
  { vm_compute. reflexivity. }
  split; [vm_compute; discriminate|].
  split.
  { intros c [<-|[]]. vm_compute. discriminate. }
  split; [exact Hpost|].
  intros (db' & c & Hc). rewrite Hpost in Hc. discriminate.
Qed.

Lemma create_category_cases_witness :
  let fresh := Reference.request Reference.alice "" ∅
                 {[ "name" := JStr "  Travel " ]} in
  let taken := Reference.request Reference.alice "" ∅
                 {[ "name" := JStr "News" ]} in
  let padded := Reference.request Reference.alice "" ∅
                  {[ "name" := JStr (String (ascii_of_N 160) "News") ]} in
  let c := Category.mk "64e000000000000000000001" "Travel" 2000 in
  categories_routes.post (J := Reference.jws) (V := Reference.validatorJs)
    Reference.env0 Reference.db0 fresh
  = (mkDB [Reference.alice; Reference.bob] [Reference.post1]
       [Reference.news; c],
     respond 201 (Success (DataCategory c)))
  /\ categories_routes.post (J := Reference.jws)
       (V := Reference.validatorJs) Reference.env0 Reference.db0 taken
     = (Reference.db0, respond 400 (Failure "Category already exists"))
  /\ categories_routes.post (J := Reference.jws)
       (V := Reference.validatorJs) Reference.env0 Reference.db0 padded
     = (Reference.db0, respond 400 (Failure "Category already exists")).
Proof.
  cbv zeta. split; [|split].
  - destruct (create_category_cases (J := Reference.jws)
                (V := Reference.validatorJs) Reference.env0 Reference.db0
                (Reference.request Reference.alice "" ∅
                   {[ "name" := JStr "  Travel " ]})
                (User.select_minus_password Reference.alice) "  Travel ")
      as [_ Hnew].
    + vm_compute. reflexivity.
    + reflexivity.
    + vm_compute. reflexivity.
    + destruct Hnew as [Hpost _].
      * vm_compute. reflexivity.
      * intros c [<-|[]]. vm_compute. discriminate.
      * exact Hpost.
  - destruct (create_category_cases (J := Reference.jws)
                (V := Reference.validatorJs) Reference.env0 Reference.db0
                (Reference.request Reference.alice "" ∅
                   {[ "name" := JStr "News" ]})
                (User.select_minus_password Reference.alice) "News")
      as [Htaken _].
    + vm_compute. reflexivity.
    + reflexivity.
    + vm_compute. reflexivity.
    + apply Htaken.
      * constructor; [|constructor]. split; vm_compute; reflexivity.
      * exists Reference.news. split; [left; reflexivity | reflexivity].
  - destruct (create_category_cases (J := Reference.jws)
                (V := Reference.validatorJs) Reference.env0 Reference.db0
                (Reference.request Reference.alice "" ∅
                   {[ "name" := JStr (String (ascii_of_N 160) "News") ]})
                (User.select_minus_password Reference.alice)
                (String (ascii_of_N 160) "News"))
      as [Htaken _].
    + vm_compute. reflexivity.
    + reflexivity.
    + vm_compute. reflexivity.
    + apply Htaken.
      * constructor; [|constructor]. split; vm_compute; reflexivity.
      * exists Reference.news. split; [left; reflexivity | reflexivity].
Defined.

(** ** Listing posts *)

Lemma StronglySorted_take {A} (R : relation A) n l :
  StronglySorted R l -> StronglySorted R (take n l).
Proof.
  intros Hs. revert n. induction Hs as [|x l Hs IH Hx]; intros [|n]; cbn;
    try constructor; auto.
  apply Forall_take, Hx.
Qed.

Lemma StronglySorted_drop {A} (R : relation A) n l :
  StronglySorted R l -> StronglySorted R (drop n l).
Proof.
  revert l. induction n as [|n IH]; intros l Hs; [exact Hs|].
  destruct l as [|x l]; [constructor|]. cbn. apply IH.
  inversion Hs; assumption.
Qed.

Lemma StronglySorted_map {A B} (R : relation A) (S : relation B)
    (f : A -> B) l :
  (forall x y, R x y -> S (f x) (f y)) ->
  StronglySorted R l -> StronglySorted S (List.map f l).
Proof.
  intros Hf Hs. induction Hs as [|x l Hs IH Hx]; cbn; constructor; auto.
  apply List.Forall_map. eapply List.Forall_impl; [|exact Hx].
  intros y. apply Hf.
Qed.

#[local] Instance newerFirst_total : Total posts.newerFirst.
Proof. intros a b. unfold posts.newerFirst. lia. Qed.

#[local] Instance newerFirst_trans : Transitive posts.newerFirst.
Proof. intros a b c. unfold posts.newerFirst. lia. Qed.

Lemma ceilDiv_spec n l :
  0 < l -> (JS.ceilDiv n l - 1) * l < n <= JS.ceilDiv n l * l.
Proof.
  intros Hl. unfold JS.ceilDiv.
  pose proof (Z.div_mod (- n) l ltac:(lia)) as Hdm.
  pose proof (Z.mod_pos_bound (- n) l Hl) as Hb.
  nia.
Qed.

Lemma find_subset filter ps x : In x (posts.find filter ps) -> In x ps.
Proof.
  unfold posts.find. destruct filter as [c|]; [|auto].
  intros Hx. apply List.filter_In in Hx. tauto.
Qed.

Lemma find_matches c ps x :
  In x (posts.find (Some c) ps) -> Post.category x = c.
Proof.
  cbn [posts.find]. intros Hx. apply List.filter_In in Hx.
  apply String.eqb_eq. tauto.
Qed.

Section ListPosts.
Implicit Types (env : Env) (db : DB) (req : Request).

Lemma get_handler_page env db req :
  1 <= posts.pageOf req ->
  1 <= posts.limitOf req ->
  posts.get_handler env db req
  = (db, respond 200
           (SuccessPage
              (List.map (posts.populate db)
                 (take (Z.to_nat (posts.limitOf req))
                    (drop (Z.to_nat ((posts.pageOf req - 1)
                                     * posts.limitOf req))
                       (posts.sortByCreatedAtDesc
                          (posts.find (posts.filterOf req) (posts db))))))
              (mkPagination
                 (posts.countDocuments (posts.filterOf req) (posts db))
                 (posts.pageOf req)
                 (JS.ceilDiv
                    (posts.countDocuments (posts.filterOf req) (posts db))
                    (posts.limitOf req))))).
Proof.
  intros Hp Hl. unfold posts.get_handler, posts.skip, posts.limit.
  destruct (Z.ltb_spec ((posts.pageOf req - 1) * posts.limitOf req) 0);
    [nia|].
  cbn [mbind Completion_bind bind try_catch mret Completion_ret].
  destruct (Z.eqb_spec (posts.limitOf req) 0); [lia|].
  rewrite Z.abs_eq by lia. reflexivity.
Qed.

Lemma find_filterOf req ps :
  posts.find (posts.filterOf req) ps
  = match query req !! "category" with
    | Some c =>
        if String.eqb c EmptyString then ps
        else List.filter (fun q => String.eqb (Post.category q) c) ps
    | None => ps
    end.
Proof.
  unfold posts.filterOf, JS.truthy.
  destruct (query req !! "category") as [c|]; [|reflexivity].
  destruct (String.eqb c "") eqn:Hc; reflexivity.
Qed.

(** C7, as amended. For a list request whose page [p] and limit [l], as
    the handler reads them from the query with [parseInt(x) || default],
    are at least 1 and, with the number of skipped posts [(p - 1) * l]
    and the size of the store, at most 2^53 - 1, whose category filter
    is absent, empty or a well-formed identifier, and a store with [n]
    posts of that category (all its posts when the filter is absent or
    empty), the answer is 200 with the pagination {total: n, page: p,
    pages: ceil(n/l)}, where ceil(n/l) is the least number of pages of
    [l] posts that hold [n] posts; the data are at most [l] posts, all
    of them of that category, and they are sorted by creation time,
    newest first: they are the page [p] of the matching posts in that
    order. *)
Theorem list_posts_pagination env db req p l :
  JS.orDefault (JS.parseInt (query req !! "page")) 1 = p ->
  JS.orDefault (JS.parseInt (query req !! "limit")) 10 = l ->
  1 <= p <= MAX_SAFE_INTEGER ->
  1 <= l <= MAX_SAFE_INTEGER ->
  (p - 1) * l <= MAX_SAFE_INTEGER ->
  Z.of_nat (length (posts db)) <= MAX_SAFE_INTEGER ->
  (forall c, query req !! "category" = Some c ->
             c = EmptyString \/ canonicalId c = true) ->
  let matching :=
    match query req !! "category" with
    | Some c =>
        if String.eqb c EmptyString then posts db
        else List.filter (fun q => String.eqb (Post.category q) c) (posts db)
    | None => posts db
    end in
  let n := Z.of_nat (length matching) in
  exists data,
    posts.get_handler env db req
    = (db, respond 200
             (SuccessPage data (mkPagination n p (JS.ceilDiv n l))))
    /\ (JS.ceilDiv n l - 1) * l < n <= JS.ceilDiv n l * l
    /\ Z.of_nat (length data) <= l
    /\ Sorted newerFirstPopulated data
    /\ (forall x, In x data -> In (post_of x) matching)
    /\ data = List.map (posts.populate db)
                (take (Z.to_nat l)
                   (drop (Z.to_nat ((p - 1) * l))
                      (posts.sortByCreatedAtDesc matching))).
Proof.
  intros Hp Hl [Hp1 _] [Hl1 _] _ _ _. rewrite <- (find_filterOf req (posts db)).
  intros matching n. subst p l.
  change (JS.orDefault (JS.parseInt (query req !! "page")) 1)
    with (posts.pageOf req) in *.
  change (JS.orDefault (JS.parseInt (query req !! "limit")) 10)
    with (posts.limitOf req) in *.
  eexists. split; [apply get_handler_page; assumption|].
  split; [apply ceilDiv_spec; lia|].
  split.
  { rewrite List.length_map, length_take. lia. }
  split.
  { apply StronglySorted_Sorted.
    apply (StronglySorted_map posts.newerFirst); [auto|].
    apply StronglySorted_take, StronglySorted_drop.
    apply StronglySorted_merge_sort; apply _. }
  split; [|reflexivity].
  intros x Hx. apply List.in_map_iff in Hx. destruct Hx as (q & <- & Hq).
  cbn [post_of posts.populate].
  apply list_elem_of_In in Hq. apply subseteq_take, subseteq_drop in Hq.
  apply list_elem_of_In in Hq.
  apply (Permutation_in _ (merge_sort_Permutation _ _)) in Hq. exact Hq.
Qed.
End ListPosts.

(** The request of the counterexample below: the limit -5 on a store of
    twelve posts. The answer holds five posts, which is not at most -5,
    and counts -2 pages. *)
Lemma list_posts_negative_limit :
  let req := mkRequest None "" {[ "limit" := "-5" ]} ∅ None [] in
  posts.limitOf req = -5
  /\ posts.get_handler Reference.env0 Reference.db12 req
     = (Reference.db12,
        respond 200
          (SuccessPage
             (List.map (posts.populate Reference.db12)
                (List.map Reference.postAt [12; 11; 10; 9; 8]%nat))
             (mkPagination 12 1 (-2))))
  /\ ~ (exists data pagination,
          posts.get_handler Reference.env0 Reference.db12 req
          = (Reference.db12, respond 200 (SuccessPage data pagination))
          /\ Z.of_nat (length data) <= posts.limitOf req).
Proof.
  cbv zeta.
  assert (Hrun : posts.get_handler Reference.env0 Reference.db12
                   (mkRequest None "" {[ "limit" := "-5" ]} ∅ None [])
                 = (Reference.db12,
                    respond 200
                      (SuccessPage
                         (List.map (posts.populate Reference.db12)
                            (List.map Reference.postAt [12; 11; 10; 9; 8]%nat))
                         (mkPagination 12 1 (-2))))).
  { vm_compute. reflexivity. }
  split; [vm_compute; reflexivity|].
  split; [exact Hrun|].
  intros (data & pagination & Hres & Hlen).
  rewrite Hrun in Hres. injection Hres as <- _.
  revert Hlen. vm_compute. intros H. apply H. reflexivity.
Qed.

Lemma list_posts_pagination_witness :
  (exists data,
      posts.get_handler Reference.env0 Reference.db12
        (mkRequest None "" {[ "page" := "2"; "limit" := "5" ]} ∅ None [])
      = (Reference.db12,
         respond 200 (SuccessPage data (mkPagination 12 2 3)))
      /\ Z.of_nat (length data) <= 5)
  /\ (exists data,
        posts.get_handler Reference.env0 Sample.db2
          (mkRequest None ""
             {[ "category" := "64d000000000000000000001" ]} ∅ None [])
        = (Sample.db2,
           respond 200 (SuccessPage data (mkPagination 2 1 1)))
        /\ Z.of_nat (length data) <= 10).
Proof.
  split.
  - destruct (list_posts_pagination Reference.env0 Reference.db12
                (mkRequest None "" {[ "page" := "2"; "limit" := "5" ]} ∅
                   None []) 2 5)
      as (data & Hres & _ & Hlen & _).
    + vm_compute. reflexivity.
    + vm_compute. reflexivity.
    + unfold MAX_SAFE_INTEGER. lia.
    + unfold MAX_SAFE_INTEGER. lia.
    + unfold MAX_SAFE_INTEGER. lia.
    + vm_compute. discriminate.
    + intros c Hc. vm_compute in Hc. discriminate.
    + exists data. split; [exact Hres | exact Hlen].
  - destruct (list_posts_pagination Reference.env0 Sample.db2
                (mkRequest None ""
                   {[ "category" := "64d000000000000000000001" ]} ∅
                   None []) 1 10)
      as (data & Hres & _ & Hlen & _).
    + vm_compute. reflexivity.
    + vm_compute. reflexivity.
    + unfold MAX_SAFE_INTEGER. lia.
    + unfold MAX_SAFE_INTEGER. lia.
    + unfold MAX_SAFE_INTEGER. lia.
    + vm_compute. discriminate.
    + intros c Hc. right. vm_compute in Hc. injection Hc as <-.
      vm_compute. reflexivity.
    + exists data. split; [exact Hres | exact Hlen].
Defined.

Example list_posts_second_page :
  exists pagination,
    posts.get_handler Reference.env0 Reference.db12
      (mkRequest None "" {[ "page" := "2"; "limit" := "5" ]} ∅ None [])
    = (Reference.db12,
       respond 200
         (SuccessPage
            (List.map (posts.populate Reference.db12)
               (List.map Reference.postAt [7; 6; 5; 4; 3]%nat))
            pagination))
    /\ pagination = mkPagination 12 2 3.
Proof. eexists. split; vm_compute; reflexivity. Qed.

Example list_posts_of_a_category :
  posts.get_handler Reference.env0
    (mkDB [Reference.alice; Reference.bob]
       [Reference.post1;
        Post.mk "64c000000000000000000003" "Elsewhere" "Third post"
          "64d000000000000000000002" (User._id Reference.bob)
          "default-post.jpg" EmptyString [] true [] "elsewhere" 1700]
       [Reference.news])
    (mkRequest None "" {[ "category" := "64d000000000000000000001" ]} ∅
       None [])
  = (mkDB [Reference.alice; Reference.bob]
       [Reference.post1;
        Post.mk "64c000000000000000000003" "Elsewhere" "Third post"
          "64d000000000000000000002" (User._id Reference.bob)
          "default-post.jpg" EmptyString [] true [] "elsewhere" 1700]
       [Reference.news],
     respond 200
       (SuccessPage
          [mkPopulatedPost Reference.post1 (Some "alice") (Some "News")]
          (mkPagination 1 1 1))).
Proof. vm_compute. reflexivity. Qed.

Section PageAndLimitDefaults.
Implicit Types (env : Env) (db : DB) (req : Request).

Lemma get_handler_ext env db req1 req2 :
  posts.pageOf req1 = posts.pageOf req2 ->
  posts.limitOf req1 = posts.limitOf req2 ->
  posts.filterOf req1 = posts.filterOf req2 ->
  posts.get_handler env db req1 = posts.get_handler env db req2.
Proof.
  intros Hp Hl Hf. unfold posts.get_handler. rewrite Hp, Hl, Hf.
  reflexivity.
Qed.

Lemma orDefault_falsy v d :
  JS.parseInt v = None \/ JS.parseInt v = Some 0 ->
  JS.orDefault (JS.parseInt v) d = d.
Proof. intros [->| ->]; reflexivity. Qed.

(** C10, as amended. A value of the query for the page or for the limit
    that [parseInt] reads as [NaN] or as 0 is replaced by the default, 1
    for the page and 10 for the limit: the answer to the request is the
    answer to the same request with "1", or "10", in its place. So a
    request whose limit is 0 or unreadable, on a page [p] of at least 1
    (with a category filter that is absent, empty or a well-formed
    identifier, and numbers of at most 2^53 - 1), is answered with the
    pagination {total: n, page: p, pages: ceil(n/10)} and the first 10
    matching posts after the [(p - 1) * 10] skipped ones, or all of
    them when there are fewer: at least one post whenever a post is left
    after the skipped ones, and no post when none is left, as on an
    empty store. A request whose page is 0 or unreadable is answered
    with page 1: the first [l] matching posts. *)
Theorem page_and_limit_defaults env db req :
  (JS.parseInt (query req !! "limit") = None
   \/ JS.parseInt (query req !! "limit") = Some 0 ->
   posts.limitOf req = 10
   /\ posts.get_handler env db req
      = posts.get_handler env db
          (with_query req (<["limit" := "10"]> (query req)))
   /\ forall p,
        JS.orDefault (JS.parseInt (query req !! "page")) 1 = p ->
        1 <= p ->
        (p - 1) * 10 <= MAX_SAFE_INTEGER ->
        Z.of_nat (length (posts db)) <= MAX_SAFE_INTEGER ->
        (forall c, query req !! "category" = Some c ->
                   c = EmptyString \/ canonicalId c = true) ->
        let matching :=
          match query req !! "category" with
          | Some c =>
              if String.eqb c EmptyString then posts db
              else List.filter (fun q => String.eqb (Post.category q) c)
                     (posts db)
          | None => posts db
          end in
        let n := Z.of_nat (length matching) in
        let skipped := Z.to_nat ((p - 1) * 10) in
        exists data,
          posts.get_handler env db req
          = (db, respond 200
                   (SuccessPage data (mkPagination n p (JS.ceilDiv n 10))))
          /\ data = List.map (posts.populate db)
                      (take 10 (drop skipped
                                  (posts.sortByCreatedAtDesc matching)))
          /\ length data = Nat.min 10 (length matching - skipped)
          /\ ((skipped < length matching)%nat -> data <> [])
          /\ ((length matching <= skipped)%nat -> data = []))
  /\ (JS.parseInt (query req !! "page") = None
      \/ JS.parseInt (query req !! "page") = Some 0 ->
      posts.pageOf req = 1
      /\ posts.get_handler env db req
         = posts.get_handler env db
             (with_query req (<["page" := "1"]> (query req)))
      /\ forall l,
           JS.orDefault (JS.parseInt (query req !! "limit")) 10 = l ->
           1 <= l <= MAX_SAFE_INTEGER ->
           Z.of_nat (length (posts db)) <= MAX_SAFE_INTEGER ->
           (forall c, query req !! "category" = Some c ->
                      c = EmptyString \/ canonicalId c = true) ->
           let matching :=
             match query req !! "category" with
             | Some c =>
                 if String.eqb c EmptyString then posts db
                 else List.filter (fun q => String.eqb (Post.category q) c)
                        (posts db)
             | None => posts db
             end in
           let n := Z.of_nat (length matching) in
           exists data,
             posts.get_handler env db req
             = (db, respond 200
                      (SuccessPage data (mkPagination n 1 (JS.ceilDiv n l))))
             /\ data = List.map (posts.populate db)
                         (take (Z.to_nat l)
                            (posts.sortByCreatedAtDesc matching))).
Proof.
  split.
  - intros Hbad.
    assert (Hl : posts.limitOf req = 10)
      by (apply orDefault_falsy; exact Hbad).
    split; [exact Hl|]. split.
    { apply get_handler_ext.
      + unfold posts.pageOf, with_query. cbn [query].
        rewrite lookup_insert_ne by discriminate. reflexivity.
      + rewrite Hl. unfold posts.limitOf, with_query. cbn [query].
        rewrite lookup_insert_eq. reflexivity.
      + unfold posts.filterOf, with_query. cbn [query].
        rewrite lookup_insert_ne by discriminate. reflexivity. }
    intros p Hp Hp1 _ _ _. rewrite <- (find_filterOf req (posts db)).
    intros matching n skipped.
    change (JS.orDefault (JS.parseInt (query req !! "page")) 1)
      with (posts.pageOf req) in Hp.
    assert (Hlen : length
              (List.map (posts.populate db)
                 (take 10 (drop skipped (posts.sortByCreatedAtDesc matching))))
            = Nat.min 10 (length matching - skipped)).
    { rewrite List.length_map, length_take, length_drop.
      unfold posts.sortByCreatedAtDesc.
      rewrite (Permutation_length (merge_sort_Permutation _ _)).
      reflexivity. }
    exists (List.map (posts.populate db)
              (take 10 (drop skipped (posts.sortByCreatedAtDesc matching)))).
    split.
    { rewrite get_handler_page by lia. rewrite Hl, Hp. reflexivity. }
    split; [reflexivity|]. split; [exact Hlen|]. split.
    + intros Hlt Hnil. rewrite Hnil in Hlen. cbn [length] in Hlen. lia.
    + intros Hle. apply length_zero_iff_nil. rewrite Hlen. lia.
  - intros Hbad.
    assert (Hp : posts.pageOf req = 1)
      by (apply orDefault_falsy; exact Hbad).
    split; [exact Hp|]. split.
    { apply get_handler_ext.
      + rewrite Hp. unfold posts.pageOf, with_query. cbn [query].
        rewrite lookup_insert_eq. reflexivity.
      + unfold posts.limitOf, with_query. cbn [query].
        rewrite lookup_insert_ne by discriminate. reflexivity.
      + unfold posts.filterOf, with_query. cbn [query].
        rewrite lookup_insert_ne by discriminate. reflexivity. }
    intros l Hl [Hl1 _] _ _. rewrite <- (find_filterOf req (posts db)).
    intros matching n.
    change (JS.orDefault (JS.parseInt (query req !! "limit")) 10)
      with (posts.limitOf req) in Hl.
    eexists. split.
    { rewrite get_handler_page by lia. rewrite Hl, Hp. reflexivity. }
    reflexivity.
Qed.
End PageAndLimitDefaults.

(** The requests of the counterexample below: the limit 0 on a store
    with no post, and the limit 0 on the third page of a store of twelve
    posts. Both are answered with no post. *)
Lemma limit_zero_returns_no_items :
  let empty := mkDB [Reference.alice; Reference.bob] [] [Reference.news] in
  posts.get_handler Reference.env0 empty
    (mkRequest None "" {[ "limit" := "0" ]} ∅ None [])
  = (empty, respond 200 (SuccessPage [] (mkPagination 0 1 0)))
  /\ posts.get_handler Reference.env0 Reference.db12
       (mkRequest None "" {[ "limit" := "0"; "page" := "3" ]} ∅ None [])
     = (Reference.db12, respond 200 (SuccessPage [] (mkPagination 12 3 2))).
Proof. cbv zeta. split; vm_compute; reflexivity. Qed.

Lemma page_and_limit_defaults_witness :
  (exists data,
      posts.get_handler Reference.env0 Reference.db12
        (mkRequest None "" {[ "limit" := "0" ]} ∅ None [])
      = (Reference.db12,
         respond 200 (SuccessPage data (mkPagination 12 1 2)))
      /\ length data = 10%nat)
  /\ (exists data,
        posts.get_handler Reference.env0 Reference.db12
          (mkRequest None "" {[ "page" := "abc"; "limit" := "5" ]} ∅ None [])
        = (Reference.db12,
           respond 200 (SuccessPage data (mkPagination 12 1 3)))
        /\ data = List.map (posts.populate Reference.db12)
                    (List.map Reference.postAt [12; 11; 10; 9; 8]%nat)).
Proof.
  split.
  - destruct (page_and_limit_defaults Reference.env0 Reference.db12
                (mkRequest None "" {[ "limit" := "0" ]} ∅ None []))
      as (Hlimit & _).
    destruct Hlimit as (_ & _ & Hzero).
    + right. vm_compute. reflexivity.
    + destruct (Hzero 1) as (data & Hres & _ & Hlen & _).
      * vm_compute. reflexivity.
      * lia.
      * unfold MAX_SAFE_INTEGER. lia.
      * vm_compute. discriminate.
      * intros c Hc. vm_compute in Hc. discriminate.
      * exists data. split; [exact Hres | exact Hlen].
  - destruct (page_and_limit_defaults Reference.env0 Reference.db12
                (mkRequest None "" {[ "page" := "abc"; "limit" := "5" ]} ∅
                   None []))
      as (_ & Hpage).
    destruct Hpage as (_ & _ & Hfirst).
    + left. vm_compute. reflexivity.
    + destruct (Hfirst 5) as (data & Hres & Hdata).
      * vm_compute. reflexivity.
      * unfold MAX_SAFE_INTEGER. lia.
      * vm_compute. discriminate.
      * intros c Hc. vm_compute in Hc. discriminate.
      * exists data. split; [exact Hres|]. rewrite Hdata.
        vm_compute. reflexivity.
Defined.

Example limit_zero_is_ten :
  posts.get_handler Reference.env0 Reference.db12
    (mkRequest None "" {[ "limit" := "0"; "page" := "0" ]} ∅ None [])
  = posts.get_handler Reference.env0 Reference.db12
      (mkRequest None "" {[ "limit" := "10"; "page" := "1" ]} ∅ None []).
Proof. vm_compute. reflexivity. Qed.

Example limit_behind_no_break_space :
  posts.limitOf
    (mkRequest None "" {[ "limit" := String (ascii_of_N 160) "5" ]} ∅
       None [])
  = 5.
Proof. vm_compute. reflexivity. Qed.

(** * Further properties of the routes *)

(** ** The token taken from the authorization header *)

Lemma split_not_nil sep s : JS.split sep s <> [].
Proof.
  destruct s as [|c r]; cbn [JS.split]; [discriminate|].
  destruct (Ascii.eqb c sep); [discriminate|].
  destruct (JS.split sep r); discriminate.
Qed.

Lemma oneSegment_cons c r :
  oneSegment (String c r) -> Ascii.eqb c " " = false /\ oneSegment r.
Proof.
  unfold oneSegment. rewrite split_cons.
  destruct (Ascii.eqb c " ") eqn:Hc.
  - intros Hsplit. inversion Hsplit.
  - destruct (JS.split " " r) as [|w ws] eqn:Hr.
    + destruct (split_not_nil _ _ Hr).
    + intros [= -> ->]. auto.
Qed.

Lemma split_segment_then_space a r :
  oneSegment a ->
  JS.split " " (a ++ String " " r)%string = a :: JS.split " " r.
Proof.
  induction a as [|c a IH]; intros Ha; cbv [String.append];
    fold String.append.
  - reflexivity.
  - apply oneSegment_cons in Ha. destruct Ha as [Hc Ha].
    rewrite split_cons, Hc, (IH Ha). reflexivity.
Qed.

Lemma oneSegment_app a b :
  oneSegment a -> oneSegment b -> oneSegment (a ++ b)%string.
Proof.
  induction a as [|c a IH]; intros Ha Hb; cbv [String.append];
    fold String.append; [exact Hb|].
  apply oneSegment_cons in Ha. destruct Ha as [Hc Ha].
  unfold oneSegment in *. rewrite split_cons, Hc, (IH Ha Hb). reflexivity.
Qed.

(** [split(' ')] undoes [join(' ')] on segments that have no space. *)
Lemma split_concat segs :
  segs <> [] ->
  Forall oneSegment segs ->
  JS.split " " (String.concat " " segs) = segs.
Proof.
  induction segs as [|a segs IH]; intros Hne Hall; [congruence|].
  inversion Hall as [|? ? Ha Hrest]; subst.
  destruct segs as [|b segs]; [exact Ha|].
  change (String.concat " " (a :: b :: segs))
    with (a ++ String " " (String.concat " " (b :: segs)))%string.
  rewrite (split_segment_then_space _ _ Ha).
  rewrite IH; [reflexivity | discriminate | exact Hrest].
Qed.

Lemma append_assoc (a b c : string) :
  ((a ++ b) ++ c = a ++ (b ++ c))%string.
Proof.
  induction a as [|x a IH]; cbv [String.append]; fold String.append;
    [reflexivity | rewrite IH; reflexivity].
Qed.

Lemma startsWith_app p s : JS.startsWith (p ++ s)%string p = true.
Proof.
  unfold JS.startsWith. induction p as [|c p IH]; cbv [String.append];
    fold String.append.
  - destruct s; reflexivity.
  - cbn [String.prefix]. destruct (ascii_dec c c); [exact IH | congruence].
Qed.

Section HeaderSegments.
Context {J : jwt.Jws}.

Lemma header_segments x tok more :
  Forall oneSegment (x :: tok :: more) ->
  let header := String.concat " " (("Bearer" ++ x)%string :: tok :: more) in
  JS.startsWith header "Bearer" = true
  /\ JS.split " " header !! 1%nat = Some tok.
Proof.
  intros Hall header. inversion Hall as [|? ? Hx Hrest]; subst.
  assert (Hsegs : Forall oneSegment (("Bearer" ++ x)%string :: tok :: more)).
  { constructor; [|exact Hrest]. apply oneSegment_app; [reflexivity|exact Hx]. }
  split.
  - unfold header.
    change (String.concat " " (("Bearer" ++ x)%string :: tok :: more))
      with (("Bearer" ++ x)
            ++ String " " (String.concat " " (tok :: more)))%string.
    rewrite append_assoc. apply startsWith_app.
  - unfold header.
    rewrite split_concat; [reflexivity | discriminate | exact Hsegs].
Qed.

(** X1. The middleware checks the scheme only as a prefix of the header
    and takes the second segment between spaces as the token: for a
    header made of "Bearer" followed by any characters without a space,
    then the token, then any further segments, the outcome is that of
    verifying the token alone. *)
Theorem token_is_second_segment env db req x tok more :
  Forall oneSegment (x :: tok :: more) ->
  authorization req
    = Some (String.concat " " (("Bearer" ++ x)%string :: tok :: more)) ->
  authMiddleware env db req
  = match jwt.verify (Some tok) (JWT_SECRET env) (now env) with
    | Throw _ => (db, respond 401 (Failure "Not authorized"))
    | Return claims =>
        match User.findById (users db) (jwt.id claims) with
        | None => (db, respond 401 (Failure "User not found"))
        | Some found =>
            (db, Next (with_user req (User.select_minus_password found)))
        end
    end.
Proof.
  intros Hall Hh. destruct (header_segments _ _ _ Hall) as [Hstart Htok].
  rewrite authMiddleware_unfold. unfold AuthGate.
  rewrite Hh, Hstart, Htok. reflexivity.
Qed.

(** X2. When the segment after the scheme is empty, as in a header that
    ends with the space after "Bearer" or has two spaces before the
    token, the answer is 401 "Not authorized", whatever follows. *)
Theorem empty_token_segment env db req x more :
  Forall oneSegment (x :: more) ->
  authorization req
    = Some (String.concat " "
              (("Bearer" ++ x)%string :: EmptyString :: more)) ->
  authMiddleware env db req = (db, respond 401 (Failure "Not authorized")).
Proof.
  intros Hall Hh. inversion Hall as [|? ? Hx Hrest]; subst.
  destruct (header_segments x EmptyString more) as [Hstart Htok].
  { constructor; [exact Hx|]. constructor; [reflexivity | exact Hrest]. }
  rewrite authMiddleware_unfold. unfold AuthGate.
  rewrite Hh, Hstart, Htok. reflexivity.
Qed.
End HeaderSegments.

Lemma token_is_second_segment_witness :
  authMiddleware (J := Reference.jws) Reference.env0 Reference.db0
    (mkRequest
       (Some (String.concat " "
                [("Bearer" ++ "Token")%string;
                 Reference.tokenOf Reference.bob 1000; "trailing"]))
       "x" ∅ ∅ None [])
  = (Reference.db0,
     Next (with_user
             (mkRequest
                (Some (String.concat " "
                         [("Bearer" ++ "Token")%string;
                          Reference.tokenOf Reference.bob 1000; "trailing"]))
                "x" ∅ ∅ None [])
             (User.select_minus_password Reference.bob))).
Proof.
  rewrite (token_is_second_segment (J := Reference.jws) Reference.env0
             Reference.db0 _ "Token" (Reference.tokenOf Reference.bob 1000)
             ["trailing"]).
  - vm_compute. reflexivity.
  - repeat constructor; vm_compute; reflexivity.
  - reflexivity.
Defined.

Lemma empty_token_segment_witness :
  authMiddleware (J := Reference.jws) Reference.env0 Reference.db0
    (mkRequest (Some "Bearer  abc") "x" ∅ ∅ None [])
  = (Reference.db0, respond 401 (Failure "Not authorized")).
Proof.
  apply (empty_token_segment (J := Reference.jws) Reference.env0
           Reference.db0 _ "" ["abc"]).
  - repeat constructor.
  - reflexivity.
Defined.

(** ** Tokens at the gate *)

Lemma generateToken_secret {J : jwt.Jws} env u token :
  auth.generateToken env u = Return token ->
  JS.truthy (JWT_SECRET env) = true.
Proof.
  unfold auth.generateToken, jwt.sign.
  destruct (JS.truthy (JWT_SECRET env)); [reflexivity | discriminate].
Qed.

Lemma findById_same_id users i u :
  User.findById users i = Some u -> User._id u = i.
Proof. intros Hf. apply findById_In in Hf. tauto. Qed.

Lemma findById_of_member users u :
  In u users ->
  exists stored,
    User.findById users (User._id u) = Some stored
    /\ User._id stored = User._id u.
Proof.
  intros Hin.
  destruct (find_some_exists
              (fun v => String.eqb (User._id v) (User._id u)) users u Hin
              (String.eqb_refl _)) as [stored Hs].
  exists stored. split; [exact Hs|]. apply (findById_same_id _ _ _ Hs).
Qed.

Section IssuedTokens.
Context {J : jwt.Jws} {L : JwsLaws J}.

Lemma issued_token_at_gate env u token t db req :
  auth.generateToken env u = Return token ->
  t < now env + 7 * 24 * 60 * 60 ->
  authorization req = Some ("Bearer " ++ token)%string ->
  authMiddleware (at_clock env t) db req
  = match User.findById (users db) (User._id u) with
    | Some stored =>
        (db, Next (with_user req (User.select_minus_password stored)))
    | None => (db, respond 401 (Failure "User not found"))
    end.
Proof.
  intros Hgen Ht Hh.
  pose proof (generateToken_secret _ _ _ Hgen) as Hs.
  unfold auth.generateToken in Hgen. rewrite seven_days in Hgen.
  destruct (verify_signed (User._id u) (JWT_SECRET env) 604800 (now env)
              t Hs) as (token' & Hsign & Hver & Hseg).
  rewrite Hgen in Hsign. injection Hsign as <-.
  rewrite authMiddleware_unfold. unfold AuthGate, at_clock.
  cbn [JWT_SECRET now]. rewrite Hh. cbn [JS.startsWith].
  rewrite (split_bearer_token _ Hseg).
  change (JS.startsWith ("Bearer " ++ token) "Bearer") with
    (JS.startsWith ("Bearer" ++ (String " " token)) "Bearer").
  rewrite startsWith_app. cbn [negb lookup list_lookup].
  rewrite Hver. destruct (Z.leb_spec (now env + 604800) t); [lia|].
  cbn [jwt.id]. reflexivity.
Qed.

(** X3. A token that [generateToken] issued for a user, presented as a
    bearer token before seven days have passed, resolves to the identity
    stored under the identifier of that user, attached without its
    password; when no identity is stored under that identifier any more,
    the answer is 401 "User not found". *)
Theorem issued_token_resolves_its_user env u token t db req :
  auth.generateToken env u = Return token ->
  t < now env + 7 * 24 * 60 * 60 ->
  authorization req = Some ("Bearer " ++ token)%string ->
  (forall stored,
      User.findById (users db) (User._id u) = Some stored ->
      User._id stored = User._id u
      /\ authMiddleware (at_clock env t) db req
         = (db, Next (with_user req (User.select_minus_password stored))))
  /\ ((forall v, In v (users db) -> User._id v <> User._id u) ->
      authMiddleware (at_clock env t) db req
      = (db, respond 401 (Failure "User not found"))).
Proof.
  intros Hgen Ht Hh.
  rewrite (issued_token_at_gate _ _ _ _ _ _ Hgen Ht Hh). split.
  - intros stored Hf. rewrite Hf. split; [|reflexivity].
    apply (findById_same_id _ _ _ Hf).
  - intros Hgone. unfold User.findById. rewrite find_all_false; [reflexivity|].
    intros v Hv. apply String.eqb_neq. apply Hgone, Hv.
Qed.

(** X4. A login that succeeds answers 200 with a token, and that token,
    presented as a bearer token before seven days have passed, is
    accepted by the middleware, which attaches an identity with the
    identifier of the user that logged in. *)
Theorem login_token_is_accepted {V : Validator.ValidatorJs}
    {M : auth.UserModel} env db req u :
  validationErrors req = [] ->
  Validator.runChains (req_body req) auth.login_chains = [] ->
  User.findOne_email (users db) (req_body req !! "email")
    = Return (Some u) ->
  auth.matchPassword u (req_body req !! "password") = Return true ->
  JS.truthy (JWT_SECRET env) = true ->
  exists token,
    auth.login env db req
    = (db, respond 200
             (Success (DataAuth (User._id u) (User.username u)
                         (req_body req !! "email") token)))
    /\ forall t req',
         t < now env + 7 * 24 * 60 * 60 ->
         authorization req' = Some ("Bearer " ++ token)%string ->
         exists stored,
           User._id stored = User._id u
           /\ authMiddleware (at_clock env t) db req'
              = (db, Next (with_user req'
                             (User.select_minus_password stored))).
Proof.
  intros He Hv Hfound Hpw Hs.
  destruct (verify_signed (User._id u) (JWT_SECRET env) (jwt.ms_7d / 1000)
              (now env) (now env) Hs) as (token & Hsign & _ & _).
  exists token. split.
  - unfold auth.login. cbn [route validate]. rewrite He, Hv. cbn [app].
    unfold auth.login_handler, validationResult.
    cbn [validationErrors with_validationErrors isEmpty negb req_body].
    rewrite Hfound. cbn [mbind Completion_bind bind].
    rewrite Hpw. cbn [negb]. unfold auth.generateToken. rewrite Hsign.
    reflexivity.
  - intros t req' Ht Hh.
    assert (Hin : In u (users db)).
    { unfold User.findOne_email in Hfound.
      destruct (req_body req !! "email") as [[]|]; try discriminate;
        cbn in Hfound; injection Hfound as Hf;
        apply find_some in Hf; tauto. }
    destruct (findById_of_member _ _ Hin) as (stored & Hf & Hid).
    exists stored. split; [exact Hid|].
    rewrite (issued_token_at_gate env u token t db req' Hsign Ht Hh).
    rewrite Hf. reflexivity.
Qed.
End IssuedTokens.

Lemma issued_token_resolves_its_user_witness :
  authMiddleware (J := Reference.jws) (at_clock Reference.env0 600000)
    Reference.db0
    (mkRequest
       (Some ("Bearer " ++ Reference.tokenOf Reference.alice 2000)%string)
       "x" ∅ ∅ None [])
  = (Reference.db0,
     Next (with_user
             (mkRequest
                (Some ("Bearer "
                       ++ Reference.tokenOf Reference.alice 2000)%string)
                "x" ∅ ∅ None [])
             (User.select_minus_password Reference.alice))).
Proof.
  destruct (issued_token_resolves_its_user (J := Reference.jws)
              (L := Reference_laws) Reference.env0 Reference.alice
              (Reference.tokenOf Reference.alice 2000) 600000 Reference.db0
              (mkRequest
                 (Some ("Bearer "
                        ++ Reference.tokenOf Reference.alice 2000)%string)
                 "x" ∅ ∅ None []))
    as [Hfound _].
  - reflexivity.
  - reflexivity.
  - reflexivity.
  - destruct (Hfound Reference.alice) as [_ Hgate];
      [reflexivity | exact Hgate].
Defined.

Lemma login_token_is_accepted_witness :
  exists token,
    auth.login (J := Reference.jws) (V := Reference.validatorJs)
      (M := Reference.userModel) Reference.env0 Reference.db0
      (mkRequest None "" ∅
         {[ "email" := JStr "alice@example.org";
            "password" := JStr "wonderland" ]} None [])
    = (Reference.db0,
       respond 200
         (Success (DataAuth "64b000000000000000000001" "alice"
                     (Some (JStr "alice@example.org")) token))).
Proof.
  destruct (login_token_is_accepted (J := Reference.jws)
              (L := Reference_laws) (V := Reference.validatorJs)
              (M := Reference.userModel) Reference.env0 Reference.db0
              (mkRequest None "" ∅
                 {[ "email" := JStr "alice@example.org";
                    "password" := JStr "wonderland" ]} None [])
              Reference.alice)
    as (token & Hlogin & _).
  - reflexivity.
  - vm_compute. reflexivity.
  - vm_compute. reflexivity.
  - vm_compute. reflexivity.
  - reflexivity.
  - exists token. exact Hlogin.
Defined.

(** ** The routes behind the gate *)

Section ProtectedRoutes.
Context {J : jwt.Jws} {V : Validator.ValidatorJs}
        {P : create_post.PostModel}.

(** X5. Every route behind the authentication middleware (update and
    delete of a post, creation of a post, of a comment and of a
    category) answers a request that the middleware rejects with the 401
    of the middleware and leaves the store as it was; in particular a
    request with no authorization header gets 401 "No token provided"
    from each of them. *)
Theorem rejected_requests_reach_no_handler env db req :
  isUnauthenticated (snd (authMiddleware env db req)) ->
  let rejected := (db, snd (authMiddleware env db req)) in
  posts.put env db req = rejected
  /\ posts.delete env db req = rejected
  /\ create_post.post env db req = rejected
  /\ add_comment.post env db req = rejected
  /\ categories_routes.post env db req = rejected
  /\ (authorization req = None ->
      rejected = (db, respond 401 (Failure "No token provided"))).
Proof.
  intros Hun rejected.
  assert (Hgate : authMiddleware env db req = rejected).
  { unfold rejected. rewrite authMiddleware_unfold.
    destruct (AuthGate_outcome env db req) as [Hdb _].
    destruct (AuthGate env db req) as [db' o]. cbn in *. congruence. }
  assert (Hstop : forall rest,
             route (authMiddleware :: rest) env db req = rejected).
  { intros rest. rewrite <- Hgate. apply route_stops. intros req'.
    apply isUnauthenticated_not_Next, Hun. }
  unfold posts.put, posts.delete, create_post.post, add_comment.post,
    categories_routes.post.
  rewrite !Hstop. repeat split.
  intros Hnone. unfold rejected. rewrite authMiddleware_unfold.
  unfold AuthGate. rewrite Hnone. reflexivity.
Qed.
End ProtectedRoutes.

Lemma rejected_requests_reach_no_handler_witness :
  posts.delete (J := Reference.jws) Reference.env0 Reference.db0
    (mkRequest None "64c000000000000000000001" ∅ ∅ None [])
  = (Reference.db0, respond 401 (Failure "No token provided")).
Proof.
  destruct (rejected_requests_reach_no_handler (J := Reference.jws)
              (V := Reference.validatorJs) (P := Sample.postModel)
              Reference.env0 Reference.db0
              (mkRequest None "64c000000000000000000001" ∅ ∅ None []))
    as (_ & Hdelete & _).
  - left. reflexivity.
  - exact Hdelete.
Defined.

(** ** Validation on the login route *)

Lemma omap_In {A B} (f : A -> option B) l a b :
  In a l -> f a = Some b -> In b (omap f l).
Proof.
  induction l as [|x l IH]; intros Hin Hf; [destruct Hin|].
  cbn [omap list_omap]. destruct Hin as [->|Hin].
  - rewrite Hf. left. reflexivity.
  - destruct (f x); [right|]; apply IH; assumption.
Qed.

Lemma runChains_In {V : Validator.ValidatorJs} body cs c e :
  In c cs -> In e (Validator.runChain body c) ->
  In e (Validator.runChains body cs).
Proof.
  intros Hc He. unfold Validator.runChains. apply List.in_concat.
  exists (Validator.runChain body c). split; [|exact He].
  apply List.in_map. exact Hc.
Qed.

Lemma notEmpty_reports {V : Validator.ValidatorJs} body field m rules :
  Validator.toString (body !! field) = EmptyString ->
  In (Validator.notEmpty, m) rules ->
  In (Validator.mkError (body !! field) m field "body")
     (Validator.runChain body (Validator.mkChain field false rules)).
Proof.
  intros Hs Hin. unfold Validator.runChain.
  cbn [Validator.optional Validator.field Validator.rules].
  apply (omap_In _ _ (Validator.notEmpty, m)); [exact Hin|].
  cbn [Validator.check]. rewrite Hs. reflexivity.
Qed.

Lemma nonempty_isEmpty {A} (l : list A) x : In x l -> isEmpty l = false.
Proof. destruct l; [intros [] | reflexivity]. Qed.

Section LoginValidation.
Context {J : jwt.Jws} {V : Validator.ValidatorJs} {M : auth.UserModel}.

(** X6. A login request whose password is missing or empty is answered
    400 with the validation errors, among them "Password is required"
    for the field [password], whatever the store holds: the credentials
    are not looked at. *)
Theorem login_requires_password env db req :
  validationErrors req = [] ->
  Validator.toString (req_body req !! "password") = EmptyString ->
  exists errors,
    auth.login env db req = (db, respond 400 (Failures errors))
    /\ In (Validator.mkError (req_body req !! "password")
             "Password is required" "password" "body") errors.
Proof.
  intros He Hpw.
  exists (Validator.runChains (req_body req) auth.login_chains).
  assert (Hin : In (Validator.mkError (req_body req !! "password")
                      "Password is required" "password" "body")
                   (Validator.runChains (req_body req) auth.login_chains)).
  { eapply runChains_In; [right; left; reflexivity|].
    apply notEmpty_reports; [exact Hpw | left; reflexivity]. }
  split; [|exact Hin].
  unfold auth.login. cbn [route validate]. rewrite He. cbn [app].
  unfold auth.login_handler, validationResult.
  cbn [validationErrors with_validationErrors].
  rewrite (nonempty_isEmpty _ _ Hin). reflexivity.
Qed.
End LoginValidation.

Lemma login_requires_password_witness :
  exists errors,
    auth.login (J := Reference.jws) (V := Reference.validatorJs)
      (M := Reference.userModel) Reference.env0 Reference.db0
      (mkRequest None "" ∅ {[ "email" := JStr "alice@example.org" ]}
         None [])
    = (Reference.db0, respond 400 (Failures errors))
    /\ In (Validator.mkError None "Password is required" "password" "body")
          errors.
Proof.
  destruct (login_requires_password (J := Reference.jws)
              (V := Reference.validatorJs) (M := Reference.userModel)
              Reference.env0 Reference.db0
              (mkRequest None "" ∅ {[ "email" := JStr "alice@example.org" ]}
                 None []))
    as (errors & Hlogin & Hin).
  - reflexivity.
  - reflexivity.
  - exists errors. split; [exact Hlogin | exact Hin].
Defined.

(** ** Updates and deletions of posts *)

Lemma post_findById_In ps i p :
  Post.findById ps i = Some p -> In p ps /\ Post._id p = i.
Proof.
  unfold Post.findById. intros Hf. apply find_some in Hf.
  destruct Hf as [Hin Heq]. apply String.eqb_eq in Heq. auto.
Qed.

Lemma uniqueIds_member ps a b :
  uniqueIds ps -> In a ps -> In b ps -> Post._id a = Post._id b -> a = b.
Proof.
  unfold uniqueIds. induction ps as [|x ps IH]; intros Hnd Ha Hb Hid;
    [destruct Ha|].
  cbn [List.map] in Hnd.
  pose proof (NoDup_cons_1_1 _ _ Hnd) as Hx. apply NoDup_cons_1_2 in Hnd.
  rewrite list_elem_of_In in Hx.
  destruct Ha as [->|Ha], Hb as [->|Hb].
  - reflexivity.
  - exfalso. apply Hx. rewrite Hid. apply List.in_map. exact Hb.
  - exfalso. apply Hx. rewrite <- Hid. apply List.in_map. exact Ha.
  - apply IH; assumption.
Qed.

Lemma assign1_id key v p p' :
  Post.assign1 key v p = Some p' -> Post._id p' = Post._id p.
Proof.
  unfold Post.assign1.
  repeat match goal with
         | |- context [String.eqb key ?k] => destruct (String.eqb key k)
         end;
    match goal with
    | |- _ <$> ?c = Some _ -> _ =>
        destruct c; [intros [= <-]; reflexivity | discriminate]
    | |- Some _ = Some _ -> _ => intros [= <-]; reflexivity
    end.
Qed.

Lemma assign_id p body p' :
  Post.assign p body = Some p' -> Post._id p' = Post._id p.
Proof.
  unfold Post.assign. revert p'.
  apply (map_fold_weak_ind
           (fun r (m : gmap string json) =>
              forall p', r = Some p' -> Post._id p' = Post._id p)).
  - intros p' [= <-]. reflexivity.
  - intros key v m r _ IH p' Hstep.
    destruct r as [q|]; [|discriminate]. cbn in Hstep.
    rewrite (assign1_id _ _ _ _ Hstep). apply IH. reflexivity.
Qed.

Lemma save_keeps_others ps p q :
  In q ps -> Post._id q <> Post._id p -> In q (Post.save ps p).
Proof.
  intros Hin Hne. unfold Post.save. apply List.in_map_iff.
  exists q. split; [|exact Hin].
  apply String.eqb_neq in Hne. rewrite Hne. reflexivity.
Qed.

Lemma remove_keeps_others ps p q :
  In q ps -> Post._id q <> Post._id p -> In q (Post.remove ps p).
Proof.
  intros Hin Hne. unfold Post.remove. apply List.filter_In.
  split; [exact Hin|]. apply String.eqb_neq in Hne. rewrite Hne.
  reflexivity.
Qed.



Section PostsOfAnAuthor.
Context {J : jwt.Jws} {V : Validator.ValidatorJs}.




(** X9. An accepted update whose body has no [author] property keeps the
    author of the post. *)
Theorem update_without_author_keeps_author env db req u post db' post' :
  authMiddleware env db req = (db, Next (with_user req u)) ->
  Post.findById (posts db) (params_id req) = Some post ->
  req_body req !! "author" = None ->
  posts.put env db req = (db', respond 200 (Success (DataPost post'))) ->
  Post.author post' = Post.author post.
Proof.
  intros Ha Hp Hnone Hput.
  rewrite (put_author_after_update _ _ _ _ _ _ _ Ha Hp Hput), Hnone.
  reflexivity.
Qed.

(** X10. With unique post identifiers in the store, a deletion sent by
    one user leaves every post of another author in the store as it was,
    and so does an update whose body names form fields only (title,
    content, category, author, featuredImage, excerpt, tags,
    isPublished), whatever their values; neither route changes the users
    or the categories. *)
Theorem posts_of_other_authors_are_kept env db req u :
  uniqueIds (posts db) ->
  authMiddleware env db req = (db, Next (with_user req u)) ->
  let after_delete := fst (posts.delete env db req) in
  users after_delete = users db
  /\ categories after_delete = categories db
  /\ (forall q,
        In q (posts db) -> Post.author q <> User.id u ->
        In q (posts after_delete))
  /\ (namesFormFieldsOnly (req_body req) ->
      let after_put := fst (posts.put env db req) in
      users after_put = users db
      /\ categories after_put = categories db
      /\ forall q,
           In q (posts db) -> Post.author q <> User.id u ->
           In q (posts after_put)).
Proof.
  intros Huniq Ha. cbv zeta.
  rewrite (put_after_auth _ _ _ _ Ha), (delete_after_auth _ _ _ _ Ha).
  unfold posts.put_handler, posts.delete_handler, posts.acting,
    validationResult.
  cbn [params_id with_user with_validationErrors user req_body
         validationErrors].
  destruct (Post.findById (posts db) (params_id req)) as [post|] eqn:Hp;
    [|simpl; auto 10].
  cbn [mbind Completion_bind bind].
  destruct (String.eqb_spec (Post.author post) (User.id u)) as [Hown|Hown];
    cbn [negb]; [|simpl; auto 10].
  apply post_findById_In in Hp. destruct Hp as [Hin Hid].
  assert (Hother : forall q, In q (posts db) -> Post.author q <> User.id u ->
                             Post._id q <> Post._id post).
  { intros q Hq Hne Hsame. apply Hne. rewrite <- Hown. f_equal.
    apply (uniqueIds_member (posts db)); assumption. }
  assert (Hdel : forall q, In q (posts db) -> Post.author q <> User.id u ->
                           In q (Post.remove (posts db) post)).
  { intros q Hq Hne. apply remove_keeps_others; auto. }
  split; [reflexivity|]. split; [reflexivity|]. split; [exact Hdel|].
  intros _.
  destruct (negb (isEmpty _)); [simpl; auto 10|].
  destruct (Post.assign post (req_body req)) as [post'|] eqn:Hassign;
    [|simpl; auto 10].
  simpl. do 2 (split; [reflexivity|]). intros q Hq Hne.
  apply save_keeps_others; [assumption|].
  rewrite (assign_id _ _ _ Hassign). auto.
Qed.

End PostsOfAnAuthor.


Lemma update_without_author_keeps_author_witness :
  Post.author (Post.set_title "Hello again" Reference.post1)
  = Post.author Reference.post1.
Proof.
  apply (update_without_author_keeps_author (J := Reference.jws)
           (V := Reference.validatorJs) Reference.env0 Reference.db0
           (Reference.request Reference.alice "64c000000000000000000001" ∅
              {[ "title" := JStr "Hello again" ]})
           (User.select_minus_password Reference.alice) Reference.post1
           (mkDB [Reference.alice; Reference.bob]
              [Post.set_title "Hello again" Reference.post1]
              [Reference.news])
           (Post.set_title "Hello again" Reference.post1)).
  - vm_compute. reflexivity.
  - vm_compute. reflexivity.
  - vm_compute. reflexivity.
  - vm_compute. reflexivity.
Defined.

Lemma posts_of_other_authors_are_kept_witness :
  In Reference.post1
     (posts (fst (posts.delete (J := Reference.jws) Reference.env0 Sample.db2
                    (Reference.request Reference.bob
                       "64c000000000000000000002" ∅ ∅))))
  /\ posts.delete (J := Reference.jws) Reference.env0 Sample.db2
       (Reference.request Reference.bob "64c000000000000000000002" ∅ ∅)
     = (mkDB [Reference.alice; Reference.bob] [Reference.post1]
          [Reference.news],
        respond 200 (SuccessMessage "Post deleted"))
  /\ In Reference.post1
       (posts (fst (posts.put (J := Reference.jws)
                      (V := Reference.validatorJs) Reference.env0 Sample.db2
                      (Reference.request Reference.bob
                         "64c000000000000000000002" ∅
                         {[ "title" := JStr "Bob rewrites" ]}))))
  /\ posts.put (J := Reference.jws) (V := Reference.validatorJs)
       Reference.env0 Sample.db2
       (Reference.request Reference.bob "64c000000000000000000002" ∅
          {[ "title" := JStr "Bob rewrites" ]})
     = (mkDB [Reference.alice; Reference.bob]
          [Reference.post1; Post.set_title "Bob rewrites" Sample.post2]
          [Reference.news],
        respond 200
          (Success (DataPost (Post.set_title "Bob rewrites" Sample.post2)))).
Proof.
  split; [|split; [vm_compute; reflexivity|split; [|vm_compute; reflexivity]]].
  - destruct (posts_of_other_authors_are_kept (J := Reference.jws)
                (V := Reference.validatorJs) Reference.env0 Sample.db2
                (Reference.request Reference.bob "64c000000000000000000002"
                   ∅ ∅)
                (User.select_minus_password Reference.bob))
      as (_ & _ & Hkept & _).
    + apply (bool_decide_unpack _). vm_compute. reflexivity.
    + vm_compute. reflexivity.
    + apply (Hkept Reference.post1).
      * left. reflexivity.
      * vm_compute. discriminate.
  - destruct (posts_of_other_authors_are_kept (J := Reference.jws)
                (V := Reference.validatorJs) Reference.env0 Sample.db2
                (Reference.request Reference.bob "64c000000000000000000002"
                   ∅ {[ "title" := JStr "Bob rewrites" ]})
                (User.select_minus_password Reference.bob))
      as (_ & _ & _ & Hput).
    + apply (bool_decide_unpack _). vm_compute. reflexivity.
    + vm_compute. reflexivity.
    + destruct Hput as (_ & _ & Hkept).
      * intros k [v Hk]. cbn [Reference.request req_body] in Hk.
        apply lookup_singleton_Some in Hk. destruct Hk as [<- _].
        left. reflexivity.
      * apply (Hkept Reference.post1).
        -- left. reflexivity.
        -- vm_compute. discriminate.
Defined.


(** ** Creation of posts *)

Section CreatePost.
Context {J : jwt.Jws} {V : Validator.ValidatorJs}
        {P : create_post.PostModel}.

Lemma create_after_auth env db req u :
  authMiddleware env db req = (db, Next (with_user req u)) ->
  create_post.post env db req
  = create_post.handler env db
      (with_validationErrors (with_user req u)
         (validationErrors req
          ++ Validator.runChains (req_body req) create_post.chains)).
Proof.
  intros Ha. unfold create_post.post.
  rewrite (route_next _ _ _ _ _ _ _ Ha).
  cbn [route validate]. cbn [with_user validationErrors req_body].
  destruct (create_post.handler _ _ _) as [db' [res|req'|err]];
    reflexivity.
Qed.

Lemma newPost_fields env u body p :
  create_post.newPost env u body = Return p ->
  Post.author p = User.id u /\ Post._id p = newObjectId env
  /\ Post.comments p = [] /\ Post.createdAt p = now env.
Proof.
  unfold create_post.newPost.
  repeat match goal with
         | |- context [match ?c with Some _ => _ | None => _ end] =>
             destruct c; try discriminate
         end.
  intros [= <-]. cbn. auto.
Qed.

(** X12. Whenever the creation route answers 201 with a post, the author
    of that post is the acting identity, whatever the body holds (an
    [author], [_id] or [comments] property of the body is not used); the
    post has the new identifier, no comments and the clock as its
    creation time, and the store is the old store with that post added
    after the others. *)
Theorem created_post_belongs_to_the_sender env db req u db' p :
  authMiddleware env db req = (db, Next (with_user req u)) ->
  create_post.post env db req = (db', respond 201 (Success (DataPost p))) ->
  Post.author p = User.id u
  /\ Post._id p = newObjectId env
  /\ Post.comments p = []
  /\ Post.createdAt p = now env
  /\ db' = mkDB (users db) (posts db ++ [p]) (categories db).
Proof.
  intros Ha. rewrite (create_after_auth _ _ _ _ Ha).
  unfold create_post.handler, posts.acting, validationResult.
  cbn [with_user with_validationErrors user req_body validationErrors].
  destruct (negb (isEmpty _)); [discriminate|].
  cbn [mbind Completion_bind bind].
  destruct (create_post.newPost env u (req_body req)) as [q|e] eqn:Hnew;
    [|discriminate].
  simpl. intros [= <- <-].
  destruct (newPost_fields _ _ _ _ Hnew) as (H1 & H2 & H3 & H4). auto.
Qed.

(** X13. A creation request whose title, content or category is missing
    or empty is answered 400 with the validation errors, among them the
    message of that field, and nothing is stored. *)
Theorem create_requires_fields env db req u field message :
  authMiddleware env db req = (db, Next (with_user req u)) ->
  validationErrors req = [] ->
  In (field, message)
     [("title", "Title is required"); ("content", "Content is required");
      ("category", "Category is required")] ->
  Validator.toString (req_body req !! field) = EmptyString ->
  exists errors,
    create_post.post env db req = (db, respond 400 (Failures errors))
    /\ In (Validator.mkError (req_body req !! field) message field "body")
          errors.
Proof.
  intros Ha He Hfield Hs.
  exists (Validator.runChains (req_body req) create_post.chains).
  assert (Hin : In (Validator.mkError (req_body req !! field) message field
                      "body")
                   (Validator.runChains (req_body req) create_post.chains)).
  { destruct Hfield as [[= <- <-]|[[= <- <-]|[[= <- <-]|[]]]].
    - eapply runChains_In; [left; reflexivity|].
      apply notEmpty_reports; [exact Hs | left; reflexivity].
    - eapply runChains_In; [right; left; reflexivity|].
      apply notEmpty_reports; [exact Hs | left; reflexivity].
    - eapply runChains_In; [right; right; left; reflexivity|].
      apply notEmpty_reports; [exact Hs | left; reflexivity]. }
  split; [|exact Hin].
  rewrite (create_after_auth _ _ _ _ Ha), He. cbn [app].
  unfold create_post.handler, validationResult.
  cbn [validationErrors with_validationErrors].
  rewrite (nonempty_isEmpty _ _ Hin). reflexivity.
Qed.
End CreatePost.

Lemma created_post_belongs_to_the_sender_witness :
  let body : gmap string json :=
    {[ "title" := JStr "Tea"; "content" := JStr "At four";
       "category" := JStr "64d000000000000000000001";
       "author" := JStr "64b000000000000000000001" ]} in
  exists db' p,
    create_post.post (J := Reference.jws) (V := Reference.validatorJs)
      (P := Sample.postModel) Reference.env0 Reference.db0
      (Reference.request Reference.bob "" ∅ body)
    = (db', respond 201 (Success (DataPost p)))
    /\ Post.author p = User._id Reference.bob.
Proof.
  cbv zeta. eexists. eexists. split; [vm_compute; reflexivity|].
  eapply (created_post_belongs_to_the_sender (J := Reference.jws)
            (V := Reference.validatorJs) (P := Sample.postModel)
            Reference.env0 Reference.db0
            (Reference.request Reference.bob "" ∅
               {[ "title" := JStr "Tea"; "content" := JStr "At four";
                  "category" := JStr "64d000000000000000000001";
                  "author" := JStr "64b000000000000000000001" ]})
            (User.select_minus_password Reference.bob)).
  - vm_compute. reflexivity.
  - vm_compute. reflexivity.
Defined.

Lemma create_requires_fields_witness :
  exists errors,
    create_post.post (J := Reference.jws) (V := Reference.validatorJs)
      (P := Sample.postModel) Reference.env0 Reference.db0
      (Reference.request Reference.bob "" ∅
         {[ "title" := JStr "Tea"; "content" := JStr "" ]})
    = (Reference.db0, respond 400 (Failures errors))
    /\ In (Validator.mkError (Some (JStr "")) "Content is required"
             "content" "body") errors.
Proof.
  destruct (create_requires_fields (J := Reference.jws)
              (V := Reference.validatorJs) (P := Sample.postModel)
              Reference.env0 Reference.db0
              (Reference.request Reference.bob "" ∅
                 {[ "title" := JStr "Tea"; "content" := JStr "" ]})
              (User.select_minus_password Reference.bob)
              "content" "Content is required")
    as (errors & Hpost & Hin).
  - vm_compute. reflexivity.
  - reflexivity.
  - right. left. reflexivity.
  - vm_compute. reflexivity.
  - exists errors. split; [exact Hpost | exact Hin].
Defined.

(** ** Comments *)

Section AddComment.
Context {J : jwt.Jws} {V : Validator.ValidatorJs}.

Lemma comment_after_auth env db req u :
  authMiddleware env db req = (db, Next (with_user req u)) ->
  add_comment.post env db req
  = add_comment.handler env db
      (with_validationErrors (with_user req u)
         (validationErrors req
          ++ Validator.runChains (req_body req) add_comment.chains)).
Proof.
  intros Ha. unfold add_comment.post.
  rewrite (route_next _ _ _ _ _ _ _ Ha).
  cbn [route validate]. cbn [with_user validationErrors req_body].
  destruct (add_comment.handler _ _ _) as [db' [res|req'|err]];
    reflexivity.
Qed.

Lemma comment_content_passes body c :
  body !! "content" = Some (JStr c) ->
  c <> EmptyString ->
  Validator.runChains body add_comment.chains = [].
Proof.
  intros Hb Hc. unfold Validator.runChains, add_comment.chains.
  cbn [List.map List.concat Validator.runChain Validator.field
         Validator.optional Validator.rules].
  rewrite Hb. cbn. destruct c; [congruence | reflexivity].
Qed.

(** X14. Any authenticated user, the author of the post or not, can add
    a comment with a non-empty text to a post that exists: the answer is
    201 with the post, whose comments are the comments it had followed
    by the new one, which carries the identifier of the acting identity,
    the text and the clock; the author and the other fields of the post
    are as before, and the stored post is replaced by this one. *)
Theorem comment_is_appended env db req u post text :
  authMiddleware env db req = (db, Next (with_user req u)) ->
  validationErrors req = [] ->
  Post.findById (posts db) (params_id req) = Some post ->
  req_body req !! "content" = Some (JStr text) ->
  text <> EmptyString ->
  let comment := Comment.mk (User.id u) text (now env) in
  let post' := add_comment.push comment post in
  add_comment.post env db req
  = (mkDB (users db) (Post.save (posts db) post') (categories db),
     respond 201 (Success (DataPost post')))
  /\ Post.comments post' = Post.comments post ++ [comment]
  /\ Post.author post' = Post.author post
  /\ Post._id post' = Post._id post
  /\ post' = Post.mk (Post._id post) (Post.title post) (Post.content post)
               (Post.category post) (Post.author post)
               (Post.featuredImage post) (Post.excerpt post)
               (Post.tags post) (Post.isPublished post)
               (Post.comments post ++ [comment]) (Post.slug post)
               (Post.createdAt post).
Proof.
  intros Ha He Hp Hb Ht comment post'.
  split; [|repeat split].
  rewrite (comment_after_auth _ _ _ _ Ha), He.
  rewrite (comment_content_passes _ _ Hb Ht).
  unfold add_comment.handler, posts.acting, validationResult.
  cbn [params_id with_user with_validationErrors user req_body
         validationErrors app isEmpty negb].
  rewrite Hp, Hb. reflexivity.
Qed.

(** X15. The comment route looks the post up before it reads the
    validation result: a request on a well-formed identifier, 24
    lower-case hexadecimal digits, that no post has is answered 404
    "Post not found" even when its text is missing, and a request with a
    missing or empty text on a post that exists is answered 400 with
    "Comment content is required"; in both cases the store is
    unchanged. *)
Theorem comment_checks_the_post_first env db req u :
  authMiddleware env db req = (db, Next (with_user req u)) ->
  validationErrors req = [] ->
  (canonicalId (params_id req) = true ->
   (forall q, In q (posts db) -> Post._id q <> params_id req) ->
   add_comment.post env db req = (db, respond 404 (Failure "Post not found")))
  /\ (forall post,
        Post.findById (posts db) (params_id req) = Some post ->
        Validator.toString (req_body req !! "content") = EmptyString ->
        exists errors,
          add_comment.post env db req = (db, respond 400 (Failures errors))
          /\ In (Validator.mkError (req_body req !! "content")
                   "Comment content is required" "content" "body") errors).
Proof.
  intros Ha He. rewrite (comment_after_auth _ _ _ _ Ha), He. cbn [app].
  unfold add_comment.handler, validationResult.
  cbn [params_id with_user with_validationErrors validationErrors].
  split.
  - intros _ Hnone.
    assert (Hp : Post.findById (posts db) (params_id req) = None).
    { unfold Post.findById. apply find_all_false. intros q Hq.
      apply String.eqb_neq. apply Hnone, Hq. }
    rewrite Hp. reflexivity.
  - intros post Hp Hs. rewrite Hp.
    exists (Validator.runChains (req_body req) add_comment.chains).
    assert (Hin : In (Validator.mkError (req_body req !! "content")
                        "Comment content is required" "content" "body")
                     (Validator.runChains (req_body req)
                        add_comment.chains)).
    { eapply runChains_In; [left; reflexivity|].
      apply notEmpty_reports; [exact Hs | left; reflexivity]. }
    split; [|exact Hin].
    rewrite (nonempty_isEmpty _ _ Hin). reflexivity.
Qed.
End AddComment.

Lemma comment_is_appended_witness :
  add_comment.post (J := Reference.jws) (V := Reference.validatorJs)
    Reference.env0 Reference.db0
    (Reference.request Reference.bob "64c000000000000000000001" ∅
       {[ "content" := JStr "Nice" ]})
  = (mkDB [Reference.alice; Reference.bob]
       [add_comment.push
          (Comment.mk "64b000000000000000000002" "Nice" 2000)
          Reference.post1]
       [Reference.news],
     respond 201
       (Success (DataPost
                   (add_comment.push
                      (Comment.mk "64b000000000000000000002" "Nice" 2000)
                      Reference.post1)))).
Proof.
  destruct (comment_is_appended (J := Reference.jws)
              (V := Reference.validatorJs) Reference.env0 Reference.db0
              (Reference.request Reference.bob "64c000000000000000000001" ∅
                 {[ "content" := JStr "Nice" ]})
              (User.select_minus_password Reference.bob) Reference.post1
              "Nice")
    as [Hpost _].
  - vm_compute. reflexivity.
  - reflexivity.
  - vm_compute. reflexivity.
  - vm_compute. reflexivity.
  - discriminate.
  - exact Hpost.
Defined.

Lemma comment_checks_the_post_first_witness :
  add_comment.post (J := Reference.jws) (V := Reference.validatorJs)
    Reference.env0 Reference.db0
    (Reference.request Reference.bob "64c0000000000000000000ff" ∅ ∅)
  = (Reference.db0, respond 404 (Failure "Post not found"))
  /\ exists errors,
       add_comment.post (J := Reference.jws) (V := Reference.validatorJs)
         Reference.env0 Reference.db0
         (Reference.request Reference.bob "64c000000000000000000001" ∅ ∅)
       = (Reference.db0, respond 400 (Failures errors)).
Proof.
  split.
  - destruct (comment_checks_the_post_first (J := Reference.jws)
                (V := Reference.validatorJs) Reference.env0 Reference.db0
                (Reference.request Reference.bob "64c0000000000000000000ff"
                   ∅ ∅)
                (User.select_minus_password Reference.bob))
      as [Hmissing _].
    + vm_compute. reflexivity.
    + reflexivity.
    + apply Hmissing.
      * vm_compute. reflexivity.
      * intros q [<-|[]]. vm_compute. discriminate.
  - destruct (comment_checks_the_post_first (J := Reference.jws)
                (V := Reference.validatorJs) Reference.env0 Reference.db0
                (Reference.request Reference.bob "64c000000000000000000001"
                   ∅ ∅)
                (User.select_minus_password Reference.bob))
      as [_ Hempty].
    + vm_compute. reflexivity.
    + reflexivity.
    + destruct (Hempty Reference.post1) as (errors & Hres & _).
      * vm_compute. reflexivity.
      * vm_compute. reflexivity.
      * exists errors. exact Hres.
Defined.

(** ** One post by identifier or slug *)



Lemma isLowerHexDigit_isHexDigit c :
  isLowerHexDigit c = true -> Mongoose.isHexDigit c = true.
Proof.
  destruct c as [[] [] [] [] [] [] [] []]; try discriminate; reflexivity.
Qed.

Lemma allLowerHex_hex s :
  allLowerHex s = true ->
  forallb Mongoose.isHexDigit (list_ascii_of_string s) = true.
Proof.
  induction s as [|c s IH]; [reflexivity|].
  cbn [allLowerHex list_ascii_of_string forallb].
  intros Hs. apply andb_prop in Hs. destruct Hs as [Hc Hs].
  rewrite (isLowerHexDigit_isHexDigit _ Hc), (IH Hs). reflexivity.
Qed.

Lemma canonicalId_isObjectIdHex s :
  canonicalId s = true -> get_post.isObjectIdHex s = true.
Proof.
  unfold canonicalId, get_post.isObjectIdHex. intros Hs.
  apply andb_prop in Hs. destruct Hs as [Hlen Hhex].
  rewrite Hlen, (allLowerHex_hex _ Hhex). reflexivity.
Qed.

(** X17. A request parameter that is the canonical spelling of an
    identifier, 24 lower-case hexadecimal digits, is only ever looked up
    as an identifier: when no post has it as its identifier the answer
    is 404 "Post not found", even when a stored post has it as its
    slug. *)
Theorem hexadecimal_slug_is_not_looked_up env db req :
  canonicalId (params_id req) = true ->
  (forall q, In q (posts db) -> Post._id q <> params_id req) ->
  get_post.handler env db req
  = (db, Plain (respond 404 (Failure "Post not found"))).
Proof.
  intros Hhex Hnone. unfold get_post.handler.
  rewrite (canonicalId_isObjectIdHex _ Hhex).
  unfold Post.findById. rewrite find_all_false; [reflexivity|].
  intros q Hq. apply String.eqb_neq. apply Hnone, Hq.
Qed.


Lemma hexadecimal_slug_is_not_looked_up_witness :
  Post.slug Sample.post2 = "abcdefabcdefabcdefabcdef"
  /\ get_post.handler Reference.env0 Sample.db2
       (mkRequest None "abcdefabcdefabcdefabcdef" ∅ ∅ None [])
     = (Sample.db2, Plain (respond 404 (Failure "Post not found"))).
Proof.
  split; [reflexivity|].
  apply (hexadecimal_slug_is_not_looked_up Reference.env0 Sample.db2
           (mkRequest None "abcdefabcdefabcdefabcdef" ∅ ∅ None [])).
  - vm_compute. reflexivity.
  - intros q [<-|[<-|[]]]; vm_compute; discriminate.
Defined.

(** ** The page and the limit of a list request *)

Lemma digitValue_pretty_char d :
  (d < 10)%N -> JS.digitValue 10 (pretty_N_char d) = Some (Z.of_N d).
Proof.
  intros Hd.
  assert (Hcases : (d = 0 \/ d = 1 \/ d = 2 \/ d = 3 \/ d = 4 \/ d = 5
                    \/ d = 6 \/ d = 7 \/ d = 8 \/ d = 9)%N) by lia.
  repeat (destruct Hcases as [->|Hcases]; [reflexivity|]).
  subst d. reflexivity.
Qed.

Lemma parseDigits_pretty_go x s :
  JS.parseDigits 10 (pretty_N_go x s) None
  = JS.parseDigits 10 s (if (x =? 0)%N then None else Some (Z.of_N x)).
Proof.
  revert s. induction (N.lt_wf_0 x) as [x _ IH]. intros s.
  destruct (N.eqb_spec x 0) as [->|Hx]; [reflexivity|].
  rewrite pretty_N_go_step by lia.
  rewrite IH by (apply N.div_lt; lia).
  cbn [JS.parseDigits].
  rewrite digitValue_pretty_char by (apply N.mod_lt; lia).
  f_equal. f_equal.
  pose proof (N.div_mod x 10 ltac:(lia)) as Hdm.
  destruct (N.eqb_spec (x / 10) 0) as [Hq|Hq]; cbn [default from_option id];
    lia.
Qed.

Lemma pretty_go_app x s :
  pretty_N_go x s = (pretty_N_go x EmptyString ++ s)%string.
Proof.
  revert s. induction (N.lt_wf_0 x) as [x _ IH]. intros s.
  destruct (N.eqb_spec x 0) as [->|Hx]; [reflexivity|].
  rewrite !(pretty_N_go_step x) by lia.
  rewrite (IH (x / 10)%N) by (apply N.div_lt; lia).
  rewrite (IH (x / 10)%N ltac:(apply N.div_lt; lia)
             (String (pretty_N_char (x mod 10)) EmptyString)).
  rewrite append_assoc. reflexivity.
Qed.

Lemma pretty_go_head x s :
  (0 < x)%N ->
  exists d r,
    (1 <= d < 10)%N /\ pretty_N_go x s = String (pretty_N_char d) r.
Proof.
  revert s. induction (N.lt_wf_0 x) as [x _ IH]. intros s Hx.
  rewrite pretty_N_go_step by lia.
  destruct (N.eqb_spec (x / 10) 0) as [Hq|Hq].
  - rewrite Hq, pretty_N_go_0. exists (x mod 10)%N, s.
    split; [|reflexivity].
    pose proof (N.div_mod x 10 ltac:(lia)).
    pose proof (N.mod_lt x 10 ltac:(lia)). lia.
  - apply IH; [apply N.div_lt; lia | apply N.neq_0_lt_0; exact Hq].
Qed.

Ltac parse_leading_digit :=
  cbn [JS.ToString default from_option id pretty_N_char JS.trimStart];
  repeat match goal with
         | |- context [JS.isWhiteSpace ?c] =>
             change (JS.isWhiteSpace c) with false
         end;
  cbv beta iota zeta;
  match goal with
  | |- _ <$> ?parsed = ?parsed =>
      destruct parsed as [z|]; [|reflexivity];
      cbn [fmap option_fmap option_map]; f_equal; destruct z; reflexivity
  end.

Lemma parseInt_leading_digit d r :
  (1 <= d < 10)%N ->
  JS.parseInt (Some (String (pretty_N_char d) r))
  = JS.parseDigits 10 (String (pretty_N_char d) r) None.
Proof.
  intros Hd.
  assert (Hcases : (d = 1 \/ d = 2 \/ d = 3 \/ d = 4 \/ d = 5
                    \/ d = 6 \/ d = 7 \/ d = 8 \/ d = 9)%N) by lia.
  unfold JS.parseInt.
  destruct Hcases as [->|[->|[->|[->|[->|[->|[->|[->| ->]]]]]]]];
    parse_leading_digit.
Qed.

(** The characters after the number: nothing, or something that does not
    start with a decimal digit. *)
Lemma parseDigits_stops rest acc :
  match rest with
  | EmptyString => True
  | String c _ => JS.digitValue 10 c = None
  end ->
  JS.parseDigits 10 rest acc = acc.
Proof.
  destruct rest as [|c r]; cbn; [reflexivity | intros ->; reflexivity].
Qed.

Lemma parseInt_decimal (n : N) rest :
  (0 < n)%N ->
  match rest with
  | EmptyString => True
  | String c _ => JS.digitValue 10 c = None
  end ->
  JS.parseInt (Some (pretty n ++ rest)%string) = Some (Z.of_N n).
Proof.
  intros Hn Hrest. unfold pretty, pretty_N.
  destruct (decide (n = 0%N)) as [->|_]; [lia|].
  rewrite <- pretty_go_app.
  destruct (pretty_go_head n rest Hn) as (d & r & Hd & Hhead).
  rewrite Hhead, (parseInt_leading_digit _ _ Hd), <- Hhead.
  rewrite parseDigits_pretty_go.
  destruct (N.eqb_spec n 0); [lia|]. apply parseDigits_stops, Hrest.
Qed.

(** X18. A page or a limit of at least 1 and at most 2^53 - 1 written in
    decimal in the query is read as that number, also when other
    characters follow the digits: what comes after the number is ignored
    as long as it does not start with a digit. *)
Theorem decimal_page_and_limit (req : Request) (p l : N) junk1 junk2 :
  0 < Z.of_N p <= MAX_SAFE_INTEGER ->
  0 < Z.of_N l <= MAX_SAFE_INTEGER ->
  match junk1 with
  | EmptyString => True
  | String c _ => JS.digitValue 10 c = None
  end ->
  match junk2 with
  | EmptyString => True
  | String c _ => JS.digitValue 10 c = None
  end ->
  query req !! "page" = Some (pretty p ++ junk1)%string ->
  query req !! "limit" = Some (pretty l ++ junk2)%string ->
  posts.pageOf req = Z.of_N p /\ posts.limitOf req = Z.of_N l.
Proof.
  intros [Hp _] [Hl _] Hj1 Hj2 Hqp Hql. unfold posts.pageOf, posts.limitOf.
  rewrite Hqp, Hql, !parseInt_decimal by (assumption || lia).
  unfold JS.orDefault.
  destruct (Z.eqb_spec (Z.of_N p) 0), (Z.eqb_spec (Z.of_N l) 0);
    try lia; auto.
Qed.




Lemma decimal_page_and_limit_witness :
  posts.pageOf (mkRequest None "" {[ "page" := "2nd"; "limit" := "5" ]} ∅
                  None []) = 2
  /\ posts.limitOf (mkRequest None "" {[ "page" := "2nd"; "limit" := "5" ]}
                      ∅ None []) = 5.
Proof.
  apply (decimal_page_and_limit
           (mkRequest None "" {[ "page" := "2nd"; "limit" := "5" ]} ∅
              None []) 2%N 5%N "nd" "").
  - unfold MAX_SAFE_INTEGER. lia.
  - unfold MAX_SAFE_INTEGER. lia.
  - reflexivity.
  - exact I.
  - reflexivity.
  - reflexivity.
Defined.



(** ** Categories: listing and the invariant of the names *)

(** X21. The listing of the categories answers 200 with the categories of
    the store, each as often as the store holds it, in ascending order of
    their names, and leaves the store unchanged. *)
Theorem categories_are_listed_by_name env db req :
  exists listing,
    categories_routes.get_handler env db req
    = (db, respond 200 (Success (DataCategories listing)))
    /\ Sorted Category.byName listing
    /\ listing ≡ₚ categories db.
Proof.
  exists (Category.find_sorted_by_name (categories db)).
  split; [reflexivity | apply find_sorted_by_name_spec].
Qed.

Lemma existsb_false_all {A} (f : A -> bool) l :
  existsb f l = false -> forall x, In x l -> f x = false.
Proof.
  induction l as [|a l IH]; intros He x Hx; [destruct Hx|].
  cbn [existsb] in He. apply orb_false_iff in He. destruct He as [Ha Hl].
  destruct Hx as [<-|Hx]; [exact Ha | apply IH; assumption].
Qed.

Lemma post_handler_keeps_unique env db req :
  uniqueNames (categories db) ->
  uniqueNames (categories (fst (categories_routes.post_handler env db req))).
Proof.
  intros Hu. unfold categories_routes.post_handler.
  destruct (negb (isEmpty (validationResult req))); [exact Hu|].
  destruct (Category.findOne_name _ _) as [[existing|]|e];
    cbn [mbind Completion_bind bind try_catch fst]; try exact Hu.
  unfold Category.save.
  destruct (Category.validate_name _); cbn [negb fst]; [|exact Hu].
  destruct (existsb _ _) eqn:Hex; cbn [fst categories]; [exact Hu|].
  unfold uniqueNames in *.
  change (NoDup (List.map Category.name
                   (categories db
                    ++ [Category.new (newObjectId env) (now env)
                          (req_body req !! "name")]))).
  rewrite List.map_app. cbn [List.map].
  apply list.NoDup_app. split; [exact Hu|]. split.
  - intros x Hx Hx'. apply list_elem_of_In in Hx.
    apply list_elem_of_In in Hx'. destruct Hx' as [<-|[]].
    apply List.in_map_iff in Hx. destruct Hx as (d & Hname & Hd).
    pose proof (existsb_false_all _ _ Hex d Hd) as Hne.
    apply String.eqb_neq in Hne. congruence.
  - apply list.NoDup_singleton.
Qed.

Lemma post_handler_keeps_others env db req :
  users (fst (categories_routes.post_handler env db req)) = users db
  /\ posts (fst (categories_routes.post_handler env db req)) = posts db.
Proof.
  unfold categories_routes.post_handler.
  destruct (negb (isEmpty (validationResult req))); [auto|].
  destruct (Category.findOne_name _ _) as [[existing|]|e];
    cbn [mbind Completion_bind bind try_catch fst]; auto.
  destruct (Category.save _ _); cbn; auto.
Qed.

Section CategoryInvariant.
Context {J : jwt.Jws} {V : Validator.ValidatorJs}.

Lemma post_route_store env db req :
  fst (categories_routes.post env db req) = db
  \/ exists req',
       fst (categories_routes.post env db req)
       = fst (categories_routes.post_handler env db req').
Proof.
  unfold categories_routes.post. cbn [route].
  rewrite authMiddleware_unfold.
  destruct (AuthGate_outcome env db req) as [Hdb _].
  destruct (AuthGate env db req) as [db' [res|req'|err]]; cbn in Hdb;
    subst db'; [left; reflexivity| |left; reflexivity].
  cbn [validate]. right.
  exists (with_validationErrors req'
            (validationErrors req'
             ++ Validator.runChains (req_body req')
                  categories_routes.post_chains)).
  destruct (categories_routes.post_handler env db _) as [db' [r|q|e]];
    reflexivity.
Qed.

(** X22. The creation route keeps the invariant of the category names:
    when the names of the store are trimmed, valid for the schema and
    unique, they still are after any request, and the request changes
    neither the users nor the posts. *)
Theorem category_names_stay_valid_and_unique env db req :
  Category.wf (categories db) ->
  uniqueNames (categories db) ->
  let db' := fst (categories_routes.post env db req) in
  Category.wf (categories db')
  /\ uniqueNames (categories db')
  /\ users db' = users db
  /\ posts db' = posts db.
Proof.
  intros Hwf Hu db'. unfold db'.
  destruct (post_route_store env db req) as [->|[req' ->]]; [auto|].
  split; [apply post_handler_keeps_wf, Hwf|].
  split; [apply post_handler_keeps_unique, Hu|].
  apply post_handler_keeps_others.
Qed.

(** X23. A name made of white space only passes the validation of the
    route, which only asks for a non-empty name, and is then refused by
    the schema once trimmed: the handler calls [next(err)] with the
    validation error of the store, not a 400 answer, and nothing is
    stored. *)
Theorem blank_name_is_refused_by_the_schema env db req u n :
  authMiddleware env db req = (db, Next (with_user req u)) ->
  validationErrors req = [] ->
  req_body req !! "name" = Some (JStr n) ->
  n <> EmptyString ->
  JS.trim n = EmptyString ->
  Category.wf (categories db) ->
  categories_routes.post env db req
  = (db, NextErr Mongoose.ValidationError).
Proof.
  intros Ha He Hb Hn Htrim Hwf.
  rewrite (post_after_auth _ _ _ _ Ha He).
  rewrite (notEmpty_name_passes _ n Hb Hn).
  unfold categories_routes.post_handler, validationResult.
  cbn [validationErrors with_validationErrors with_user req_body isEmpty
         negb].
  rewrite Hb. cbn [Category.findOne_name Mongoose.castString].
  unfold Category.set_name. rewrite Htrim.
  rewrite find_all_false.
  2: { intros c Hc. apply String.eqb_neq. intros Hempty.
       pose proof (proj1 (List.Forall_forall _ _) Hwf c Hc) as [_ Hvalid].
       rewrite Hempty in Hvalid. discriminate. }
  cbn [mbind Completion_bind bind].
  unfold Category.new, Category.save, Category.set_name.
  cbn [option_bind mbind Mongoose.castString fmap option_fmap option_map
         default from_option id Category.name].
  rewrite Htrim. reflexivity.
Qed.

(** X24. A creation request with a missing or empty name is answered 400
    with the error "Category name is required" and nothing is stored. *)
Theorem category_name_is_required env db req u :
  authMiddleware env db req = (db, Next (with_user req u)) ->
  validationErrors req = [] ->
  Validator.toString (req_body req !! "name") = EmptyString ->
  categories_routes.post env db req
  = (db, respond 400
           (Failures [Validator.mkError (req_body req !! "name")
                        "Category name is required" "name" "body"])).
Proof.
  intros Ha He Hs. rewrite (post_after_auth _ _ _ _ Ha He).
  unfold Validator.runChains, categories_routes.post_chains,
    Validator.runChain.
  cbn [List.map List.concat Validator.field Validator.optional
         Validator.rules omap list_omap Validator.check].
  rewrite Hs. reflexivity.
Qed.

(** X25. A name that has just been created cannot be created again: the
    same name sent a second time by any authenticated user, with or
    without white space around it (NBSP included), is answered 400
    "Category already exists" and the store stays as the first request
    left it. *)
Theorem category_is_created_once env db req u n env2 req2 u2 n2 :
  authMiddleware env db req = (db, Next (with_user req u)) ->
  validationErrors req = [] ->
  req_body req !! "name" = Some (JStr n) ->
  Category.validate_name (JS.trim n) = true ->
  (forall c, In c (categories db) -> Category.name c <> JS.trim n) ->
  let db' := fst (categories_routes.post env db req) in
  authMiddleware env2 db' req2 = (db', Next (with_user req2 u2)) ->
  validationErrors req2 = [] ->
  req_body req2 !! "name" = Some (JStr n2) ->
  JS.trim n2 = JS.trim n ->
  snd (categories_routes.post env db req)
    = respond 201
        (Success (DataCategory
                    (Category.mk (newObjectId env) (JS.trim n) (now env))))
  /\ categories_routes.post env2 db' req2
     = (db', respond 400 (Failure "Category already exists")).
Proof.
  intros Ha He Hb Hvalid Hfresh db'.
  pose proof (trim_nonempty _ (validate_name_nonempty _ Hvalid)) as Hn.
  assert (Hfirst : categories_routes.post env db req
                   = (mkDB (users db) (posts db)
                        (categories db
                         ++ [Category.mk (newObjectId env) (JS.trim n)
                               (now env)]),
                      respond 201
                        (Success (DataCategory
                                    (Category.mk (newObjectId env)
                                       (JS.trim n) (now env)))))).
  { rewrite (post_after_auth _ _ _ _ Ha He).
    rewrite (notEmpty_name_passes _ n Hb Hn).
    apply post_handler_new; auto. }
  unfold db'. rewrite Hfirst. cbn [fst snd].
  intros Ha2 He2 Hb2 Hsame. split; [reflexivity|].
  assert (Hn2 : n2 <> EmptyString).
  { apply trim_nonempty. rewrite Hsame.
    apply (validate_name_nonempty _ Hvalid). }
  rewrite (post_after_auth _ _ _ _ Ha2 He2).
  rewrite (notEmpty_name_passes _ n2 Hb2 Hn2).
  apply (post_handler_existing _ _ _ n2
           (Category.mk (newObjectId env) (JS.trim n) (now env))); auto.
  cbn [categories]. apply in_or_app. right. left. reflexivity.
Qed.
End CategoryInvariant.

Lemma category_names_stay_valid_and_unique_witness :
  uniqueNames
    (categories
       (fst (categories_routes.post (J := Reference.jws)
               (V := Reference.validatorJs) Reference.env0 Reference.db0
               (Reference.request Reference.alice "" ∅
                  {[ "name" := JStr "Travel" ]})))).
Proof.
  destruct (category_names_stay_valid_and_unique (J := Reference.jws)
              (V := Reference.validatorJs) Reference.env0 Reference.db0
              (Reference.request Reference.alice "" ∅
                 {[ "name" := JStr "Travel" ]}))
    as (_ & Hunique & _).
  - constructor; [|constructor]. split; vm_compute; reflexivity.
  - apply (bool_decide_unpack _). vm_compute. reflexivity.
  - exact Hunique.
Defined.

Lemma blank_name_is_refused_by_the_schema_witness :
  categories_routes.post (J := Reference.jws) (V := Reference.validatorJs)
    Reference.env0 Reference.db0
    (Reference.request Reference.alice "" ∅ {[ "name" := JStr "   " ]})
  = (Reference.db0, NextErr Mongoose.ValidationError).
Proof.
  apply (blank_name_is_refused_by_the_schema (J := Reference.jws)
           (V := Reference.validatorJs) Reference.env0 Reference.db0
           (Reference.request Reference.alice "" ∅
              {[ "name" := JStr "   " ]})
           (User.select_minus_password Reference.alice) "   ").
  - vm_compute. reflexivity.
  - reflexivity.
  - vm_compute. reflexivity.
  - discriminate.
  - reflexivity.
  - constructor; [|constructor]. split; vm_compute; reflexivity.
Defined.

Lemma category_name_is_required_witness :
  categories_routes.post (J := Reference.jws) (V := Reference.validatorJs)
    Reference.env0 Reference.db0
    (Reference.request Reference.alice "" ∅ ∅)
  = (Reference.db0,
     respond 400
       (Failures [Validator.mkError None "Category name is required" "name"
                    "body"])).
Proof.
  rewrite (category_name_is_required (J := Reference.jws)
             (V := Reference.validatorJs) Reference.env0 Reference.db0
             (Reference.request Reference.alice "" ∅ ∅)
             (User.select_minus_password Reference.alice)).
  - reflexivity.
  - vm_compute. reflexivity.
  - reflexivity.
  - reflexivity.
Defined.

Lemma category_is_created_once_witness :
  categories_routes.post (J := Reference.jws) (V := Reference.validatorJs)
    Reference.env0
    (mkDB [Reference.alice; Reference.bob] [Reference.post1]
       [Reference.news;
        Category.mk "64e000000000000000000001" "Travel" 2000])
    (Reference.request Reference.bob "" ∅
       {[ "name" := JStr (String (ascii_of_N 160) "Travel ") ]})
  = (mkDB [Reference.alice; Reference.bob] [Reference.post1]
       [Reference.news;
        Category.mk "64e000000000000000000001" "Travel" 2000],
     respond 400 (Failure "Category already exists")).
Proof.
  destruct (category_is_created_once (J := Reference.jws)
              (V := Reference.validatorJs) Reference.env0 Reference.db0
              (Reference.request Reference.alice "" ∅
                 {[ "name" := JStr "Travel" ]})
              (User.select_minus_password Reference.alice) "Travel"
              Reference.env0
              (Reference.request Reference.bob "" ∅
                 {[ "name" := JStr (String (ascii_of_N 160) "Travel ") ]})
              (User.select_minus_password Reference.bob)
              (String (ascii_of_N 160) "Travel "))
    as [_ Hsecond].
  - vm_compute. reflexivity.
  - reflexivity.
  - vm_compute. reflexivity.
  - vm_compute. reflexivity.
  - intros c [<-|[]]. vm_compute. discriminate.
  - vm_compute. reflexivity.
  - reflexivity.
  - vm_compute. reflexivity.
  - vm_compute. reflexivity.
  - exact Hsecond.
Defined.

(** ** Registration *)

Lemma find_app_none {A} (f : A -> bool) l1 l2 :
  List.find f l1 = None -> List.find f (l1 ++ l2) = List.find f l2.
Proof.
  induction l1 as [|a l1 IH]; [reflexivity|]. cbn [List.find app].
  destruct (f a); [discriminate | exact IH].
Qed.

Lemma findOne_email_string users e :
  User.findOne_email users (Some (JStr e))
  = Return (List.find (fun u => String.eqb (User.email u) e) users).
Proof. reflexivity. Qed.

Section Registration.
Context {J : jwt.Jws} {V : Validator.ValidatorJs} {S : register.UserSchema}.

Lemma register_after_validation env db req :
  validationErrors req = [] ->
  register.post env db req
  = register.handler env db
      (with_validationErrors req
         (Validator.runChains (req_body req) register.chains)).
Proof.
  intros He. unfold register.post. cbn [validate]. rewrite He. reflexivity.
Qed.

Lemma register_chains_pass body e w :
  body !! "email" = Some (JStr e) ->
  body !! "password" = Some (JStr w) ->
  Validator.runChains body register.chains = [] ->
  Validator.isEmail e = true /\ w <> EmptyString.
Proof.
  intros He Hw. unfold Validator.runChains, register.chains.
  cbn [List.map List.concat]. intros Hnil.
  apply app_eq_nil in Hnil. destruct Hnil as [_ Hnil].
  apply app_eq_nil in Hnil. destruct Hnil as [Hemail Hnil].
  apply app_eq_nil in Hnil. destruct Hnil as [Hpw _].
  unfold Validator.runChain in Hemail, Hpw.
  cbn [Validator.optional Validator.field Validator.rules] in Hemail, Hpw.
  rewrite He in Hemail. rewrite Hw in Hpw.
  cbn [omap list_omap Validator.check Validator.toString
         Validator.jsString] in Hemail, Hpw.
  split.
  - destruct (Validator.isEmail e); [reflexivity | discriminate].
  - intros ->. discriminate.
Qed.

Lemma login_chains_pass body e w :
  body !! "email" = Some (JStr e) ->
  body !! "password" = Some (JStr w) ->
  Validator.isEmail e = true ->
  w <> EmptyString ->
  Validator.runChains body auth.login_chains = [].
Proof.
  intros He Hw Hmail Hne. unfold Validator.runChains, auth.login_chains.
  cbn [List.map List.concat Validator.runChain Validator.field
         Validator.optional Validator.rules].
  rewrite He, Hw.
  cbn [omap list_omap Validator.check Validator.toString
         Validator.jsString].
  rewrite Hmail. destruct w; [congruence | reflexivity].
Qed.


Lemma register_stores env db req n e w :
  validationErrors req = [] ->
  Validator.runChains (req_body req) register.chains = [] ->
  req_body req !! "username" = Some (JStr n) ->
  req_body req !! "email" = Some (JStr e) ->
  req_body req !! "password" = Some (JStr w) ->
  User.findOne_email (users db) (Some (JStr e)) = Return None ->
  register.post env db req
  = register.answerWithToken env db
      (with_validationErrors req [])
      (User.mk (newObjectId env) n e (Some (register.hash w))).
Proof.
  intros He Hv Hn Hmail Hw Hnone.
  rewrite (register_after_validation _ _ _ He), Hv.
  unfold register.handler, validationResult, register.newUser.
  cbn [validationErrors with_validationErrors req_body isEmpty negb].
  rewrite Hn, Hmail, Hw, Hnone. reflexivity.
Qed.

(** X27. Registration and login compose: when the password check of the
    store accepts the password that a hash was made from, a registration
    with a string user name, e-mail and password that passes the
    validation, for an e-mail that no stored user has, answers 201 with a
    token and stores the user with the hash of the password; a login
    with the same e-mail and password on the store that it leaves
    answers 200 with the identifier and the name of that user. *)
Theorem registered_user_can_log_in {M : auth.UserModel}
    env db req n e w env2 req2 :
  matchesOwnHash ->
  validationErrors req = [] ->
  Validator.runChains (req_body req) register.chains = [] ->
  req_body req !! "username" = Some (JStr n) ->
  req_body req !! "email" = Some (JStr e) ->
  req_body req !! "password" = Some (JStr w) ->
  User.findOne_email (users db) (Some (JStr e)) = Return None ->
  JS.truthy (JWT_SECRET env) = true ->
  JS.truthy (JWT_SECRET env2) = true ->
  validationErrors req2 = [] ->
  req_body req2 !! "email" = Some (JStr e) ->
  req_body req2 !! "password" = Some (JStr w) ->
  let u := User.mk (newObjectId env) n e (Some (register.hash w)) in
  let db' := mkDB (users db ++ [u]) (posts db) (categories db) in
  exists token token2,
    register.post env db req
    = (db', AnswerAuth 201 (newObjectId env) (Some (JStr n))
              (Some (JStr e)) token)
    /\ auth.login env2 db' req2
       = (db', respond 200
                 (Success (DataAuth (newObjectId env) n (Some (JStr e))
                             token2))).
Proof.
  intros Hmatch He Hv Hn Hmail Hw Hnone Hs Hs2 He2 Hmail2 Hw2 u db'.
  destruct (register_chains_pass _ _ _ Hmail Hw Hv) as [Hisemail Hne].
  assert (Hsign : forall env0 : Env,
             JS.truthy (JWT_SECRET env0) = true ->
             exists token, auth.generateToken env0 u = Return token).
  { intros env0 Hs0. unfold auth.generateToken, jwt.sign. rewrite Hs0.
    eexists. reflexivity. }
  destruct (Hsign env Hs) as [token Htoken].
  destruct (Hsign env2 Hs2) as [token2 Htoken2].
  exists token, token2. split.
  - rewrite (register_stores _ _ _ _ _ _ He Hv Hn Hmail Hw Hnone).
    unfold register.answerWithToken. fold u. rewrite Htoken.
    cbn [with_validationErrors req_body]. rewrite Hn, Hmail. reflexivity.
  - unfold auth.login. cbn [route validate]. rewrite He2.
    rewrite (login_chains_pass _ _ _ Hmail2 Hw2 Hisemail Hne). cbn [app].
    unfold auth.login_handler, validationResult.
    cbn [validationErrors with_validationErrors isEmpty negb req_body].
    rewrite Hmail2, Hw2, findOne_email_string. cbn [users db'].
    rewrite findOne_email_string in Hnone. injection Hnone as Hnone.
    rewrite (find_app_none _ _ _ Hnone). cbn [List.find User.email u].
    rewrite String.eqb_refl. cbn [mbind Completion_bind bind].
    rewrite (Hmatch u w eq_refl). cbn [negb]. rewrite Htoken2. reflexivity.
Qed.

(** X28. When the signing secret is not configured, a registration that
    is otherwise accepted stores the user and then fails: the handler
    calls [next(err)] after [save()], so the user stays in the store
    without a token having been answered, and the same registration
    sent again is answered 400 "Email already in use". *)
Theorem registration_without_secret_keeps_the_user env db req n e w :
  validationErrors req = [] ->
  Validator.runChains (req_body req) register.chains = [] ->
  req_body req !! "username" = Some (JStr n) ->
  req_body req !! "email" = Some (JStr e) ->
  req_body req !! "password" = Some (JStr w) ->
  User.findOne_email (users db) (Some (JStr e)) = Return None ->
  JS.truthy (JWT_SECRET env) = false ->
  let u := User.mk (newObjectId env) n e (Some (register.hash w)) in
  let db' := mkDB (users db ++ [u]) (posts db) (categories db) in
  register.post env db req
  = (db', Plain (NextErr (Error "secretOrPrivateKey must have a value")))
  /\ forall env2,
       register.post env2 db' req
       = (db', Plain (respond 400 (Failure "Email already in use"))).
Proof.
  intros He Hv Hn Hmail Hw Hnone Hs u db'. split.
  - rewrite (register_stores _ _ _ _ _ _ He Hv Hn Hmail Hw Hnone).
    unfold register.answerWithToken, auth.generateToken, jwt.sign.
    rewrite Hs. reflexivity.
  - intros env2. rewrite (register_after_validation _ _ _ He), Hv.
    unfold register.handler, validationResult.
    cbn [validationErrors with_validationErrors req_body isEmpty negb].
    rewrite Hmail, findOne_email_string. cbn [users db'].
    rewrite findOne_email_string in Hnone. injection Hnone as Hnone.
    rewrite (find_app_none _ _ _ Hnone). cbn [List.find User.email u].
    rewrite String.eqb_refl. reflexivity.
Qed.
End Registration.

Lemma Sample_matchesOwnHash :
  matchesOwnHash (S := Sample.userSchema) (M := Reference.userModel).
Proof.
  intros u w Hpw. cbn. rewrite Hpw. cbn.
  rewrite bool_decide_eq_true_2; reflexivity.
Qed.


Lemma registered_user_can_log_in_witness :
  exists token token2 db',
    register.post (J := Reference.jws) (V := Reference.validatorJs)
      (S := Sample.userSchema) Reference.env0 Reference.db0
      (mkRequest None "" ∅ Sample.carol None [])
    = (db', AnswerAuth 201 "64e000000000000000000001" (Some (JStr "carol"))
              (Some (JStr "carol@example.org")) token)
    /\ auth.login (J := Reference.jws) (V := Reference.validatorJs)
         (M := Reference.userModel) Reference.env0 db'
         (mkRequest None "" ∅ Sample.carol None [])
       = (db', respond 200
                 (Success (DataAuth "64e000000000000000000001" "carol"
                             (Some (JStr "carol@example.org")) token2))).
Proof.
  destruct (registered_user_can_log_in (J := Reference.jws)
              (V := Reference.validatorJs) (S := Sample.userSchema)
              (M := Reference.userModel) Reference.env0 Reference.db0
              (mkRequest None "" ∅ Sample.carol None [])
              "carol" "carol@example.org" "rabbit-hole" Reference.env0
              (mkRequest None "" ∅ Sample.carol None []))
    as (token & token2 & Hreg & Hlogin).
  - exact Sample_matchesOwnHash.
  - reflexivity.
  - vm_compute. reflexivity.
  - vm_compute. reflexivity.
  - vm_compute. reflexivity.
  - vm_compute. reflexivity.
  - vm_compute. reflexivity.
  - reflexivity.
  - reflexivity.
  - reflexivity.
  - vm_compute. reflexivity.
  - vm_compute. reflexivity.
  - exists token, token2. eexists. split; [exact Hreg | exact Hlogin].
Defined.

Lemma registration_without_secret_keeps_the_user_witness :
  register.post (J := Reference.jws) (V := Reference.validatorJs)
    (S := Sample.userSchema) (mkEnv None 2000 "64e000000000000000000001")
    Reference.db0 (mkRequest None "" ∅ Sample.carol None [])
  = (mkDB [Reference.alice; Reference.bob;
           User.mk "64e000000000000000000001" "carol" "carol@example.org"
                   (Some "#rabbit-hole")]
       [Reference.post1] [Reference.news],
     Plain (NextErr (Error "secretOrPrivateKey must have a value"))).
Proof.
  destruct (registration_without_secret_keeps_the_user (J := Reference.jws)
              (V := Reference.validatorJs) (S := Sample.userSchema)
              (mkEnv None 2000 "64e000000000000000000001") Reference.db0
              (mkRequest None "" ∅ Sample.carol None [])
              "carol" "carol@example.org" "rabbit-hole")
    as [Hfirst _].
  - reflexivity.
  - vm_compute. reflexivity.
  - vm_compute. reflexivity.
  - vm_compute. reflexivity.
  - vm_compute. reflexivity.
  - vm_compute. reflexivity.
  - reflexivity.
  - exact Hfirst.
Defined.
